(** * Roadfar: alignment elements, alignment container, design-standard
      advisor and surface contours

    A shallow embedding of [core/alignment.py], [core/design_standards.py]
    and the triangulation and contour methods of [gui/canvas.py].

    Numbers.  Python [float]s are read as real numbers: every arithmetic
    operation is the exact one, and [math.sqrt], [math.hypot], [math.sin],
    [math.cos] and [math.atan2] are the mathematical functions.  Rounding
    and overflow are outside the model.  A statement that equates computed
    coordinates, lengths or angles, or that counts points through a
    quotient, is therefore a statement in exact arithmetic; the code
    agrees with it up to the rounding of binary64.  Statements
    about comparisons the code makes on its inputs, about the order and
    the sharing of points and about errors do not depend on the rounding.
    Infinite and undefined floats appear in one place only, the advisor,
    which returns [float('inf')] on purpose and whose heading arguments
    decide whether a loop ends (see [xreal]).  Python [int]s are [Z].

    Dynamic data.  Dictionaries that cross a serialisation boundary are
    association lists from strings to [value]s, in insertion order.
    A character of a string is a code point below 256: [lower] and [strip]
    act on the letters and the white space of that range as [str.lower] and
    [str.strip] do.  Exceptions are values of [exn] carried by [result].

    Loops.  A [for] loop is a fold.  A [while] loop takes a fuel; where the
    fuel is computed by the model itself ([ClothoidElement.emit_fuel]) a
    lemma shows that it is enough in exact arithmetic, and where it is a
    parameter the function returns [None] when it runs out.  A loop that
    advances by adding a float can stall in binary64 when the increment is
    below the rounding unit of the sum; the statements about such loops
    are restricted to inputs for which every turn advances. *)

From Stdlib Require Import Reals Lra Lia ZArith List String Ascii Bool Zfloor.
From Stdlib Require Import Permutation.
Import ListNotations.

Set Warnings "-register-all".
Local Open Scope string_scope.
Local Open Scope list_scope.
Local Open Scope R_scope.

(** ** The Python runtime the sources rely on *)

Module Py.

Inductive exn : Type :=
| ValueError (msg : string)
| KeyError (key : string)
| TypeError
| AttributeError
| IndexError
| ZeroDivisionError.

Inductive result (A : Type) : Type :=
| Ok (a : A)
| Raise (e : exn).
Arguments Ok {A} a.
Arguments Raise {A} e.

Definition bind {A B : Type} (m : result A) (k : A -> result B) : result B :=
  match m with
  | Ok a => k a
  | Raise e => Raise e
  end.

(** [try: m  except Exception: h] *)
Definition try_except {A : Type} (m : result A) (h : exn -> A) : A :=
  match m with
  | Ok a => a
  | Raise e => h e
  end.

(** JSON-like dynamic values. *)
Inductive value : Type :=
| VNone
| VBool (b : bool)
| VInt (z : Z)
| VFloat (r : R)
| VStr (s : string)
| VList (l : list value)
| VDict (d : list (string * value)).

Definition dict : Type := list (string * value).

(** [d.get(k)]: the first binding of [k]. *)
Fixpoint lookup (k : string) (d : dict) : option value :=
  match d with
  | [] => None
  | (k', v) :: d' => if String.eqb k k' then Some v else lookup k d'
  end.

(** [d.get(k, default)] *)
Definition get (d : dict) (k : string) (default : value) : value :=
  match lookup k d with
  | Some v => v
  | None => default
  end.

(** [d[k]] *)
Definition getitem (d : dict) (k : string) : result value :=
  match lookup k d with
  | Some v => Ok v
  | None => Raise (KeyError k)
  end.

(** Comparisons on floats, as booleans. *)
Definition ltb (x y : R) : bool := if Rlt_dec x y then true else false.
Definition leb (x y : R) : bool := if Rle_dec x y then true else false.
Definition eqb (x y : R) : bool := if Req_dec_T x y then true else false.

(** Python's two-argument [max(a, b)] and [min(a, b)]: the first argument
    unless the second is strictly larger (smaller). *)
Definition max (a b : R) : R := if ltb a b then b else a.
Definition min (a b : R) : R := if ltb b a then b else a.
Definition zmax (a b : Z) : Z := if (a <? b)%Z then b else a.

(** [math.hypot] *)
Definition hypot (x y : R) : R := sqrt (x * x + y * y).

(** [math.atan2(y, x)], with values in (-pi, pi]. *)
Definition atan2 (y x : R) : R :=
  if Rlt_dec 0 x then atan (y / x)
  else if Rlt_dec x 0 then
    (if Rle_dec 0 y then atan (y / x) + PI else atan (y / x) - PI)
  else if Rlt_dec 0 y then PI / 2
  else if Rlt_dec y 0 then - (PI / 2)
  else 0.

(** Truncation towards zero, [int(x)] on a float. *)
Definition trunc (x : R) : Z := if Rle_dec 0 x then Zfloor x else Zceil x.

(** [math.fmod(a, b)]: the remainder with the sign of [a]. *)
Definition fmod (a b : R) : R := a - b * IZR (trunc (a / b)).

(** [math.ceil] and [math.floor] *)
Definition ceil (x : R) : Z := Zceil x.
Definition floor (x : R) : Z := Zfloor x.

(** [round(x, ndigits)]: to the nearest multiple of [10 ** -ndigits],
    a tie going to the even one. *)
Definition round_half_even (x : R) : Z :=
  let f := Zfloor x in
  let d := x - IZR f in
  if ltb d 0.5 then f
  else if ltb 0.5 d then (f + 1)%Z
  else if Z.even f then f else (f + 1)%Z.

Definition round (x : R) (ndigits : nat) : R :=
  IZR (round_half_even (x * 10 ^ ndigits)) / 10 ^ ndigits.

(** [range(n)] as integers [0, 1, ..., n-1]. *)
Definition range (n : Z) : list Z := map Z.of_nat (seq 0 (Z.to_nat n)).

(** [sum(xs)]: left to right from 0. *)
Definition sum (xs : list R) : R := fold_left Rplus xs 0.

(** [str.lower()] on one character: the capital letters below 256 are
    A to Z and the accented capitals 192 to 222, the sign 215 apart. *)
Definition lower_ascii (c : ascii) : ascii :=
  let n := nat_of_ascii c in
  if orb (andb (65 <=? n)%nat (n <=? 90)%nat)
         (andb (andb (192 <=? n)%nat (n <=? 222)%nat) (negb (n =? 215)%nat))
  then ascii_of_nat (n + 32) else c.

Fixpoint lower (s : string) : string :=
  match s with
  | EmptyString => EmptyString
  | String c s' => String (lower_ascii c) (lower s')
  end.

(** The white space [str.strip()] removes: the controls 9 to 13 and 28 to
    31, the space, the next-line control 133 and the no-break space 160. *)
Definition is_space (c : ascii) : bool :=
  let n := nat_of_ascii c in
  orb (andb (9 <=? n)%nat (n <=? 13)%nat)
      (orb (andb (28 <=? n)%nat (n <=? 31)%nat)
           (orb (n =? 32)%nat (orb (n =? 133)%nat (n =? 160)%nat))).

Fixpoint lstrip (s : string) : string :=
  match s with
  | EmptyString => EmptyString
  | String c s' => if is_space c then lstrip s' else s
  end.

Fixpoint rstrip (s : string) : string :=
  match s with
  | EmptyString => EmptyString
  | String c s' =>
      match rstrip s' with
      | EmptyString => if is_space c then EmptyString else String c EmptyString
      | r => String c r
      end
  end.

Definition strip (s : string) : string := rstrip (lstrip s).

(** Truthiness of a value, as [x or default] tests it. *)
Definition truthy (v : value) : bool :=
  match v with
  | VNone => false
  | VBool b => b
  | VInt z => negb (z =? 0)%Z
  | VFloat r => negb (eqb r 0)
  | VStr s => negb (String.eqb s "")
  | VList l => match l with [] => false | _ => true end
  | VDict d => match d with [] => false | _ => true end
  end.

(** [np.linspace(a, b, num)] *)
Definition linspace (a b : R) (num : Z) : list R :=
  if (num <=? 1)%Z then map (fun _ => a) (range num)
  else map (fun i => a + IZR i * ((b - a) / IZR (num - 1))) (range num).

(** What the interpreter and the optional packages provide: the parsers
    behind [float(str)] and [int(str)], and whether [numpy] was importable
    when the module was loaded. *)
Record runtime : Type := {
  str_to_float : string -> option R;
  str_to_int : string -> option Z;
  _HAS_NUMPY : bool
}.

(** [float(v)] *)
Definition float (rt : runtime) (v : value) : result R :=
  match v with
  | VFloat r => Ok r
  | VInt z => Ok (IZR z)
  | VBool b => Ok (if b then 1 else 0)
  | VStr s =>
      match str_to_float rt s with
      | Some r => Ok r
      | None => Raise (ValueError "could not convert string to float")
      end
  | _ => Raise TypeError
  end.

(** [int(v)] *)
Definition int (rt : runtime) (v : value) : result Z :=
  match v with
  | VInt z => Ok z
  | VFloat r => Ok (trunc r)
  | VBool b => Ok (if b then 1 else 0)%Z
  | VStr s =>
      match str_to_int rt s with
      | Some z => Ok z
      | None => Raise (ValueError "invalid literal for int()")
      end
  | _ => Raise TypeError
  end.

(** [tuple(v)]: the items of a list, the characters of a string, the keys
    of a dictionary. *)
Fixpoint chars (s : string) : list value :=
  match s with
  | EmptyString => []
  | String c s' => VStr (String c EmptyString) :: chars s'
  end.

Definition tuple (v : value) : result (list value) :=
  match v with
  | VList l => Ok l
  | VStr s => Ok (chars s)
  | VDict d => Ok (map (fun kv => VStr (fst kv)) d)
  | _ => Raise TypeError
  end.

(** [t[i]] on a tuple, for a non-negative literal index. *)
Definition item (t : list value) (i : nat) : result value :=
  match nth_error t i with
  | Some v => Ok v
  | None => Raise IndexError
  end.

End Py.

Notation "x <- m ;; k" := (Py.bind m (fun x => k))
  (at level 61, m at next level, right associativity).

(** ** core/alignment.py *)

Definition Point : Type := (R * R)%type.

Definition Point_eqb (p q : Point) : bool :=
  andb (Py.eqb (fst p) (fst q)) (Py.eqb (snd p) (snd q)).

(** [dist(a, b)] *)
Definition dist (a b : Point) : R := Py.hypot (fst a - fst b) (snd a - snd b).

(** [bearing(a, b)] *)
Definition bearing (a b : Point) : R := Py.atan2 (snd b - snd a) (fst b - fst a).

(** [normalize_angle(a)] *)
Definition normalize_angle (a : R) : R :=
  let a := Py.fmod a (2 * PI) in
  if Rle_dec a (- PI) then a + 2 * PI
  else if Rlt_dec PI a then a - 2 * PI
  else a.

(** [tuple(d[k])] *)
Definition tuple_at (d : Py.dict) (k : string) : Py.result (list Py.value) :=
  v <- Py.getitem d k ;;
  Py.tuple v.

(** [(float(P[0]), float(P[1]))], the coercion every element constructor
    applies to a point argument.  Typed callers pass floats already; the
    coercion is carried out here, where the argument is dynamic. *)
Definition point_of (rt : Py.runtime) (P : list Py.value) : Py.result Point :=
  x0 <- Py.item P 0 ;;
  x <- Py.float rt x0 ;;
  y0 <- Py.item P 1 ;;
  y <- Py.float rt y0 ;;
  Py.Ok (x, y).

Definition point_value (p : Point) : Py.value :=
  Py.VList [Py.VFloat (fst p); Py.VFloat (snd p)].

(** The side argument as it comes out of a dictionary.  A value that is not
    a string is different from both ['left'] and ['right'], so, like any
    other string, it makes the constructors fall back to ['left']. *)
Definition side_of (d : Py.dict) : string :=
  match Py.get d "side" (Py.VStr "left") with
  | Py.VStr s => s
  | _ => "left"
  end.

Module LineElement.
Section WithRuntime.
Context (rt : Py.runtime).

Record t : Type := mk { A : Point; B : Point; length : R }.

(** [LineElement.__init__] *)
Definition new (A B : Point) : t :=
  {| A := A; B := B; length := dist A B |}.

(** The point at parameter [t] of the segment. *)
Definition at_param (self : t) (t : R) : Point :=
  (fst (A self) + (fst (B self) - fst (A self)) * t,
   snd (A self) + (snd (B self) - snd (A self)) * t).

(** [LineElement.sample] *)
Definition sample (self : t) (step : R) : list Point :=
  if orb (Py.leb (length self) 0) (Py.leb step 0) then
    (if Py.ltb 0 (length self) then [A self; B self] else [A self])
  else
    let n := Py.zmax 1 (Py.ceil (length self / step)) in
    if Py._HAS_NUMPY rt then
      map (at_param self) (Py.linspace 0 1 (n + 1))
    else
      map (fun i => at_param self (IZR i / IZR n)) (Py.range (n + 1)).

(** [LineElement.to_dict] *)
Definition to_dict (self : t) : Py.dict :=
  [ ("type", Py.VStr "line");
    ("A", point_value (A self));
    ("B", point_value (B self));
    ("length", Py.VFloat (length self)) ].

(** [LineElement.from_dict] *)
Definition from_dict (d : Py.dict) : Py.result t :=
  tA <- tuple_at d "A" ;;
  tB <- tuple_at d "B" ;;
  a <- point_of rt tA ;;
  b <- point_of rt tB ;;
  Py.Ok (new a b).

End WithRuntime.
End LineElement.

Module ArcElement.
Section WithRuntime.
Context (rt : Py.runtime).

Record t : Type := mk {
  A : Point;
  B : Point;
  radius : R;
  side : string;
  center : Point;
  start_angle : R;
  end_angle : R;
  ccw : bool;
  length : R
}.

(** [ArcElement._compute_center_angles]: the center, the two tangent
    angles about it and the sense of rotation. *)
Definition _compute_center_angles (A B : Point) (radius : R) (side : string)
  : Py.result (Point * R * R * bool) :=
  let '(x1, y1) := A in
  let '(x2, y2) := B in
  let dx := x2 - x1 in
  let dy := y2 - y1 in
  let chord := Py.hypot dx dy in
  if Py.eqb chord 0 then
    Py.Raise (Py.ValueError "Arc: chord length is zero (A and B identical).")
  else if Py.ltb (Rabs radius) (chord / 2) then
    Py.Raise (Py.ValueError "Arc: radius is too small for the chord length.")
  else
    let mx := (x1 + x2) / 2 in
    let my := (y1 + y2) / 2 in
    let h := sqrt (Py.max 0 (radius * radius - (chord / 2) ^ 2)) in
    let ux := - dy / chord in
    let uy := dx / chord in
    let '(cx, cy) :=
      if String.eqb side "left" then (mx + ux * h, my + uy * h)
      else (mx - ux * h, my - uy * h) in
    let a1 := Py.atan2 (y1 - cy) (x1 - cx) in
    let a2 := Py.atan2 (y2 - cy) (x2 - cx) in
    let delta := normalize_angle (a2 - a1) in
    let ccw := if Py.ltb 0 delta then true else false in
    let ccw := if Py.ltb PI (Rabs delta) then negb ccw else ccw in
    Py.Ok ((cx, cy), a1, a2, ccw).

(** The signed angle [ang] that [__init__] multiplies by the radius. *)
Definition resolved_angle (start_angle end_angle : R) (ccw : bool) : R :=
  let ang := normalize_angle (end_angle - start_angle) in
  let ang := if andb ccw (Py.ltb ang 0) then ang + 2 * PI else ang in
  let ang := if andb (negb ccw) (Py.ltb 0 ang) then ang - 2 * PI else ang in
  ang.

(** [ArcElement.__init__] *)
Definition new (A B : Point) (radius : R) (side : string) : Py.result t :=
  let side := if negb (orb (String.eqb side "left") (String.eqb side "right"))
              then "left" else side in
  r <- _compute_center_angles A B radius side ;;
  let '(center, start_angle, end_angle, ccw) := r in
  let ang := resolved_angle start_angle end_angle ccw in
  Py.Ok {| A := A; B := B; radius := radius; side := side;
           center := center; start_angle := start_angle;
           end_angle := end_angle; ccw := ccw;
           length := Rabs (radius * ang) |}.

(** The absolute angular span of the element. *)
Definition span (self : t) : R :=
  Rabs (resolved_angle (start_angle self) (end_angle self) (ccw self)).

(** The point of the circle at angle [ang]. *)
Definition at_angle (self : t) (ang : R) : Point :=
  (fst (center self) + radius self * cos ang,
   snd (center self) + radius self * sin ang).

(** [ArcElement.sample] *)
Definition sample (self : t) (step : R) : list Point :=
  if orb (Py.leb (length self) 0) (Py.leb step 0) then [A self; B self]
  else
    let n := Py.zmax 1 (Py.ceil (length self / step)) in
    if ccw self then
      let span := normalize_angle (end_angle self - start_angle self) in
      let span := if Py.leb span 0 then span + 2 * PI else span in
      if Py._HAS_NUMPY rt then
        map (fun t => at_angle self (start_angle self + span * t))
            (Py.linspace 0 1 (n + 1))
      else
        map (fun i => at_angle self (start_angle self + span * (IZR i / IZR n)))
            (Py.range (n + 1))
    else
      let span := normalize_angle (start_angle self - end_angle self) in
      let span := if Py.leb span 0 then span + 2 * PI else span in
      if Py._HAS_NUMPY rt then
        map (fun t => at_angle self (start_angle self - span * t))
            (Py.linspace 0 1 (n + 1))
      else
        map (fun i => at_angle self (start_angle self - span * (IZR i / IZR n)))
            (Py.range (n + 1)).

(** [ArcElement.to_dict] *)
Definition to_dict (self : t) : Py.dict :=
  [ ("type", Py.VStr "arc");
    ("A", point_value (A self));
    ("B", point_value (B self));
    ("radius", Py.VFloat (radius self));
    ("side", Py.VStr (side self));
    ("center", point_value (center self));
    ("start_angle", Py.VFloat (start_angle self));
    ("end_angle", Py.VFloat (end_angle self));
    ("ccw", Py.VBool (ccw self));
    ("length", Py.VFloat (length self)) ].

(** [ArcElement.from_dict] *)
Definition from_dict (d : Py.dict) : Py.result t :=
  tA <- tuple_at d "A" ;;
  tB <- tuple_at d "B" ;;
  radius <- Py.float rt (Py.get d "radius" (Py.VFloat 0)) ;;
  let side := side_of d in
  a <- point_of rt tA ;;
  b <- point_of rt tB ;;
  new a b radius side.

End WithRuntime.
End ArcElement.

Module ClothoidElement.
Section WithRuntime.
Context (rt : Py.runtime).

Record t : Type := mk {
  P0 : Point;
  P1 : Point;
  radius : R;
  spiral_length : R;
  samples : Z;
  side : string;
  poly : list Point;
  length : R
}.

(** One vertex of the approximating polyline, at parameter [t]. *)
Definition vertex (P0 P1 : Point) (ux uy L offset_scale : R) (t : R) : Point :=
  let '(x0, y0) := P0 in
  let '(x1, y1) := P1 in
  let px := x0 + (x1 - x0) * t in
  let py := y0 + (y1 - y0) * t in
  let off := sin (PI * t) * (L * offset_scale) in
  (px + ux * off, py + uy * off).

(** [ClothoidElement._build_poly] *)
Definition _build_poly (P0 P1 : Point) (radius spiral_length : R)
    (samples : Z) (side : string) : list Point :=
  let '(x0, y0) := P0 in
  let '(x1, y1) := P1 in
  let L := dist P0 P1 in
  if Py.leb L 1e-9 then [P0]
  else
    let ux := - (y1 - y0) / L in
    let uy := (x1 - x0) / L in
    let '(ux, uy) := if String.eqb side "right" then (- ux, - uy) else (ux, uy) in
    let offset_scale :=
      (spiral_length / Py.max 1 L) * (1 / Py.max 1 (Rabs radius)) * 0.5 in
    if Py._HAS_NUMPY rt then
      map (vertex P0 P1 ux uy L offset_scale) (Py.linspace 0 1 (samples + 1))
    else
      map (fun i => vertex P0 P1 ux uy L offset_scale (IZR i / IZR samples))
          (Py.range (samples + 1)).

(** The cumulative segment length of a polyline, as [__init__] adds it up. *)
Fixpoint poly_length (acc : R) (poly : list Point) : R :=
  match poly with
  | p :: ((q :: _) as rest) => poly_length (acc + dist p q) rest
  | _ => acc
  end.

(** [ClothoidElement.__init__] *)
Definition new (P0 P1 : Point) (radius spiral_length : R) (samples : Z)
    (side : string) : t :=
  let spiral_length := Py.max 0 spiral_length in
  let samples := Py.zmax 4 samples in
  let side := if orb (String.eqb side "left") (String.eqb side "right")
              then side else "left" in
  let poly := _build_poly P0 P1 radius spiral_length samples side in
  {| P0 := P0; P1 := P1; radius := radius; spiral_length := spiral_length;
     samples := samples; side := side; poly := poly;
     length := poly_length 0 poly |}.

(** The walker of [sample]: the last emitted point, the distance
    accumulated since, and the output so far. *)
Record walker : Type := {
  prev : Point;
  acc : R;
  out : list Point
}.

(** The inner [while acc + seg >= step] loop along the segment that ends
    at [cur]; [fuel] bounds the number of iterations. *)
Fixpoint emit (fuel : nat) (step : R) (cur : Point) (w : walker) (seg : R)
  : walker * R :=
  match fuel with
  | O => (w, seg)
  | S fuel' =>
      if Py.leb step (acc w + seg) then
        let need := step - acc w in
        let r := need / seg in
        let x := fst (prev w) + (fst cur - fst (prev w)) * r in
        let y := snd (prev w) + (snd cur - snd (prev w)) * r in
        emit fuel' step cur
             {| prev := (x, y); acc := 0; out := out w ++ [(x, y)] |}
             (dist (x, y) cur)
      else (w, seg)
  end.

(** The iterations the inner loop makes from [acc] along a segment of
    length [seg]: one point every [step]. *)
Definition emit_fuel (step acc seg : R) : nat :=
  S (Z.to_nat (Zfloor ((acc + seg) / step))).

(** One iteration of the [for] loop over the polyline. *)
Definition visit (step : R) (w : walker) (cur : Point) : walker :=
  let seg := dist (prev w) cur in
  if Py.leb seg 1e-12 then {| prev := cur; acc := acc w; out := out w |}
  else
    let '(w', seg') := emit (emit_fuel step (acc w) seg) step cur w seg in
    {| prev := cur; acc := acc w' + seg'; out := out w' |}.

(** [ClothoidElement.sample] *)
Definition sample (self : t) (step : R) : list Point :=
  match poly self with
  | [] => [P0 self]
  | p0 :: rest =>
      if Py.leb step 0 then poly self
      else
        let w := fold_left (visit step) rest
                   {| prev := p0; acc := 0; out := [p0] |} in
        let final := List.last (poly self) p0 in
        match rev (out w) with
        | [] => out w ++ [final]
        | l :: _ => if negb (Point_eqb l final) then out w ++ [final] else out w
        end
  end.

(** [ClothoidElement.to_dict] *)
Definition to_dict (self : t) : Py.dict :=
  [ ("type", Py.VStr "clothoid_poly");
    ("P0", point_value (P0 self));
    ("P1", point_value (P1 self));
    ("radius", Py.VFloat (radius self));
    ("spiral_length", Py.VFloat (spiral_length self));
    ("samples", Py.VInt (samples self));
    ("side", Py.VStr (side self)) ].

(** [ClothoidElement.from_dict] *)
Definition from_dict (d : Py.dict) : Py.result t :=
  t0 <- tuple_at d "P0" ;;
  t1 <- tuple_at d "P1" ;;
  radius <- Py.float rt (Py.get d "radius" (Py.VFloat 0)) ;;
  spiral_length <- Py.float rt (Py.get d "spiral_length" (Py.VFloat 10)) ;;
  samples <- Py.int rt (Py.get d "samples" (Py.VInt 64)) ;;
  let side := side_of d in
  p0 <- point_of rt t0 ;;
  p1 <- point_of rt t1 ;;
  Py.Ok (new p0 p1 radius spiral_length samples side).

End WithRuntime.
End ClothoidElement.

(** The closed set of element variants behind [BaseElement]. *)
Inductive BaseElement : Type :=
| Line (e : LineElement.t)
| Arc (e : ArcElement.t)
| Clothoid (e : ClothoidElement.t).

(** [el.length] *)
Definition element_length (el : BaseElement) : R :=
  match el with
  | Line e => LineElement.length e
  | Arc e => ArcElement.length e
  | Clothoid e => ClothoidElement.length e
  end.

(** [el.sample(step)] *)
Definition element_sample (rt : Py.runtime) (el : BaseElement) (step : R) : list Point :=
  match el with
  | Line e => LineElement.sample rt e step
  | Arc e => ArcElement.sample rt e step
  | Clothoid e => ClothoidElement.sample e step
  end.

(** [el.to_dict()] *)
Definition element_to_dict (el : BaseElement) : Py.dict :=
  match el with
  | Line e => LineElement.to_dict e
  | Arc e => ArcElement.to_dict e
  | Clothoid e => ClothoidElement.to_dict e
  end.

(** Python's list operations with integer indices. *)
Module PyList.
Section Ops.
Context {T : Type}.

(** [l.insert(i, x)]: a negative index counts from the end, and an index
    beyond either end is moved to that end. *)
Definition insert (l : list T) (i : Z) (x : T) : list T :=
  let n := Z.of_nat (List.length l) in
  let i := if (i <? 0)%Z then (i + n)%Z else i in
  let i := if (i <? 0)%Z then 0%Z else i in
  let i := if (n <? i)%Z then n else i in
  firstn (Z.to_nat i) l ++ x :: skipn (Z.to_nat i) l.

(** [del l[i]] for [0 <= i < len(l)]. *)
Definition delete (l : list T) (i : Z) : list T :=
  firstn (Z.to_nat i) l ++ skipn (S (Z.to_nat i)) l.

(** [l.pop(i)] for [0 <= i < len(l)]: the item and the rest. *)
Definition pop (l : list T) (i : Z) : option (T * list T) :=
  match nth_error l (Z.to_nat i) with
  | Some x => Some (x, delete l i)
  | None => None
  end.

Definition len (l : list T) : Z := Z.of_nat (List.length l).

(** [l[i]]: a negative index counts from the end. *)
Definition index (l : list T) (i : Z) : Py.result T :=
  let j := if (i <? 0)%Z then (i + len l)%Z else i in
  if (j <? 0)%Z then Py.Raise Py.IndexError
  else match nth_error l (Z.to_nat j) with
       | Some x => Py.Ok x
       | None => Py.Raise Py.IndexError
       end.
End Ops.
End PyList.

Module Alignment.
Section WithRuntime.
Context (rt : Py.runtime).

Record t : Type := mk {
  name : Py.value;
  elements : list BaseElement;
  total_length : R
}.

(** [Alignment._rebuild_cache] *)
Definition _rebuild_cache (self : t) : t :=
  {| name := name self; elements := elements self;
     total_length := Py.sum (map element_length (elements self)) |}.

(** [self.elements = els] *)
Definition set_elements (self : t) (els : list BaseElement) : t :=
  {| name := name self; elements := els; total_length := total_length self |}.

(** [Alignment.__init__] *)
Definition new (name : Py.value) : t :=
  _rebuild_cache {| name := name; elements := []; total_length := 0 |}.

(** [Alignment.add_line] *)
Definition add_line (self : t) (A B : Point) : t * LineElement.t :=
  let el := LineElement.new A B in
  (_rebuild_cache (set_elements self (elements self ++ [Line el])), el).

(** [Alignment.insert_element] *)
Definition insert_element (self : t) (index : Z) (el : BaseElement) : t :=
  let index :=
    if (index <? 0)%Z
    then Py.zmax 0 (PyList.len (elements self) + 1 + index)
    else index in
  _rebuild_cache (set_elements self (PyList.insert (elements self) index el)).

(** [Alignment.remove_element] *)
Definition remove_element (self : t) (index : Z) : t :=
  if andb (0 <=? index)%Z (index <? PyList.len (elements self))%Z then
    _rebuild_cache (set_elements self (PyList.delete (elements self) index))
  else self.

(** [Alignment.move_element] *)
Definition move_element (self : t) (from_idx to_idx : Z) : t :=
  if andb (andb (0 <=? from_idx)%Z (from_idx <? PyList.len (elements self))%Z)
          (andb (0 <=? to_idx)%Z (to_idx <=? PyList.len (elements self))%Z)
  then
    match PyList.pop (elements self) from_idx with
    | Some (el, rest) =>
        _rebuild_cache (set_elements self (PyList.insert rest to_idx el))
    | None => self
    end
  else self.

(** [Alignment.add_arc_by_points_radius]: the constructor may raise, and
    then [self] is left as it was. *)
Definition add_arc_by_points_radius (self : t) (A B : Point) (radius : R)
    (side : string) : Py.result (t * ArcElement.t) :=
  el <- ArcElement.new A B radius side ;;
  Py.Ok (_rebuild_cache (set_elements self (elements self ++ [Arc el])), el).

(** [Alignment.add_clothoid] *)
Definition add_clothoid (self : t) (P0 P1 : Point) (radius spiral_length : R)
    (samples : Z) (side : string) : t * ClothoidElement.t :=
  let el := ClothoidElement.new rt P0 P1 radius spiral_length samples side in
  (_rebuild_cache (set_elements self (elements self ++ [Clothoid el])), el).

(** [Alignment.clear] *)
Definition clear (self : t) : t :=
  _rebuild_cache (set_elements self []).

(** [Alignment.sample].  The element samplers are total here, so the
    [except] arm around [el.sample] has nothing to catch. *)
Definition sample (self : t) (step : R) : list Point :=
  fold_left
    (fun pts el =>
       let spts := element_sample rt el step in
       match spts with
       | [] => pts
       | s0 :: stail =>
           match rev pts with
           | last :: _ => if Point_eqb last s0 then pts ++ stail else pts ++ spts
           | [] => pts ++ spts
           end
       end)
    (elements self) [].

(** [Alignment.to_dict] *)
Definition to_dict (self : t) : Py.dict :=
  [ ("name", name self);
    ("elements", Py.VList (map (fun el => Py.VDict (element_to_dict el)) (elements self))) ].

(** The body of the [try] in [from_dict]: [None] stands for [continue]
    on an unknown type. *)
Definition element_from_dict (ed : Py.value) : Py.result (option BaseElement) :=
  match ed with
  | Py.VDict ed =>
      match Py.get ed "type" (Py.VStr "") with
      | Py.VStr ty =>
          let t := Py.lower ty in
          if String.eqb t "line" then
            e <- LineElement.from_dict rt ed ;; Py.Ok (Some (Line e))
          else if String.eqb t "arc" then
            e <- ArcElement.from_dict rt ed ;; Py.Ok (Some (Arc e))
          else if orb (String.eqb t "clothoid_poly") (String.eqb t "clothoid") then
            e <- ClothoidElement.from_dict rt ed ;; Py.Ok (Some (Clothoid e))
          else Py.Ok None
      | _ => Py.Raise Py.AttributeError
      end
  | _ => Py.Raise Py.AttributeError
  end.

(** [Alignment.from_dict]: a malformed element is skipped. *)
Definition from_dict (d : Py.dict) : Py.result t :=
  let aln := new (Py.get d "name" (Py.VStr "alignment")) in
  el_list <- Py.tuple (Py.get d "elements" (Py.VList [])) ;;
  let els :=
    fold_left
      (fun acc ed =>
         match Py.try_except (element_from_dict ed) (fun _ => None) with
         | Some el => acc ++ [el]
         | None => acc
         end)
      el_list (elements aln) in
  Py.Ok (_rebuild_cache (set_elements aln els)).

End WithRuntime.
End Alignment.

(** ** core/design_standards.py *)

(** Floats that may be infinite or undefined.  The advisor returns
    [float('inf')] on purpose, and headings are floats handed in by the
    caller; their arithmetic follows IEEE 754. *)
Inductive xreal : Type :=
| Fin (r : R)
| PInf
| NInf
| NaN.

Module X.

Definition neg (a : xreal) : xreal :=
  match a with
  | Fin r => Fin (- r)
  | PInf => NInf
  | NInf => PInf
  | NaN => NaN
  end.

Definition add (a b : xreal) : xreal :=
  match a, b with
  | NaN, _ | _, NaN => NaN
  | Fin x, Fin y => Fin (x + y)
  | PInf, NInf | NInf, PInf => NaN
  | PInf, _ | _, PInf => PInf
  | NInf, _ | _, NInf => NInf
  end.

Definition sub (a b : xreal) : xreal := add a (neg b).

(** The sign of a finite factor decides the product with an infinity. *)
Definition mul_inf (pos : bool) (r : R) : xreal :=
  if Py.ltb 0 r then (if pos then PInf else NInf)
  else if Py.ltb r 0 then (if pos then NInf else PInf)
  else NaN.

Definition mul (a b : xreal) : xreal :=
  match a, b with
  | NaN, _ | _, NaN => NaN
  | Fin x, Fin y => Fin (x * y)
  | PInf, Fin y => mul_inf true y
  | NInf, Fin y => mul_inf false y
  | Fin x, PInf => mul_inf true x
  | Fin x, NInf => mul_inf false x
  | PInf, PInf | NInf, NInf => PInf
  | PInf, NInf | NInf, PInf => NInf
  end.

Definition abs (a : xreal) : xreal :=
  match a with
  | Fin r => Fin (Rabs r)
  | PInf | NInf => PInf
  | NaN => NaN
  end.

(** [a < b]; false as soon as one side is undefined. *)
Definition ltb (a b : xreal) : bool :=
  match a, b with
  | NaN, _ | _, NaN => false
  | Fin x, Fin y => Py.ltb x y
  | NInf, NInf => false
  | NInf, _ => true
  | _, NInf => false
  | PInf, _ => false
  | Fin _, PInf => true
  end.

(** [a == b] *)
Definition eqb (a b : xreal) : bool :=
  match a, b with
  | Fin x, Fin y => Py.eqb x y
  | PInf, PInf | NInf, NInf => true
  | _, _ => false
  end.

(** [max(a, b)] *)
Definition max (a b : xreal) : xreal := if ltb a b then b else a.

End X.

Module DesignStandards.

Definition DEFAULT_REACTION_TIME : R := 2.5.
Definition DEFAULT_DECELERATION : R := 3.4.

(** The [SUPERELEVATION] table. *)
Definition SUPERELEVATION_typical : R := 0.04.
Definition SUPERELEVATION_max_recommended : R := 0.06.
Definition SUPERELEVATION_absolute_max : R := 0.08.

Definition FRICTION_TABLE : list (R * R) :=
  [ (20, 0.24); (30, 0.22); (50, 0.18); (70, 0.16); (90, 0.14); (120, 0.12) ].

(** [sorted(table, key=lambda t: t[0])]: a stable sort on the first
    component. *)
Fixpoint insert_by_key (x : R * R) (l : list (R * R)) : list (R * R) :=
  match l with
  | [] => [x]
  | y :: l' => if Py.ltb (fst x) (fst y) then x :: l else y :: insert_by_key x l'
  end.

Definition sorted_by_key (l : list (R * R)) : list (R * R) :=
  fold_left (fun acc x => insert_by_key x acc) l [].

(** A number as the comparison and arithmetic operators take it: no
    string is parsed. *)
Definition num (v : Py.value) : Py.result R :=
  match v with
  | Py.VFloat r => Py.Ok r
  | Py.VInt z => Py.Ok (IZR z)
  | Py.VBool b => Py.Ok (if b then 1 else 0)
  | _ => Py.Raise Py.TypeError
  end.

(** [a / b] on floats *)
Definition div (a b : R) : Py.result R :=
  if Py.eqb b 0 then Py.Raise Py.ZeroDivisionError else Py.Ok (a / b).

Section WithRuntime.
Context (rt : Py.runtime).

(** [kmh_to_ms] *)
Definition kmh_to_ms (v_kmh : Py.value) : R :=
  Py.try_except (v <- Py.float rt v_kmh ;; Py.Ok (v / 3.6)) (fun _ => 0).

(** [linear_interpolate] *)
Definition linear_interpolate (x x0 y0 x1 y1 : R) : R :=
  if Py.eqb x1 x0 then 0.5 * (y0 + y1)
  else let t := (x - x0) / (x1 - x0) in y0 + t * (y1 - y0).

(** The [for] loop of [recommend_friction] over consecutive rows. *)
Fixpoint friction_scan (speed : R) (table : list (R * R)) : option R :=
  match table with
  | (x0, y0) :: (((x1, y1) :: _) as rest) =>
      if andb (Py.leb x0 speed) (Py.leb speed x1)
      then Some (linear_interpolate speed x0 y0 x1 y1)
      else friction_scan speed rest
  | _ => None
  end.

(** [recommend_friction] *)
Definition recommend_friction (speed_kmh : Py.value) : R :=
  Py.try_except
    (let table := sorted_by_key FRICTION_TABLE in
     speed <- num speed_kmh ;;
     match table with
     | [] => Py.Raise Py.IndexError
     | first :: _ =>
         let last := List.last table first in
         if Py.leb speed (fst first) then Py.Ok (snd first)
         else if Py.leb (fst last) speed then Py.Ok (snd last)
         else match friction_scan speed table with
              | Some f => Py.Ok f
              | None => Py.Ok (snd last)
              end
     end)
    (fun _ => 0.15).

(** [stopping_sight_distance] *)
Definition stopping_sight_distance (speed_kmh : Py.value)
    (reaction_time decel : R) : R :=
  Py.try_except
    (let v := kmh_to_ms speed_kmh in
     braking <- div (v * v) (2 * decel) ;;
     Py.Ok (v * reaction_time + braking))
    (fun _ => 0).

(** [min_radius_from_superelevation_and_friction] *)
Definition min_radius_from_superelevation_and_friction (speed_kmh : Py.value)
    (e f : option R) : xreal :=
  Py.try_except
    (let e := match e with None => SUPERELEVATION_typical | Some e => e end in
     let f := match f with None => recommend_friction speed_kmh | Some f => f end in
     v <- Py.float rt speed_kmh ;;
     let denom := 127 * (e + f) in
     if Py.leb denom 0 then Py.Ok PInf
     else Py.Ok (Fin ((v * v) / denom)))
    (fun _ => PInf).

(** [recommend_radius_range].  The chord is a float already and no
    operation of the body can raise, so the [except] arm is not reached. *)
Definition recommend_radius_range (chord_length : R) (speed_kmh : Py.value)
  : xreal * xreal :=
  let chord := Py.max 0 chord_length in
  let baseline_min := Py.max 3 (chord / 8) in
  let baseline_max := Py.max 30 (chord * 8) in
  let r_from_sup := min_radius_from_superelevation_and_friction speed_kmh None None in
  let r_min := X.max (Fin baseline_min) (X.mul r_from_sup (Fin 0.2)) in
  let r_max := Fin baseline_max in
  let r_min := X.max (Fin 3) r_min in
  let r_max := X.max (X.add r_min (Fin 1)) r_max in
  (r_min, r_max).

(** [recommend_spiral_length_range] *)
Definition recommend_spiral_length_range (radius : R) (speed_kmh : Py.value)
  : R * R :=
  let R := Py.max 0 radius in
  let Ls_min := Py.max 3 (0.04 * R) in
  let Ls_max := Py.min (Py.max 10 (0.15 * R)) 200 in
  let Ls_min := if Py.ltb Ls_max Ls_min then Ls_max * 0.5 else Ls_min in
  (Ls_min, Ls_max).

(** [recommend_superelevation] *)
Definition recommend_superelevation (speed_kmh : Py.value) : R :=
  Py.try_except
    (v <- Py.float rt speed_kmh ;;
     if Py.leb v 50 then Py.Ok SUPERELEVATION_typical
     else if Py.leb v 100 then
       Py.Ok (Py.min SUPERELEVATION_max_recommended (SUPERELEVATION_typical + 0.01))
     else Py.Ok (Py.min SUPERELEVATION_absolute_max (SUPERELEVATION_typical + 0.02)))
    (fun _ => SUPERELEVATION_typical).

(** [recommend_label_interval] *)
Definition recommend_label_interval (speed_kmh : Py.value) : R :=
  Py.try_except
    (v <- Py.float rt speed_kmh ;;
     if Py.leb v 40 then Py.Ok 5
     else if Py.leb v 80 then Py.Ok 10
     else Py.Ok 20)
    (fun _ => 10).

(** The texts appended to [errors] and [warnings], with the numbers that
    are formatted into them. *)
Inductive message : Type :=
| RadiusNotPositive
| ChordExceedsDiameter (chord : R)
| RadiusBelowRange (radius : R) (r_min r_max : xreal)
| RadiusAboveRange (radius : R) (r_min r_max : xreal)
| RadiusFarBelowSuperelevationMinimum
| CentralRadiusNotPositive
| ChordLargeForRadius
| SpiralLengthNotPositive
| SpiralLengthBelowRange (Ls Ls_min Ls_max : R)
| SpiralLengthAboveRange (Ls Ls_min Ls_max : R)
| UnknownCurveType
| HeadingChangeTooLarge
| InternalError (ex : Py.exn).

(** The values stored under [suggestions]. *)
Inductive suggestion : Type :=
| Number (x : xreal)
| Range (lo hi : xreal).

(** The three accumulators of [validate_curve_parameters]. *)
Record accum : Type := {
  acc_errors : list message;
  acc_warnings : list message;
  acc_suggestions : list (string * suggestion)
}.

(** The returned dictionary, one field per key. *)
Record report : Type := {
  ok : bool;
  errors : list message;
  warnings : list message;
  suggestions : list (string * suggestion)
}.

(** [d[k] = v] *)
Fixpoint set_item (k : string) (v : suggestion) (d : list (string * suggestion))
  : list (string * suggestion) :=
  match d with
  | [] => [(k, v)]
  | (k', v') :: d' =>
      if String.eqb k k' then (k, v) :: d' else (k', v') :: set_item k v d'
  end.

(** Statements of the body run on the accumulators and may raise; what
    was accumulated before the exception stays. *)
Definition M (A : Type) : Type := accum -> accum * Py.result A.

Definition mret {A : Type} (a : A) : M A := fun st => (st, Py.Ok a).

Definition mbind {A B : Type} (m : M A) (k : A -> M B) : M B :=
  fun st =>
    match m st with
    | (st', Py.Ok a) => k a st'
    | (st', Py.Raise e) => (st', Py.Raise e)
    end.

Definition lift {A : Type} (r : Py.result A) : M A := fun st => (st, r).

Definition add_error (m : message) : M unit :=
  fun st => ({| acc_errors := acc_errors st ++ [m];
                acc_warnings := acc_warnings st;
                acc_suggestions := acc_suggestions st |}, Py.Ok tt).

Definition add_warning (m : message) : M unit :=
  fun st => ({| acc_errors := acc_errors st;
                acc_warnings := acc_warnings st ++ [m];
                acc_suggestions := acc_suggestions st |}, Py.Ok tt).

Definition suggest (k : string) (v : suggestion) : M unit :=
  fun st => ({| acc_errors := acc_errors st;
                acc_warnings := acc_warnings st;
                acc_suggestions := set_item k v (acc_suggestions st) |}, Py.Ok tt).

Definition when (b : bool) (m : M unit) : M unit := if b then m else mret tt.

Notation "x <~ m ;; k" := (mbind m (fun x => k))
  (at level 61, m at next level, right associativity).
Notation "m ;;; k" := (mbind m (fun _ => k))
  (at level 61, right associativity).

(** [v[i]] on a dynamic value; dictionaries here have string keys only. *)
Definition subscript (v : Py.value) (i : nat) : Py.result Py.value :=
  match v with
  | Py.VList l => Py.item l i
  | Py.VStr s => Py.item (Py.chars s) i
  | Py.VDict _ => Py.Raise (Py.KeyError "")
  | _ => Py.Raise Py.TypeError
  end.

(** [float(P[i])] *)
Definition coordinate (P : Py.value) (i : nat) : Py.result R :=
  v <- subscript P i ;; Py.float rt v.

(** [params.get(k, default)] *)
Definition params_get (params : Py.value) (k : string) (default : Py.value)
  : Py.result Py.value :=
  match params with
  | Py.VDict d => Py.Ok (Py.get d k default)
  | _ => Py.Raise Py.AttributeError
  end.

(** [(curve_type or '').lower().strip()] *)
Definition curve_type_name (curve_type : Py.value) : Py.result string :=
  match (if Py.truthy curve_type then curve_type else Py.VStr "") with
  | Py.VStr s => Py.Ok (Py.strip (Py.lower s))
  | _ => Py.Raise Py.AttributeError
  end.

(** The branch [t == 'arc']. *)
Definition arc_checks (chord : R) (r_min r_max : xreal) (params speed_kmh : Py.value)
  : M unit :=
  R <~ lift (v <- params_get params "radius" (Py.VFloat 0) ;; Py.float rt v) ;;
  if Py.leb R 0 then add_error RadiusNotPositive
  else
    when (Py.ltb (2 * R + 1e-9) chord) (add_error (ChordExceedsDiameter chord)) ;;;
    when (X.ltb (Fin R) r_min) (add_warning (RadiusBelowRange R r_min r_max)) ;;;
    when (X.ltb r_max (Fin R)) (add_warning (RadiusAboveRange R r_min r_max)) ;;;
    let min_r_sup := min_radius_from_superelevation_and_friction speed_kmh None None in
    suggest "min_radius_from_superelevation" (Number min_r_sup) ;;;
    when (andb (negb (X.eqb min_r_sup PInf))
               (X.ltb (Fin R) (X.mul (Fin 0.2) min_r_sup)))
         (add_warning RadiusFarBelowSuperelevationMinimum).

(** The branch for ['spiral_arc_spiral'] and its short names. *)
Definition spiral_checks (chord : R) (params speed_kmh : Py.value) : M unit :=
  R <~ lift (v <- params_get params "radius" (Py.VFloat 0) ;; Py.float rt v) ;;
  Ls <~ lift (v <- params_get params "spiral_length" (Py.VFloat 0) ;; Py.float rt v) ;;
  if Py.leb R 0 then add_error CentralRadiusNotPositive
  else
    when (Py.ltb (20 * R) chord) (add_warning ChordLargeForRadius) ;;;
    let '(Ls_min, Ls_max) := recommend_spiral_length_range R speed_kmh in
    suggest "spiral_length_range_m" (Range (Fin Ls_min) (Fin Ls_max)) ;;;
    if Py.leb Ls 0 then add_error SpiralLengthNotPositive
    else
      when (Py.ltb Ls Ls_min) (add_warning (SpiralLengthBelowRange Ls Ls_min Ls_max)) ;;;
      when (Py.ltb Ls_max Ls) (add_warning (SpiralLengthAboveRange Ls Ls_min Ls_max)).

Definition is_spiral_name (t : string) : bool :=
  orb (String.eqb t "spiral_arc_spiral")
      (orb (String.eqb t "spiral")
           (orb (String.eqb t "clothoid") (String.eqb t "sas"))).

(** The statements of the outer [try] up to the heading check. *)
Definition curve_checks (P_left P_right curve_type params speed_kmh : Py.value)
  : M unit :=
  xr <~ lift (coordinate P_right 0) ;;
  xl <~ lift (coordinate P_left 0) ;;
  let dx := xr - xl in
  yr <~ lift (coordinate P_right 1) ;;
  yl <~ lift (coordinate P_left 1) ;;
  let dy := yr - yl in
  let chord := Py.hypot dx dy in
  suggest "chord_length_m" (Number (Fin chord)) ;;;
  let '(r_min, r_max) := recommend_radius_range chord speed_kmh in
  suggest "radius_range_m" (Range r_min r_max) ;;;
  suggest "ssd_m"
    (Number (Fin (stopping_sight_distance speed_kmh
                    DEFAULT_REACTION_TIME DEFAULT_DECELERATION))) ;;;
  suggest "recommended_e" (Number (Fin (recommend_superelevation speed_kmh))) ;;;
  suggest "recommended_f" (Number (Fin (recommend_friction speed_kmh))) ;;;
  suggest "label_interval_m" (Number (Fin (recommend_label_interval speed_kmh))) ;;;
  t <~ lift (curve_type_name curve_type) ;;
  if String.eqb t "arc" then arc_checks chord r_min r_max params speed_kmh
  else if is_spiral_name t then spiral_checks chord params speed_kmh
  else add_error UnknownCurveType.

(** [while dh > math.pi: dh = abs(dh - 2 * math.pi)], with [fuel]
    bounding the iterations; [None] when they do not suffice. *)
Fixpoint fold_heading (fuel : nat) (dh : xreal) : option xreal :=
  if X.ltb (Fin PI) dh then
    match fuel with
    | O => None
    | S fuel' => fold_heading fuel' (X.abs (X.sub dh (Fin (2 * PI))))
    end
  else Some dh.

(** The heading check.  Headings are floats or [None]; nothing in it
    raises, so its own [except: pass] has nothing to catch. *)
Definition heading_check (fuel : nat) (left_heading_rad right_heading_rad : option xreal)
    (st : accum) : option accum :=
  match left_heading_rad, right_heading_rad with
  | Some l, Some r =>
      let dh := X.abs (X.sub r l) in
      match fold_heading fuel dh with
      | Some dh =>
          Some (if X.ltb (Fin (PI * 0.95)) dh
                then fst (add_warning HeadingChangeTooLarge st)
                else st)
      | None => None
      end
  | _, _ => Some st
  end.

Definition finish (st : accum) : report :=
  {| ok := match acc_errors st with [] => true | _ => false end;
     errors := acc_errors st;
     warnings := acc_warnings st;
     suggestions := acc_suggestions st |}.

(** [validate_curve_parameters]; [None] when the heading loop has not
    finished within [fuel] iterations. *)
Definition validate_curve_parameters (fuel : nat)
    (P_left P_right : Py.value)
    (left_heading_rad right_heading_rad : option xreal)
    (curve_type params speed_kmh : Py.value) : option report :=
  let st0 := {| acc_errors := []; acc_warnings := []; acc_suggestions := [] |} in
  match curve_checks P_left P_right curve_type params speed_kmh st0 with
  | (st, Py.Ok _) =>
      match heading_check fuel left_heading_rad right_heading_rad st with
      | Some st' => Some (finish st')
      | None => None
      end
  | (st, Py.Raise ex) => Some (finish (fst (add_error (InternalError ex) st)))
  end.

End WithRuntime.
End DesignStandards.

(** ** gui/canvas.py: triangulation and contours *)

Definition Point3 : Type := (R * R * R)%type.
Definition Triangle : Type := (Point3 * Point3 * Point3)%type.
Definition Segment : Type := (Point * Point)%type.

Module Canvas.

(** An entry of [self.shapes].  Entries are made by [add_point], with a
    float position and a [data] dictionary whose ['z'] is a float;
    [z = None] stands for a [data] without ['z']. *)
Record shape : Type := {
  type : string;
  pos : Point;
  z : option R
}.

(** What the optional packages provide: [delaunay] is
    [Delaunay(np.array(coords)).simplices] when [scipy] and [numpy] were
    importable, and [hash_points] is the built-in [hash] on the tuple of
    point triples. *)
Record env : Type := {
  delaunay : option (list Point -> Py.result (list (Z * Z * Z)));
  hash_points : list Point3 -> Z
}.

(** The fields of [CanvasWidget] that the surface computations use. *)
Record t : Type := {
  shapes : list shape;
  triangles : list (Z * Z * Z);
  _cached_triangles : option (list Triangle);
  _last_pts_hash : option Z;
  contour_main_interval : R;
  contour_sub_divisions : Z
}.

Section WithEnv.
Context (ev : env).

Definition is_point (p : shape) : bool := String.eqb (type p) "point".

(** [float(p['data'].get('z', 0.0))] *)
Definition z_of (p : shape) : R :=
  match z p with Some v => v | None => 0 end.

Definition point3_of (p : shape) : Point3 := (fst (pos p), snd (pos p), z_of p).

(** [CanvasWidget._points_hash] *)
Definition _points_hash (self : t) : option Z :=
  Some (hash_points ev (map point3_of (filter is_point (shapes self)))).

(** [get_z_at] of the fallback: the elevation of the nearest input point,
    the first one among equally near ones. *)
Fixpoint nearest (pt : Point) (coords : list Point) (i : nat)
    (best : option (nat * R)) : option (nat * R) :=
  match coords with
  | [] => best
  | c :: rest =>
      let d := (fst c - fst pt) ^ 2 + (snd c - snd pt) ^ 2 in
      let best' :=
        match best with
        | None => Some (i, d)
        | Some (_, best_d) => if Py.ltb d best_d then Some (i, d) else best
        end in
      nearest pt rest (S i) best'
  end.

Definition get_z_at (coords : list Point) (zs : list R) (pt : Point) : R :=
  match nearest pt coords 0 None with
  | Some (best_i, _) => nth best_i zs 0
  | None => 0
  end.

(** [CanvasWidget._triangulate_fallback] *)
Definition _triangulate_fallback (coords : list Point) (zs : list R) : list Triangle :=
  if (PyList.len coords <? 3)%Z then []
  else
    let n := IZR (PyList.len coords) in
    let cx := Py.sum (map fst coords) / n in
    let cy := Py.sum (map snd coords) / n in
    map (fun i =>
           let a := nth i coords (0, 0) in
           let b := nth (Nat.modulo (i + 1) (List.length coords)) coords (0, 0) in
           ((cx, cy, get_z_at coords zs (cx, cy)),
            (fst a, snd a, get_z_at coords zs a),
            (fst b, snd b, get_z_at coords zs b)))
        (seq 0 (List.length coords)).

(** One simplex of the Delaunay result turned into a triangle. *)
Definition simplex_triangle (coords : list Point) (zs : list R)
    (simplex : Z * Z * Z) : Py.result Triangle :=
  let '(i0, i1, i2) := simplex in
  c0 <- PyList.index coords i0 ;; z0 <- PyList.index zs i0 ;;
  c1 <- PyList.index coords i1 ;; z1 <- PyList.index zs i1 ;;
  c2 <- PyList.index coords i2 ;; z2 <- PyList.index zs i2 ;;
  Py.Ok ((fst c0, snd c0, z0), (fst c1, snd c1, z1), (fst c2, snd c2, z2)).

Fixpoint collect {A B : Type} (f : A -> Py.result B) (l : list A)
  : Py.result (list B) :=
  match l with
  | [] => Py.Ok []
  | a :: l' => b <- f a ;; bs <- collect f l' ;; Py.Ok (b :: bs)
  end.

(** A manual triangle, by indices into [self.shapes]. *)
Definition manual_triangle (self : t) (tri_idx : Z * Z * Z) : Py.result Triangle :=
  let '(i0, i1, i2) := tri_idx in
  v0 <- PyList.index (shapes self) i0 ;;
  v1 <- PyList.index (shapes self) i1 ;;
  v2 <- PyList.index (shapes self) i2 ;;
  Py.Ok (point3_of v0, point3_of v1, point3_of v2).

(** The automatic mesh: Delaunay when it is there and does not fail, the
    centroid fan otherwise. *)
Definition automatic_triangles (coords : list Point) (zs : list R) : list Triangle :=
  match delaunay ev with
  | Some simplices_of =>
      Py.try_except
        (simplices <- simplices_of coords ;;
         collect (simplex_triangle coords zs) simplices)
        (fun _ => _triangulate_fallback coords zs)
  | None => _triangulate_fallback coords zs
  end.

(** The manual triangles that can still be resolved. *)
Definition manual_triangles (self : t) : list Triangle :=
  flat_map
    (fun tri_idx =>
       Py.try_except (tri <- manual_triangle self tri_idx ;; Py.Ok [tri])
                     (fun _ => []))
    (triangles self).

Definition hash_eqb (a b : option Z) : bool :=
  match a, b with
  | Some h, Some h' => (h =? h')%Z
  | None, None => true
  | _, _ => false
  end.

(** [CanvasWidget.compute_triangulation]: the mesh and the widget with its
    cache fields updated. *)
Definition compute_triangulation (self : t) : list Triangle * t :=
  let pts := filter is_point (shapes self) in
  if (PyList.len pts <? 3)%Z then ([], self)
  else
    let current_hash := _points_hash self in
    let recompute :=
      let coords := map pos pts in
      let zs := map z_of pts in
      let full := automatic_triangles coords zs ++ manual_triangles self in
      (full,
       {| shapes := shapes self; triangles := triangles self;
          _cached_triangles := Some full; _last_pts_hash := current_hash;
          contour_main_interval := contour_main_interval self;
          contour_sub_divisions := contour_sub_divisions self |}) in
    match _cached_triangles self with
    | Some cached =>
        if hash_eqb current_hash (_last_pts_hash self) then (cached, self)
        else recompute
    | None => recompute
    end.

(** The contour levels and their segments, in insertion order. *)
Definition contours : Type := list (R * list Segment).

(** [while L <= maxz + eps: levels.append(round(L, 9)); L += main_interval];
    [None] when [fuel] iterations do not suffice. *)
Fixpoint main_levels (fuel : nat) (L maxz main_interval : R) (levels : list R)
  : option (list R) :=
  if Py.leb L (maxz + 1e-9) then
    match fuel with
    | O => None
    | S fuel' =>
        main_levels fuel' (L + main_interval) maxz main_interval
                    (levels ++ [Py.round L 9])
    end
  else Some levels.

(** The loop that puts [sub_divisions] levels between consecutive main
    levels. *)
Fixpoint sub_levels (sub_divisions : Z) (levels : list R) : list R :=
  match levels with
  | a :: ((b :: _) as rest) =>
      let step := (b - a) / IZR (sub_divisions + 1) in
      (a :: map (fun j => Py.round (a + IZR (j + 1) * step) 9)
                (Py.range sub_divisions))
      ++ sub_levels sub_divisions rest
  | _ => []
  end.

(** [segs[lev] = v] *)
Fixpoint set_level (lev : R) (v : list Segment) (segs : contours) : contours :=
  match segs with
  | [] => [(lev, v)]
  | (l, v') :: segs' =>
      if Py.eqb lev l then (l, v) :: segs' else (l, v') :: set_level lev v segs'
  end.

(** [segs[lev].append(s)] *)
Fixpoint append_segment (lev : R) (s : Segment) (segs : contours) : contours :=
  match segs with
  | [] => []
  | (l, v) :: segs' =>
      if Py.eqb lev l then (l, v ++ [s]) :: segs'
      else (l, v) :: append_segment lev s segs'
  end.

(** The crossing of the level with the edge from [a] to [b], if any. *)
Definition edge_crossing (lev : R) (a b : Point3) : list Point :=
  let za := snd a in
  let zb := snd b in
  if orb (andb (Py.ltb za lev) (Py.ltb zb lev))
         (andb (Py.ltb lev za) (Py.ltb lev zb)) then []
  else if Py.ltb (Rabs (zb - za)) 1e-12 then []
  else
    let t := (lev - za) / (zb - za) in
    if andb (Py.leb 0 t) (Py.leb t 1) then
      [ (fst (fst a) + (fst (fst b) - fst (fst a)) * t,
         snd (fst a) + (snd (fst b) - snd (fst a)) * t) ]
    else [].

(** The body of the loop over (triangle, level) pairs. *)
Definition cross_triangle (tri : Triangle) (segs : contours) (lev : R) : contours :=
  let '(v0, v1, v2) := tri in
  let pts_on := edge_crossing lev v0 v1 ++ edge_crossing lev v1 v2
                ++ edge_crossing lev v2 v0 in
  match pts_on with
  | pA :: pB :: _ =>
      if Py.ltb 1e-9 (Py.hypot (fst pA - fst pB) (snd pA - snd pB))
      then append_segment lev (pA, pB) segs
      else segs
  | _ => segs
  end.

Definition triangle_elevations (tri : Triangle) : list R :=
  let '(v0, v1, v2) := tri in [snd v0; snd v1; snd v2].

(** [min(zs)] and [max(zs)] on a non-empty list. *)
Definition list_min (zs : list R) : R := fold_left Py.min (tl zs) (hd 0 zs).
Definition list_max (zs : list R) : R := fold_left Py.max (tl zs) (hd 0 zs).

(** The part of [compute_contours] after the flat-surface test; it may
    raise, and it may use up the [fuel]. *)
Definition extract (fuel : nat) (tris : list Triangle) (minz maxz main_interval : R)
    (sub_divisions : Z) : option (Py.result contours) :=
  match DesignStandards.div minz main_interval with
  | Py.Raise e => Some (Py.Raise e)
  | Py.Ok q =>
      let start := IZR (Py.floor q) * main_interval in
      match main_levels fuel start maxz main_interval [] with
      | None => None
      | Some levels =>
          let levels' : Py.result (list R) :=
            if (0 <? sub_divisions)%Z then
              match levels with
              | [] => Py.Raise Py.IndexError
              | l0 :: _ =>
                  Py.Ok (sub_levels sub_divisions levels ++ [List.last levels l0])
              end
            else Py.Ok levels in
          Some (levels <- levels' ;;
                let segs := fold_left (fun segs lev => set_level lev [] segs) levels [] in
                Py.Ok (fold_left
                         (fun segs tri => fold_left (cross_triangle tri) levels segs)
                         tris segs))
      end
  end.

(** [CanvasWidget.compute_contours]: the level dictionary and the widget
    after the call; [None] when the level loop has not finished within
    [fuel] iterations.  An exception in the body gives the empty
    dictionary. *)
Definition compute_contours (fuel : nat) (self : t) (main_interval : option R)
    (sub_divisions : option Z) : option (contours * t) :=
  let '(tris, self') := compute_triangulation self in
  match tris with
  | [] => Some ([], self')
  | _ :: _ =>
      let main_interval :=
        match main_interval with
        | Some m => m
        | None => if Py.eqb (contour_main_interval self') 0 then 5
                  else contour_main_interval self'
        end in
      let sub_divisions :=
        match sub_divisions with
        | Some n => n
        | None => contour_sub_divisions self'
        end in
      let zs := flat_map triangle_elevations tris in
      let minz := list_min zs in
      let maxz := list_max zs in
      if Py.eqb minz maxz then Some ([], self')
      else
        match extract fuel tris minz maxz main_interval sub_divisions with
        | Some r => Some (Py.try_except r (fun _ => []), self')
        | None => None
        end
  end.

End WithEnv.
End Canvas.

(** ** core/alignment.py: the remaining helpers and queries *)

(** [rotate(point, angle, origin)] *)
Definition rotate (point : Point) (angle : R) (origin : Point) : Point :=
  let x := fst point - fst origin in
  let y := snd point - snd origin in
  let ca := cos angle in
  let sa := sin angle in
  let rx := x * ca - y * sa in
  let ry := x * sa + y * ca in
  (rx + fst origin, ry + snd origin).

(** [project_point_on_line(p, a, b, clamp)]: the projected point and its
    parameter. *)
Definition project_point_on_line (p a b : Point) (clamp : bool) : Point * R :=
  let '(ax, ay) := a in
  let '(bx, b_y) := b in
  let '(px, py) := p in
  let dx := bx - ax in
  let dy := b_y - ay in
  let L2 := dx * dx + dy * dy in
  if Py.eqb L2 0 then (a, 0)
  else
    let t := ((px - ax) * dx + (py - ay) * dy) / L2 in
    let t_out := if clamp then Py.max 0 (Py.min 1 t) else t in
    ((ax + t_out * dx, ay + t_out * dy), t_out).

(** The vertices one element contributes to [flatten_vertices]. *)
Definition element_vertices (el : BaseElement) : list Point :=
  match el with
  | Line e => [LineElement.A e; LineElement.B e]
  | Arc e => [ArcElement.A e; ArcElement.B e]
  | Clothoid e =>
      match ClothoidElement.poly e with
      | [] => []
      | p0 :: _ => [p0; List.last (ClothoidElement.poly e) p0]
      end
  end.

(** [(round(p[0], 9), round(p[1], 9))] *)
Definition vertex_key (p : Point) : R * R :=
  (Py.round (fst p) 9, Py.round (snd p) 9).

Definition key_eqb (k k' : R * R) : bool :=
  andb (Py.eqb (fst k) (fst k')) (Py.eqb (snd k) (snd k')).

(** [key in seen] *)
Definition key_in (k : R * R) (seen : list (R * R)) : bool :=
  existsb (key_eqb k) seen.

(** The loop of [flatten_vertices] that keeps the first point of every
    rounded position: the set [seen] and the list [out]. *)
Definition keep_first (st : list (R * R) * list Point) (p : Point)
  : list (R * R) * list Point :=
  let '(seen, out) := st in
  let key := vertex_key p in
  if negb (key_in key seen) then (seen ++ [key], out ++ [p]) else (seen, out).

(** [Alignment.flatten_vertices] *)
Definition flatten_vertices (self : Alignment.t) : list Point :=
  let pts := flat_map element_vertices (Alignment.elements self) in
  snd (fold_left keep_first pts ([], [])).

(** The search loop of [nearest_vertex] over [enumerate(verts)]: the best
    index and distance so far. *)
Fixpoint nearest_scan (pt : Point) (verts : list Point) (i : Z)
    (best : option (Z * R)) : option (Z * R) :=
  match verts with
  | [] => best
  | v :: rest =>
      let d := dist pt v in
      let best' :=
        match best with
        | None => Some (i, d)
        | Some (_, best_d) => if Py.ltb d best_d then Some (i, d) else best
        end in
      nearest_scan pt rest (i + 1)%Z best'
  end.

(** [Alignment.nearest_vertex] *)
Definition nearest_vertex (self : Alignment.t) (pt : Point) (max_dist : R)
  : option (Z * Point) :=
  let verts := flatten_vertices self in
  match nearest_scan pt verts 0 None with
  | None => None
  | Some (best_idx, best_d) =>
      if Py.ltb max_dist best_d then None
      else match PyList.index verts best_idx with
           | Py.Ok v => Some (best_idx, v)
           | Py.Raise _ => None
           end
  end.

(** ** Vocabulary of the statements *)

(** The public mutating operations of an [Alignment] instance. *)
Inductive alignment_op : Type :=
| AddLine (A B : Point)
| AddArc (A B : Point) (radius : R) (side : string)
| AddClothoid (P0 P1 : Point) (radius spiral_length : R) (samples : Z) (side : string)
| InsertElement (index : Z) (el : BaseElement)
| RemoveElement (index : Z)
| MoveElement (from_idx to_idx : Z)
| Clear.

(** The alignment after a call; a call that raises leaves it as it was. *)
Definition run_op (rt : Py.runtime) (o : alignment_op) (s : Alignment.t) : Alignment.t :=
  match o with
  | AddLine A B => fst (Alignment.add_line s A B)
  | AddArc A B radius side =>
      match Alignment.add_arc_by_points_radius s A B radius side with
      | Py.Ok (s', _) => s'
      | Py.Raise _ => s
      end
  | AddClothoid P0 P1 radius spiral_length samples side =>
      fst (Alignment.add_clothoid rt s P0 P1 radius spiral_length samples side)
  | InsertElement index el => Alignment.insert_element s index el
  | RemoveElement index => Alignment.remove_element s index
  | MoveElement from_idx to_idx => Alignment.move_element s from_idx to_idx
  | Clear => Alignment.clear s
  end.

(** The alignments a program can hold: made by the constructor or by
    [from_dict], then changed through the public operations only. *)
Inductive reachable (rt : Py.runtime) : Alignment.t -> Prop :=
| reach_new (name : Py.value) : reachable rt (Alignment.new name)
| reach_from_dict (d : Py.dict) (s : Alignment.t) :
    Alignment.from_dict rt d = Py.Ok s -> reachable rt s
| reach_op (o : alignment_op) (s : Alignment.t) :
    reachable rt s -> reachable rt (run_op rt o s).

(** The cached total is the sum of the lengths of the current elements. *)
Definition cache_consistent (s : Alignment.t) : Prop :=
  Alignment.total_length s = Py.sum (map element_length (Alignment.elements s)).

(** The chord of an arc: the distance between its tangent points, as
    [_compute_center_angles] measures it. *)
Definition chord (A B : Point) : R := Py.hypot (fst B - fst A) (snd B - snd A).

(** The sense of rotation as [_compute_center_angles] resolves it from the
    two tangent angles. *)
Definition resolved_ccw (a1 a2 : R) : bool :=
  let delta := normalize_angle (a2 - a1) in
  let ccw := if Py.ltb 0 delta then true else false in
  if Py.ltb PI (Rabs delta) then negb ccw else ccw.

(** Headings that keep the validator out of its heading loop: one of them
    is missing, or the two are at most half a turn apart. *)
Definition headings_within_half_turn (lh rh : option R) : Prop :=
  match lh, rh with
  | Some l, Some r => Rabs (r - l) <= PI
  | _, _ => True
  end.

(** An index moved into the range [lo..hi]. *)
Definition clamp (lo hi i : Z) : Z := Z.max lo (Z.min hi i).

(** Where [insert_element] puts the element in a sequence of [n]: a
    negative index counts from one past the end, and what falls outside
    [0..n] goes to the nearer end. *)
Definition insert_position (n index : Z) : Z :=
  clamp 0 n (if (index <? 0)%Z then (n + 1 + index)%Z else index).

(** An element that is what its constructor builds from its own fields, as
    the elements made by [add_line], [add_arc_by_points_radius] and
    [add_clothoid] are. *)
Definition constructed (rt : Py.runtime) (el : BaseElement) : Prop :=
  match el with
  | Line e => LineElement.new (LineElement.A e) (LineElement.B e) = e
  | Arc e =>
      ArcElement.new (ArcElement.A e) (ArcElement.B e) (ArcElement.radius e)
                     (ArcElement.side e) = Py.Ok e
  | Clothoid e =>
      ClothoidElement.new rt (ClothoidElement.P0 e) (ClothoidElement.P1 e)
        (ClothoidElement.radius e) (ClothoidElement.spiral_length e)
        (ClothoidElement.samples e) (ClothoidElement.side e) = e
  end.

(** What [from_dict] keeps of one entry of the element list. *)
Definition loaded (rt : Py.runtime) (ed : Py.value) : list BaseElement :=
  match Py.try_except (Alignment.element_from_dict rt ed) (fun _ => None) with
  | Some el => [el]
  | None => []
  end.

(** ** Example data *)

(** A runtime without [numpy] whose parsers accept nothing. *)
Definition plain_runtime : Py.runtime :=
  {| Py.str_to_float := fun _ => None;
     Py.str_to_int := fun _ => None;
     Py._HAS_NUMPY := false |}.

(** An alignment of two different lines. *)
Definition two_lines : Alignment.t :=
  fst (Alignment.add_line
         (fst (Alignment.add_line (Alignment.new (Py.VStr "a")) (0, 0) (1, 0)))
         (0, 0) (2, 0)).

(** An environment without [scipy], and one whose Delaunay triangulation
    of three points is the single triangle on them. *)
Definition fan_env : Canvas.env :=
  {| Canvas.delaunay := None; Canvas.hash_points := fun _ => 0%Z |}.

Definition delaunay_env : Canvas.env :=
  {| Canvas.delaunay := Some (fun _ => Py.Ok [(0, 1, 2)%Z]);
     Canvas.hash_points := fun _ => 0%Z |}.

Definition survey_point (x y z : R) : Canvas.shape :=
  {| Canvas.type := "point"; Canvas.pos := (x, y); Canvas.z := Some z |}.

Definition canvas_of (shapes : list Canvas.shape) : Canvas.t :=
  {| Canvas.shapes := shapes; Canvas.triangles := [];
     Canvas._cached_triangles := None; Canvas._last_pts_hash := None;
     Canvas.contour_main_interval := 5; Canvas.contour_sub_divisions := 4 |}.

(** Two points only, and three points at one elevation. *)
Definition two_point_canvas : Canvas.t :=
  canvas_of [survey_point 0 0 1; survey_point 1 0 2].

Definition flat_canvas : Canvas.t :=
  canvas_of [survey_point 0 0 5; survey_point 1 0 5; survey_point 0 1 5].

(** * Properties *)

(** ** Comparisons and small arithmetic facts *)

Lemma ltb_true (x y : R) : Py.ltb x y = true <-> x < y.
Proof. unfold Py.ltb. destruct (Rlt_dec x y); split; intros; try discriminate; tauto. Qed.

Lemma ltb_false (x y : R) : Py.ltb x y = false <-> y <= x.
Proof.
  unfold Py.ltb. destruct (Rlt_dec x y); split; intros; try discriminate; try lra; auto.
Qed.

Lemma leb_true (x y : R) : Py.leb x y = true <-> x <= y.
Proof. unfold Py.leb. destruct (Rle_dec x y); split; intros; try discriminate; tauto. Qed.

Lemma leb_false (x y : R) : Py.leb x y = false <-> y < x.
Proof.
  unfold Py.leb. destruct (Rle_dec x y); split; intros; try discriminate; try lra; auto.
Qed.

Lemma eqb_true (x y : R) : Py.eqb x y = true <-> x = y.
Proof. unfold Py.eqb. destruct (Req_dec_T x y); split; intros; try discriminate; tauto. Qed.

Lemma eqb_false (x y : R) : Py.eqb x y = false <-> x <> y.
Proof. unfold Py.eqb. destruct (Req_dec_T x y); split; intros; try discriminate; tauto. Qed.

Lemma eqb_refl (x : R) : Py.eqb x x = true.
Proof. apply eqb_true. reflexivity. Qed.

(** Settle a float comparison from the arithmetic facts in the context. *)
Ltac float_cmp :=
  match goal with
  | |- context [Py.ltb ?x ?y] =>
      first [ replace (Py.ltb x y) with true by (symmetry; apply ltb_true; lra)
            | replace (Py.ltb x y) with false by (symmetry; apply ltb_false; lra) ]
  | |- context [Py.leb ?x ?y] =>
      first [ replace (Py.leb x y) with true by (symmetry; apply leb_true; lra)
            | replace (Py.leb x y) with false by (symmetry; apply leb_false; lra) ]
  | |- context [Py.eqb ?x ?y] =>
      first [ replace (Py.eqb x y) with true by (symmetry; apply eqb_true; lra)
            | replace (Py.eqb x y) with false by (symmetry; apply eqb_false; lra) ]
  end.

Lemma hypot_nonneg (x y : R) : 0 <= Py.hypot x y.
Proof. apply sqrt_pos. Qed.

Lemma hypot_sqr (x y : R) : Py.hypot x y * Py.hypot x y = x * x + y * y.
Proof. unfold Py.hypot. apply sqrt_sqrt. nra. Qed.

Lemma hypot_zero_iff (x y : R) : Py.hypot x y = 0 <-> x = 0 /\ y = 0.
Proof.
  split.
  - intros H. pose proof (hypot_sqr x y) as Hs. rewrite H in Hs. split; nra.
  - intros [-> ->]. unfold Py.hypot. replace (0 * 0 + 0 * 0) with 0 by ring.
    apply sqrt_0.
Qed.

Lemma hypot_eq (x y r : R) : 0 <= r -> r * r = x * x + y * y -> Py.hypot x y = r.
Proof. intros Hr H. unfold Py.hypot. apply sqrt_lem_1; auto; nra. Qed.

(** ** The alignment container: indices *)

Section PyListFacts.
Context {T : Type}.

Lemma insert_at_end (l : list T) (i : Z) (x : T) :
  (PyList.len l <= i)%Z -> PyList.insert l i x = l ++ [x].
Proof.
  intros H. unfold PyList.insert, PyList.len in *. cbv zeta.
  assert (Hi : (i <? 0)%Z = false) by (apply Z.ltb_ge; lia). rewrite !Hi.
  destruct (Z.of_nat (List.length l) <? i)%Z eqn:E.
  - rewrite Nat2Z.id, firstn_all, skipn_all. reflexivity.
  - apply Z.ltb_ge in E. assert (i = Z.of_nat (List.length l)) by lia. subst i.
    rewrite Nat2Z.id, firstn_all, skipn_all. reflexivity.
Qed.

Lemma insert_at_front (l : list T) (x : T) : PyList.insert l 0 x = x :: l.
Proof.
  unfold PyList.insert. simpl.
  destruct (Z.of_nat (List.length l) <? 0)%Z eqn:E.
  - apply Z.ltb_lt in E. lia.
  - reflexivity.
Qed.

Lemma insert_in_range (l : list T) (i : Z) (x : T) :
  (0 <= i <= PyList.len l)%Z ->
  PyList.insert l i x = firstn (Z.to_nat i) l ++ x :: skipn (Z.to_nat i) l.
Proof.
  intros H. unfold PyList.insert, PyList.len in *. cbv zeta.
  assert (Hi : (i <? 0)%Z = false) by (apply Z.ltb_ge; lia). rewrite !Hi.
  assert (Hn : (Z.of_nat (List.length l) <? i)%Z = false) by (apply Z.ltb_ge; lia).
  rewrite Hn. reflexivity.
Qed.

Lemma insert_length (l : list T) (i : Z) (x : T) :
  List.length (PyList.insert l i x) = S (List.length l).
Proof.
  unfold PyList.insert. cbv zeta.
  set (k := Z.to_nat _).
  rewrite length_app. simpl.
  pose proof (firstn_skipn k l) as H.
  apply (f_equal (@List.length T)) in H. rewrite length_app in H. lia.
Qed.
End PyListFacts.

Section AlignmentIndices.

Lemma insert_element_elements (s : Alignment.t) (index : Z) (el : BaseElement) :
  let k := Z.to_nat (insert_position (PyList.len (Alignment.elements s)) index) in
  Alignment.elements (Alignment.insert_element s index el)
  = firstn k (Alignment.elements s) ++ el :: skipn k (Alignment.elements s).
Proof.
  unfold Alignment.insert_element, insert_position, clamp, Py.zmax. simpl.
  set (els := Alignment.elements s). set (n := PyList.len els).
  assert (Hn : (0 <= n)%Z) by (unfold n, PyList.len; lia).
  destruct (index <? 0)%Z eqn:Hneg.
  - apply Z.ltb_lt in Hneg.
    destruct (0 <? n + 1 + index)%Z eqn:Hpos.
    + apply Z.ltb_lt in Hpos. rewrite insert_in_range by (fold n; lia).
      replace (Z.max 0 (Z.min n (n + 1 + index))) with (n + 1 + index)%Z by lia.
      reflexivity.
    + apply Z.ltb_ge in Hpos. rewrite insert_at_front.
      replace (Z.max 0 (Z.min n (n + 1 + index))) with 0%Z by lia.
      reflexivity.
  - apply Z.ltb_ge in Hneg.
    destruct (Z_le_gt_dec index n) as [Hle | Hgt].
    + rewrite insert_in_range by (fold n; lia).
      replace (Z.max 0 (Z.min n index)) with index by lia. reflexivity.
    + rewrite insert_at_end by (fold n; lia).
      replace (Z.max 0 (Z.min n index)) with n by lia.
      unfold n, PyList.len. rewrite Nat2Z.id, firstn_all, skipn_all. reflexivity.
Qed.

Lemma move_element_out_of_range (s : Alignment.t) (from_idx to_idx : Z) :
  ~ ((0 <= from_idx < PyList.len (Alignment.elements s))%Z
     /\ (0 <= to_idx <= PyList.len (Alignment.elements s))%Z) ->
  Alignment.move_element s from_idx to_idx = s.
Proof.
  intros H. unfold Alignment.move_element.
  destruct (andb _ _) eqn:E; [| reflexivity].
  exfalso. apply H.
  apply andb_prop in E. destruct E as [E1 E2].
  apply andb_prop in E1. apply andb_prop in E2.
  destruct E1 as [E1 E1']. destruct E2 as [E2 E2'].
  apply Z.leb_le in E1, E2, E2'. apply Z.ltb_lt in E1'. lia.
Qed.

Lemma remove_element_out_of_range (s : Alignment.t) (index : Z) :
  ~ (0 <= index < PyList.len (Alignment.elements s))%Z ->
  Alignment.remove_element s index = s.
Proof.
  intros H. unfold Alignment.remove_element.
  destruct (andb _ _) eqn:E; [| reflexivity].
  exfalso. apply H. apply andb_prop in E. destruct E as [E1 E2].
  apply Z.leb_le in E1. apply Z.ltb_lt in E2. lia.
Qed.

(** C6, as the code has it: [insert_element] always inserts, at the index
    clamped into the sequence (beyond the end it appends, far enough
    below zero it prepends); [move_element] with an index outside the
    sequence and [remove_element] with an invalid index change nothing. *)
Theorem insert_clamps_move_and_remove_guard
    (s : Alignment.t) (el : BaseElement) (index from_idx to_idx : Z) :
  let els := Alignment.elements s in
  let n := PyList.len els in
  let k := Z.to_nat (insert_position n index) in
  Alignment.elements (Alignment.insert_element s index el)
    = firstn k els ++ el :: skipn k els
  /\ ((n <= index)%Z ->
      Alignment.elements (Alignment.insert_element s index el) = els ++ [el])
  /\ ((index <= - (n + 1))%Z ->
      Alignment.elements (Alignment.insert_element s index el) = el :: els)
  /\ (~ ((0 <= from_idx < n)%Z /\ (0 <= to_idx <= n)%Z) ->
      Alignment.move_element s from_idx to_idx = s)
  /\ (~ (0 <= index < n)%Z -> Alignment.remove_element s index = s).
Proof.
  intros els n k.
  assert (Hn : (0 <= n)%Z) by (unfold n, PyList.len; lia).
  pose proof (insert_element_elements s index el) as Hins. cbv zeta in Hins.
  fold els n k in Hins.
  split; [exact Hins |].
  split; [| split; [| split]].
  - intros H. rewrite Hins. unfold k, insert_position, clamp.
    assert (Hi : (index <? 0)%Z = false) by (apply Z.ltb_ge; lia). rewrite Hi.
    replace (Z.max 0 (Z.min n index)) with n by lia.
    unfold n, PyList.len. rewrite Nat2Z.id, firstn_all, skipn_all. reflexivity.
  - intros H. rewrite Hins. unfold k, insert_position, clamp.
    assert (Hi : (index <? 0)%Z = true) by (apply Z.ltb_lt; lia). rewrite Hi.
    replace (Z.max 0 (Z.min n (n + 1 + index))) with 0%Z by lia.
    reflexivity.
  - apply move_element_out_of_range.
  - apply remove_element_out_of_range.
Qed.

End AlignmentIndices.

(** C6 as stated fails for [move_element]: a target index beyond the end is
    not clamped to the end, the call leaves the sequence as it is. *)
Lemma move_element_beyond_end_is_not_clamped :
  Alignment.elements (Alignment.move_element two_lines 0 3)
  = Alignment.elements two_lines
  /\ Alignment.elements (Alignment.move_element two_lines 0 3)
     <> Alignment.elements
          (Alignment.move_element two_lines 0
             (clamp 0 (PyList.len (Alignment.elements two_lines)) 3)).
Proof.
  split.
  - reflexivity.
  - unfold two_lines, Alignment.move_element, Alignment.add_line, Alignment.new,
      Alignment._rebuild_cache, Alignment.set_elements, clamp, PyList.len,
      PyList.pop, PyList.insert, PyList.delete.
    simpl. intros H. inversion H as [[H1 H2]]. lra.
Qed.

Lemma insert_clamps_move_and_remove_guard_witness :
  Alignment.elements (Alignment.insert_element two_lines 7 (Line (LineElement.new (0, 0) (3, 0))))
  = Alignment.elements two_lines ++ [Line (LineElement.new (0, 0) (3, 0))]
  /\ Alignment.move_element two_lines 0 3 = two_lines
  /\ Alignment.remove_element two_lines (-1) = two_lines.
Proof.
  pose proof (insert_clamps_move_and_remove_guard two_lines
                (Line (LineElement.new (0, 0) (3, 0))) 7 0 3) as H1.
  pose proof (insert_clamps_move_and_remove_guard two_lines
                (Line (LineElement.new (0, 0) (3, 0))) (-1) 0 3) as H2.
  cbv zeta in H1, H2.
  destruct H1 as (_ & Hend & _ & Hmove & _).
  destruct H2 as (_ & _ & _ & _ & Hremove).
  split; [| split].
  - apply Hend. unfold two_lines, PyList.len. simpl. lia.
  - apply Hmove. unfold two_lines, PyList.len. simpl. lia.
  - apply Hremove. unfold two_lines, PyList.len. simpl. lia.
Defined.

(** ** The alignment container: the cached total length *)

Section TotalLength.
Context (rt : Py.runtime).

Lemma rebuild_cache_consistent (s : Alignment.t) :
  cache_consistent (Alignment._rebuild_cache s).
Proof. reflexivity. Qed.

Lemma new_consistent (name : Py.value) : cache_consistent (Alignment.new name).
Proof. apply rebuild_cache_consistent. Qed.

Lemma from_dict_consistent (d : Py.dict) (s : Alignment.t) :
  Alignment.from_dict rt d = Py.Ok s -> cache_consistent s.
Proof.
  unfold Alignment.from_dict. intros H.
  destruct (Py.tuple _) as [el_list | e]; simpl in H; [| discriminate].
  injection H as <-. apply rebuild_cache_consistent.
Qed.

Lemma run_op_consistent (o : alignment_op) (s : Alignment.t) :
  cache_consistent s -> cache_consistent (run_op rt o s).
Proof.
  intros Hs. destruct o; simpl.
  - apply rebuild_cache_consistent.
  - unfold Alignment.add_arc_by_points_radius.
    destruct (ArcElement.new A B radius side) as [el | e]; simpl.
    + apply rebuild_cache_consistent.
    + exact Hs.
  - apply rebuild_cache_consistent.
  - apply rebuild_cache_consistent.
  - unfold Alignment.remove_element.
    destruct (andb _ _); [apply rebuild_cache_consistent | exact Hs].
  - unfold Alignment.move_element.
    destruct (andb _ _); [| exact Hs].
    destruct (PyList.pop _ _) as [[el rest] |];
      [apply rebuild_cache_consistent | exact Hs].
  - apply rebuild_cache_consistent.
Qed.

(** C8: on every alignment obtained from the constructor or [from_dict]
    through the public mutating operations, the cached [total_length] is
    the sum of the [length] fields of the elements in the sequence. *)
Theorem total_length_is_sum_of_lengths (s : Alignment.t) :
  reachable rt s ->
  Alignment.total_length s = Py.sum (map element_length (Alignment.elements s)).
Proof.
  intros H. change (cache_consistent s).
  induction H as [name | d s Hd | o s Hs IH].
  - apply new_consistent.
  - eapply from_dict_consistent; eassumption.
  - apply run_op_consistent; assumption.
Qed.

End TotalLength.

Lemma total_length_is_sum_of_lengths_witness :
  reachable plain_runtime
    (run_op plain_runtime (MoveElement 0 2)
       (run_op plain_runtime (AddLine (0, 0) (2, 0))
          (run_op plain_runtime (AddLine (0, 0) (1, 0))
             (Alignment.new (Py.VStr "a")))))
  /\ Alignment.total_length
       (run_op plain_runtime (MoveElement 0 2)
          (run_op plain_runtime (AddLine (0, 0) (2, 0))
             (run_op plain_runtime (AddLine (0, 0) (1, 0))
                (Alignment.new (Py.VStr "a")))))
     = 0 + dist (0, 0) (2, 0) + dist (0, 0) (1, 0).
Proof.
  assert (Hr : reachable plain_runtime
                 (run_op plain_runtime (MoveElement 0 2)
                    (run_op plain_runtime (AddLine (0, 0) (2, 0))
                       (run_op plain_runtime (AddLine (0, 0) (1, 0))
                          (Alignment.new (Py.VStr "a")))))).
  { repeat apply reach_op. apply reach_new. }
  split; [exact Hr |].
  rewrite (total_length_is_sum_of_lengths plain_runtime _ Hr).
  reflexivity.
Defined.

(** ** Sampling with a step that is not positive *)

Lemma range_nonempty (n : Z) : (0 < n)%Z -> Py.range n <> [].
Proof.
  intros H. unfold Py.range.
  destruct (Z.to_nat n) as [| k] eqn:E; [lia |]. simpl. discriminate.
Qed.

Lemma range_length (n : Z) : List.length (Py.range n) = Z.to_nat n.
Proof. unfold Py.range. rewrite length_map, length_seq. reflexivity. Qed.

Lemma linspace_length (a b : R) (num : Z) :
  List.length (Py.linspace a b num) = Z.to_nat num.
Proof.
  unfold Py.linspace. destruct (num <=? 1)%Z; rewrite length_map; apply range_length.
Qed.

Lemma zmax_lower (a b : Z) : (a <= Py.zmax a b)%Z.
Proof. unfold Py.zmax. destruct (a <? b)%Z eqn:E; [apply Z.ltb_lt in E |]; lia. Qed.

Section NonPositiveStep.
Context (rt : Py.runtime).

Lemma build_poly_nonempty (P0 P1 : Point) (radius spiral_length : R)
    (samples : Z) (side : string) :
  (4 <= samples)%Z ->
  ClothoidElement._build_poly rt P0 P1 radius spiral_length samples side <> [].
Proof.
  intros Hs. unfold ClothoidElement._build_poly.
  destruct P0 as [x0 y0], P1 as [x1 y1].
  destruct (Py.leb _ _); [discriminate |].
  destruct (String.eqb side "right"); destruct (Py._HAS_NUMPY rt);
    intros H; apply (f_equal (@List.length Point)) in H;
    rewrite length_map in H; simpl in H;
    rewrite ?linspace_length, ?range_length in H; lia.
Qed.

Lemma clothoid_poly_nonempty (P0 P1 : Point) (radius spiral_length : R)
    (samples : Z) (side : string) :
  ClothoidElement.poly
    (ClothoidElement.new rt P0 P1 radius spiral_length samples side) <> [].
Proof. simpl. apply build_poly_nonempty. apply zmax_lower. Qed.

(** C10: with [step <= 0] no sampler fails: a line gives its two
    endpoints, or its start point alone when its length is not positive;
    an arc gives [[A, B]]; a clothoid gives its cached polyline. *)
Theorem sample_with_nonpositive_step
    (step : R) (l : LineElement.t) (a : ArcElement.t)
    (P0 P1 : Point) (radius spiral_length : R) (samples : Z) (side : string) :
  step <= 0 ->
  (0 < LineElement.length l ->
   LineElement.sample rt l step = [LineElement.A l; LineElement.B l])
  /\ (LineElement.length l <= 0 ->
      LineElement.sample rt l step = [LineElement.A l])
  /\ ArcElement.sample rt a step = [ArcElement.A a; ArcElement.B a]
  /\ ClothoidElement.sample
       (ClothoidElement.new rt P0 P1 radius spiral_length samples side) step
     = ClothoidElement.poly
         (ClothoidElement.new rt P0 P1 radius spiral_length samples side).
Proof.
  intros Hstep.
  assert (Hs : Py.leb step 0 = true) by (apply leb_true; exact Hstep).
  split; [| split; [| split]].
  - intros Hl. unfold LineElement.sample. rewrite Hs, orb_true_r.
    apply ltb_true in Hl. rewrite Hl. reflexivity.
  - intros Hl. unfold LineElement.sample. rewrite Hs, orb_true_r.
    assert (Hf : Py.ltb 0 (LineElement.length l) = false)
      by (apply ltb_false; exact Hl).
    rewrite Hf. reflexivity.
  - unfold ArcElement.sample. rewrite Hs, orb_true_r. reflexivity.
  - pose proof (clothoid_poly_nonempty P0 P1 radius spiral_length samples side) as Hne.
    unfold ClothoidElement.sample.
    destruct (ClothoidElement.poly _) as [| p0 rest]; [contradiction |].
    rewrite Hs. reflexivity.
Qed.

End NonPositiveStep.

Lemma sample_with_nonpositive_step_witness :
  0 <= 0
  /\ ArcElement.sample plain_runtime
       (ArcElement.mk (0, 0) (2, 0) 1 "left" (1, 0) PI 0 false PI) 0
     = [(0, 0); (2, 0)].
Proof.
  split; [lra |].
  apply (sample_with_nonpositive_step plain_runtime 0
           (LineElement.new (0, 0) (1, 0))
           (ArcElement.mk (0, 0) (2, 0) 1 "left" (1, 0) PI 0 false PI)
           (0, 0) (1, 0) 1 1 4 "left").
  lra.
Defined.

(** ** Degenerate surfaces *)

Section DegenerateSurfaces.
Context (ev : Canvas.env).

Lemma few_points_no_triangles (self : Canvas.t) :
  (List.length (filter Canvas.is_point (Canvas.shapes self)) < 3)%nat ->
  Canvas.compute_triangulation ev self = ([], self).
Proof.
  intros H. unfold Canvas.compute_triangulation, PyList.len.
  assert (E : (Z.of_nat (List.length (filter Canvas.is_point (Canvas.shapes self))) <? 3)%Z
              = true) by (apply Z.ltb_lt; lia).
  rewrite E. reflexivity.
Qed.

Lemma flat_mesh_no_contours (fuel : nat) (self : Canvas.t)
    (main_interval : option R) (sub_divisions : option Z) :
  let tris := fst (Canvas.compute_triangulation ev self) in
  let zs := flat_map Canvas.triangle_elevations tris in
  Canvas.list_min zs = Canvas.list_max zs ->
  Canvas.compute_contours ev fuel self main_interval sub_divisions
  = Some ([], snd (Canvas.compute_triangulation ev self)).
Proof.
  intros tris zs Hflat. unfold Canvas.compute_contours.
  subst zs tris.
  destruct (Canvas.compute_triangulation ev self) as [tris self'].
  simpl in *. destruct tris as [| tri tris]; [reflexivity |].
  apply eqb_true in Hflat. rewrite Hflat. reflexivity.
Qed.

(** C7: a widget with fewer than three points triangulates to the empty
    mesh (and is left as it was), and on a mesh whose least and greatest
    elevation coincide the contour extraction returns the empty level
    dictionary, whatever the intervals and the fuel. *)
Theorem degenerate_inputs_give_empty_results
    (fuel : nat) (self : Canvas.t) (main_interval : option R)
    (sub_divisions : option Z) :
  ((List.length (filter Canvas.is_point (Canvas.shapes self)) < 3)%nat ->
   Canvas.compute_triangulation ev self = ([], self))
  /\ (Canvas.list_min
        (flat_map Canvas.triangle_elevations
           (fst (Canvas.compute_triangulation ev self)))
      = Canvas.list_max
          (flat_map Canvas.triangle_elevations
             (fst (Canvas.compute_triangulation ev self))) ->
      Canvas.compute_contours ev fuel self main_interval sub_divisions
      = Some ([], snd (Canvas.compute_triangulation ev self))).
Proof.
  split.
  - apply few_points_no_triangles.
  - apply flat_mesh_no_contours.
Qed.

End DegenerateSurfaces.

Lemma flat_canvas_mesh :
  fst (Canvas.compute_triangulation delaunay_env flat_canvas)
  = [((0, 0, 5), (1, 0, 5), (0, 1, 5))].
Proof. reflexivity. Qed.

Lemma degenerate_inputs_give_empty_results_witness :
  Canvas.compute_triangulation fan_env two_point_canvas = ([], two_point_canvas)
  /\ Canvas.compute_contours delaunay_env 0 flat_canvas None None
     = Some ([], snd (Canvas.compute_triangulation delaunay_env flat_canvas)).
Proof.
  split.
  - apply (degenerate_inputs_give_empty_results fan_env 0 two_point_canvas None None).
    simpl. lia.
  - apply (degenerate_inputs_give_empty_results delaunay_env 0 flat_canvas None None).
    rewrite flat_canvas_mesh. unfold Canvas.list_min, Canvas.list_max. simpl.
    unfold Py.min, Py.max. repeat float_cmp. reflexivity.
Defined.

(** ** Feasibility of an arc *)

Lemma compute_center_angles_ok_iff (A B : Point) (radius : R) (side : string) :
  (exists r, ArcElement._compute_center_angles A B radius side = Py.Ok r)
  <-> chord A B <> 0 /\ chord A B / 2 <= Rabs radius.
Proof.
  unfold ArcElement._compute_center_angles, chord.
  destruct A as [x1 y1], B as [x2 y2]. simpl.
  destruct (Py.eqb (Py.hypot (x2 - x1) (y2 - y1)) 0) eqn:E0.
  - apply eqb_true in E0. split; [intros [r H]; discriminate | intros [H _]; contradiction].
  - apply eqb_false in E0.
    destruct (Py.ltb (Rabs radius) (Py.hypot (x2 - x1) (y2 - y1) / 2)) eqn:E1.
    + apply ltb_true in E1. split; [intros [r H]; discriminate | intros [_ H]; lra].
    + apply ltb_false in E1. split; [intros _; auto |].
      intros _. destruct (String.eqb side "left"); eexists; reflexivity.
Qed.

Lemma arc_new_ok_iff (A B : Point) (radius : R) (side : string) :
  (exists a, ArcElement.new A B radius side = Py.Ok a)
  <-> chord A B <> 0 /\ chord A B / 2 <= Rabs radius.
Proof.
  rewrite <- (compute_center_angles_ok_iff A B radius
                (if negb (orb (String.eqb side "left") (String.eqb side "right"))
                 then "left" else side)).
  unfold ArcElement.new.
  destruct (ArcElement._compute_center_angles _ _ _ _) as [[[[c a1] a2] ccw] | e]; simpl.
  - split; intros _; eexists; reflexivity.
  - split; intros [x H]; discriminate.
Qed.

Lemma chord_on_axis (x : R) : 0 <= x -> chord (0, 0) (x, 0) = x.
Proof. intros H. unfold chord. simpl. apply hypot_eq; [exact H | ring]. Qed.

(** ** Sampling a line *)

Lemma range_nth (m : Z) (i : nat) (d : Z) :
  (i < Z.to_nat m)%nat -> nth i (Py.range m) d = Z.of_nat i.
Proof.
  intros H. unfold Py.range.
  rewrite (nth_indep _ d (Z.of_nat 0)) by (rewrite length_map, length_seq; exact H).
  rewrite map_nth, seq_nth by exact H. reflexivity.
Qed.

Lemma ceil_of_positive (x : R) : 0 < x -> (1 <= Py.ceil x)%Z.
Proof.
  intros H. unfold Py.ceil. pose proof (Zceil_bound x) as [_ Hb].
  assert (Hc : 0 < IZR (Zceil x)) by lra.
  apply lt_IZR in Hc. lia.
Qed.

Lemma zmax_of_ceil (x : R) : 0 < x -> Py.zmax 1 (Py.ceil x) = Py.ceil x.
Proof.
  intros H. pose proof (ceil_of_positive x H) as Hc. unfold Py.zmax.
  destruct (1 <? Py.ceil x)%Z eqn:E; [reflexivity |].
  apply Z.ltb_ge in E. lia.
Qed.

Section LineSampling.
Context (rt : Py.runtime).





End LineSampling.

Lemma last_nth {T : Type} (l : list T) (d : T) :
  List.last l d = nth (List.length l - 1) l d.
Proof.
  induction l as [| x l IH]; [reflexivity |].
  destruct l as [| y l]; [reflexivity |].
  change (List.last (x :: y :: l) d) with (List.last (y :: l) d).
  rewrite IH. simpl. rewrite Nat.sub_0_r. reflexivity.
Qed.

Lemma map_range_nth {T : Type} (f : Z -> T) (m : Z) (i : nat) (d : T) :
  (i < Z.to_nat m)%nat -> nth i (map f (Py.range m)) d = f (Z.of_nat i).
Proof.
  intros H.
  rewrite (nth_indep _ d (f 0%Z)) by (rewrite length_map, range_length; exact H).
  rewrite map_nth, range_nth by exact H. reflexivity.
Qed.

Section LineSamplingClaim.
Context (rt : Py.runtime).



End LineSamplingClaim.

Lemma dist_on_axis (x : R) : 0 <= x -> dist (0, 0) (x, 0) = x.
Proof.
  intros H. unfold dist. simpl. apply hypot_eq; [exact H | ring].
Qed.



(** ** Serialisation round trip *)

Lemma max_idempotent (a x : R) : Py.max a (Py.max a x) = Py.max a x.
Proof.
  unfold Py.max. destruct (Py.ltb a x) eqn:E.
  - rewrite E. reflexivity.
  - assert (E' : Py.ltb a a = false) by (apply ltb_false; lra). rewrite E'. reflexivity.
Qed.

Lemma zmax_idempotent (a x : Z) : Py.zmax a (Py.zmax a x) = Py.zmax a x.
Proof.
  unfold Py.zmax. destruct (a <? x)%Z eqn:E.
  - rewrite E. reflexivity.
  - rewrite Z.ltb_irrefl. reflexivity.
Qed.

Lemma side_normal_form (side : string) :
  let s := if orb (String.eqb side "left") (String.eqb side "right")
           then side else "left" in
  orb (String.eqb s "left") (String.eqb s "right") = true.
Proof.
  simpl. destruct (String.eqb side "left") eqn:E1; simpl.
  - rewrite E1. reflexivity.
  - destruct (String.eqb side "right") eqn:E2; simpl.
    + rewrite E1, E2. reflexivity.
    + reflexivity.
Qed.

Section RoundTrip.
Context (rt : Py.runtime).

Lemma line_round_trip (l : LineElement.t) :
  LineElement.from_dict rt (LineElement.to_dict l)
  = Py.Ok (LineElement.new (LineElement.A l) (LineElement.B l)).
Proof.
  destruct l as [[ax ay] [bx b_y] len]. reflexivity.
Qed.

Lemma arc_round_trip (a : ArcElement.t) :
  ArcElement.from_dict rt (ArcElement.to_dict a)
  = ArcElement.new (ArcElement.A a) (ArcElement.B a) (ArcElement.radius a)
                   (ArcElement.side a).
Proof.
  destruct a as [[ax ay] [bx b_y] radius side center sa ea ccw len]. reflexivity.
Qed.

Lemma clothoid_round_trip (c : ClothoidElement.t) :
  ClothoidElement.from_dict rt (ClothoidElement.to_dict c)
  = Py.Ok (ClothoidElement.new rt (ClothoidElement.P0 c) (ClothoidElement.P1 c)
             (ClothoidElement.radius c) (ClothoidElement.spiral_length c)
             (ClothoidElement.samples c) (ClothoidElement.side c)).
Proof.
  destruct c as [[ax ay] [bx b_y] radius sl n side poly len]. reflexivity.
Qed.

Lemma arc_new_fixed_point (A B : Point) (radius : R) (side : string) (a : ArcElement.t) :
  ArcElement.new A B radius side = Py.Ok a ->
  ArcElement.new (ArcElement.A a) (ArcElement.B a) (ArcElement.radius a)
                 (ArcElement.side a) = Py.Ok a.
Proof.
  unfold ArcElement.new. intros H.
  set (s := if negb (orb (String.eqb side "left") (String.eqb side "right"))
            then "left" else side) in *.
  assert (Hs : orb (String.eqb s "left") (String.eqb s "right") = true).
  { pose proof (side_normal_form side) as Hn. simpl in Hn. unfold s.
    destruct (orb (String.eqb side "left") (String.eqb side "right")); simpl in *;
      [exact Hn | reflexivity]. }
  destruct (ArcElement._compute_center_angles A B radius s)
    as [[[[c a1] a2] ccw] | e] eqn:E; simpl in H; [| discriminate].
  injection H as <-. simpl. rewrite Hs. simpl. rewrite E. reflexivity.
Qed.

Lemma clothoid_new_fixed_point (P0 P1 : Point) (radius spiral_length : R)
    (samples : Z) (side : string) :
  let c := ClothoidElement.new rt P0 P1 radius spiral_length samples side in
  ClothoidElement.new rt (ClothoidElement.P0 c) (ClothoidElement.P1 c)
    (ClothoidElement.radius c) (ClothoidElement.spiral_length c)
    (ClothoidElement.samples c) (ClothoidElement.side c) = c.
Proof.
  unfold ClothoidElement.new. simpl.
  rewrite max_idempotent, zmax_idempotent.
  pose proof (side_normal_form side) as Hn. simpl in Hn. rewrite Hn.
  reflexivity.
Qed.

(** C3: for a line, an arc whose construction succeeded and a clothoid,
    [from_dict(to_dict(e))] succeeds and gives back the element itself, so
    that its samples are those of the original for every step. *)
Theorem from_dict_of_to_dict
    (A B : Point) (arcA arcB : Point) (arc_radius : R) (arc_side : string)
    (a : ArcElement.t)
    (P0 P1 : Point) (radius spiral_length : R) (samples : Z) (side : string)
    (step : R) :
  ArcElement.new arcA arcB arc_radius arc_side = Py.Ok a ->
  let l := LineElement.new A B in
  let c := ClothoidElement.new rt P0 P1 radius spiral_length samples side in
  (LineElement.from_dict rt (LineElement.to_dict l) = Py.Ok l
   /\ ArcElement.from_dict rt (ArcElement.to_dict a) = Py.Ok a
   /\ ClothoidElement.from_dict rt (ClothoidElement.to_dict c) = Py.Ok c)
  /\ (forall l', LineElement.from_dict rt (LineElement.to_dict l) = Py.Ok l' ->
      LineElement.sample rt l' step = LineElement.sample rt l step)
  /\ (forall a', ArcElement.from_dict rt (ArcElement.to_dict a) = Py.Ok a' ->
      ArcElement.sample rt a' step = ArcElement.sample rt a step)
  /\ (forall c', ClothoidElement.from_dict rt (ClothoidElement.to_dict c) = Py.Ok c' ->
      ClothoidElement.sample c' step = ClothoidElement.sample c step).
Proof.
  intros Ha l c.
  assert (Hl : LineElement.from_dict rt (LineElement.to_dict l) = Py.Ok l)
    by (unfold l; rewrite line_round_trip; reflexivity).
  assert (Har : ArcElement.from_dict rt (ArcElement.to_dict a) = Py.Ok a)
    by (rewrite arc_round_trip; eapply arc_new_fixed_point; exact Ha).
  assert (Hc : ClothoidElement.from_dict rt (ClothoidElement.to_dict c) = Py.Ok c).
  { rewrite clothoid_round_trip. f_equal.
    apply (clothoid_new_fixed_point P0 P1 radius spiral_length samples side). }
  split; [split; [exact Hl | split; [exact Har | exact Hc]] |].
  split; [| split].
  - intros l' H. rewrite Hl in H. injection H as <-. reflexivity.
  - intros a' H. rewrite Har in H. injection H as <-. reflexivity.
  - intros c' H. rewrite Hc in H. injection H as <-. reflexivity.
Qed.

End RoundTrip.

Lemma from_dict_of_to_dict_witness :
  exists a,
    ArcElement.new (0, 0) (2, 0) 1 "left" = Py.Ok a
    /\ ArcElement.from_dict plain_runtime (ArcElement.to_dict a) = Py.Ok a.
Proof.
  destruct (proj2 (arc_new_ok_iff (0, 0) (2, 0) 1 "left")) as [a Ha].
  { rewrite chord_on_axis by lra. split; [lra |]. rewrite Rabs_right by lra. lra. }
  exists a. split; [exact Ha |].
  destruct (from_dict_of_to_dict plain_runtime (0, 0) (1, 0) (0, 0) (2, 0) 1 "left" a
              (0, 0) (1, 0) 1 1 4 "left" 1 Ha) as [(_ & Harc & _) _].
  exact Harc.
Defined.

(** ** The curve-parameter validator *)

Section Validation.
Context (rt : Py.runtime).

Import DesignStandards.

(** A heading difference of at most pi is not folded: the test of the loop
    fails at once. *)
Lemma fold_heading_small (fuel : nat) (d : R) :
  d <= PI -> fold_heading fuel (Fin d) = Some (Fin d).
Proof.
  intros H.
  assert (E : Py.ltb PI d = false) by (apply ltb_false; exact H).
  destruct fuel; simpl; rewrite E; reflexivity.
Qed.

(** With headings at most half a turn apart, or with one of them missing,
    the heading test ends without a turn of its loop, whatever the fuel; it
    adds at most the heading warning. *)
Lemma heading_check_within_half_turn (fuel : nat) (lh rh : option R) (st : accum) :
  headings_within_half_turn lh rh ->
  exists st',
    heading_check fuel (option_map Fin lh) (option_map Fin rh) st = Some st'
    /\ acc_errors st' = acc_errors st
    /\ acc_suggestions st' = acc_suggestions st
    /\ (acc_warnings st' = acc_warnings st
        \/ acc_warnings st' = acc_warnings st ++ [HeadingChangeTooLarge]).
Proof.
  destruct lh as [l |]; destruct rh as [r |]; simpl; intros Hh;
    try (exists st; repeat split; auto; fail).
  change (r + - l) with (r - l).
  rewrite (fold_heading_small fuel (Rabs (r - l)) Hh).
  simpl. destruct (Py.ltb (PI * 0.95) (Rabs (r - l))).
  - eexists. split; [reflexivity |]. simpl.
    split; [reflexivity |]. split; [reflexivity |]. right. reflexivity.
  - exists st. split; [reflexivity |].
    split; [reflexivity |]. split; [reflexivity |]. left. reflexivity.
Qed.

(** An infinite heading difference is never folded: the loop keeps its
    value and its test stays true. *)
Lemma fold_heading_infinite (fuel : nat) : fold_heading fuel PInf = None.
Proof. induction fuel as [| f IH]; simpl; [reflexivity | exact IH]. Qed.

(** With two float pairs for the tangent points, the checks reach the
    dispatch on the curve type with nothing but suggestions recorded. *)
Lemma curve_checks_points (P_left P_right : Point)
    (curve_type params speed_kmh : Py.value) :
  exists sugg,
    curve_checks rt (point_value P_left) (point_value P_right) curve_type params
      speed_kmh {| acc_errors := []; acc_warnings := []; acc_suggestions := [] |}
    = match curve_type_name curve_type with
      | Py.Ok t =>
          (if String.eqb t "arc" then
             arc_checks rt (chord P_left P_right)
               (fst (recommend_radius_range rt (chord P_left P_right) speed_kmh))
               (snd (recommend_radius_range rt (chord P_left P_right) speed_kmh))
               params speed_kmh
           else if is_spiral_name t then
             spiral_checks rt (chord P_left P_right) params speed_kmh
           else add_error UnknownCurveType)
            {| acc_errors := []; acc_warnings := []; acc_suggestions := sugg |}
      | Py.Raise e =>
          ({| acc_errors := []; acc_warnings := []; acc_suggestions := sugg |},
           Py.Raise e)
      end.
Proof.
  destruct P_left as [xl yl], P_right as [xr yr].
  unfold curve_checks, point_value, chord.
  cbn [coordinate subscript Py.item nth_error Py.bind Py.float lift mbind fst snd].
  destruct (recommend_radius_range rt _ speed_kmh) as [r_min r_max].
  cbn [mbind suggest lift fst snd acc_errors acc_warnings acc_suggestions].
  destruct (curve_type_name curve_type) as [t | e]; eexists; reflexivity.
Qed.

(** What the arc branch records for a float radius. *)
Lemma arc_checks_radius (chord R : R) (r_min r_max : xreal) (speed_kmh : Py.value)
    (sugg : list (string * suggestion)) :
  let min_r_sup := min_radius_from_superelevation_and_friction rt speed_kmh None None in
  exists sugg',
    arc_checks rt chord r_min r_max (Py.VDict [("radius", Py.VFloat R)]) speed_kmh
      {| acc_errors := []; acc_warnings := []; acc_suggestions := sugg |}
    = ({| acc_errors :=
            if Py.leb R 0 then [RadiusNotPositive]
            else if Py.ltb (2 * R + 1e-9) chord then [ChordExceedsDiameter chord]
            else [];
          acc_warnings :=
            if Py.leb R 0 then []
            else
              (if X.ltb (Fin R) r_min then [RadiusBelowRange R r_min r_max] else [])
              ++ (if X.ltb r_max (Fin R) then [RadiusAboveRange R r_min r_max] else [])
              ++ (if andb (negb (X.eqb min_r_sup PInf))
                          (X.ltb (Fin R) (X.mul (Fin 0.2) min_r_sup))
                  then [RadiusFarBelowSuperelevationMinimum] else []);
          acc_suggestions := sugg' |}, Py.Ok tt).
Proof.
  intros min_r_sup. unfold arc_checks.
  cbn [params_get Py.get Py.lookup String.eqb Ascii.eqb Bool.eqb Py.bind Py.float
       lift mbind].
  fold min_r_sup.
  destruct (Py.leb R 0); [eexists; reflexivity |].
  unfold when, mbind, add_error, add_warning, suggest, mret.
  destruct (Py.ltb (2 * R + 1e-9) chord); destruct (X.ltb (Fin R) r_min);
    destruct (X.ltb r_max (Fin R));
    destruct (andb (negb (X.eqb min_r_sup PInf))
                   (X.ltb (Fin R) (X.mul (Fin 0.2) min_r_sup)));
    eexists; reflexivity.
Qed.

Lemma ok_iff_no_errors (st : accum) :
  ok (finish st) = true <-> errors (finish st) = [].
Proof.
  unfold finish. simpl. destruct (acc_errors st); split; intros H;
    try reflexivity; discriminate.
Qed.

(** With such headings the validator returns, whatever the fuel, and the
    report is the one the checks accumulated: their errors, plus the generic
    one if they raised. *)
Lemma validate_within_half_turn (fuel : nat)
    (P_left P_right curve_type params speed_kmh : Py.value) (lh rh : option R) :
  headings_within_half_turn lh rh ->
  exists rep,
    validate_curve_parameters rt fuel P_left P_right
      (option_map Fin lh) (option_map Fin rh) curve_type params speed_kmh
    = Some rep
    /\ (ok rep = true <-> errors rep = [])
    /\ match curve_checks rt P_left P_right curve_type params speed_kmh
               {| acc_errors := []; acc_warnings := []; acc_suggestions := [] |}
       with
       | (st, Py.Ok _) =>
           errors rep = acc_errors st
           /\ (warnings rep = acc_warnings st
               \/ warnings rep = acc_warnings st ++ [HeadingChangeTooLarge])
       | (st, Py.Raise ex) =>
           errors rep = acc_errors st ++ [InternalError ex]
           /\ warnings rep = acc_warnings st
       end.
Proof.
  intros Hh. unfold validate_curve_parameters.
  destruct (curve_checks rt P_left P_right curve_type params speed_kmh _)
    as [st [u | ex]].
  - destruct (heading_check_within_half_turn fuel lh rh st Hh)
      as (st' & Hst' & He & _ & Hw).
    rewrite Hst'. exists (finish st'). split; [reflexivity |].
    split; [apply ok_iff_no_errors |].
    simpl. split; [exact He | exact Hw].
  - eexists. split; [reflexivity |].
    split; [apply ok_iff_no_errors |]. simpl. split; reflexivity.
Qed.

Lemma curve_type_name_of_string (s : string) :
  curve_type_name (Py.VStr s) = Py.Ok (Py.strip (Py.lower s)).
Proof.
  unfold curve_type_name. simpl.
  destruct (String.eqb s "") eqn:E; simpl; [| reflexivity].
  apply String.eqb_eq in E. subst s. reflexivity.
Qed.



(** The arc checks on float pairs and a float radius never raise. *)
Lemma arc_curve_checks_return (P_left P_right : Point) (speed_kmh : Py.value)
    (radius : R) :
  exists st,
    curve_checks rt (point_value P_left) (point_value P_right) (Py.VStr "arc")
      (Py.VDict [("radius", Py.VFloat radius)]) speed_kmh
      {| acc_errors := []; acc_warnings := []; acc_suggestions := [] |}
    = (st, Py.Ok tt)
    /\ acc_errors st
       = if Py.leb radius 0 then [RadiusNotPositive]
         else if Py.ltb (2 * radius + 1e-9) (chord P_left P_right)
              then [ChordExceedsDiameter (chord P_left P_right)]
              else [].
Proof.
  destruct (curve_checks_points P_left P_right (Py.VStr "arc")
              (Py.VDict [("radius", Py.VFloat radius)]) speed_kmh) as [sugg Hcc].
  rewrite Hcc.
  change (curve_type_name (Py.VStr "arc")) with (@Py.Ok string "arc").
  cbv beta iota. rewrite String.eqb_refl.
  destruct (arc_checks_radius (chord P_left P_right) radius
              (fst (recommend_radius_range rt (chord P_left P_right) speed_kmh))
              (snd (recommend_radius_range rt (chord P_left P_right) speed_kmh))
              speed_kmh sugg) as [sugg' Hac].
  rewrite Hac. eexists. split; reflexivity.
Qed.

(** C9 fails on the code: with a right heading of [float('inf')] the heading
    loop never ends, so the call does not return, whatever the fuel. *)
Theorem validate_does_not_return_on_infinite_heading (fuel : nat) :
  validate_curve_parameters rt fuel (point_value (0, 0)) (point_value (1, 0))
    (Some (Fin 0)) (Some PInf) (Py.VStr "arc")
    (Py.VDict [("radius", Py.VFloat 1)]) (Py.VFloat 60)
  = None.
Proof.
  unfold validate_curve_parameters.
  destruct (arc_curve_checks_return (0, 0) (1, 0) (Py.VFloat 60) 1) as (st & Hst & _).
  rewrite Hst. unfold heading_check.
  change (X.abs (X.sub PInf (Fin 0))) with PInf.
  rewrite fold_heading_infinite. reflexivity.
Qed.

End Validation.



(** ** The geometry of an arc *)

Lemma atan2_bounds (y x : R) : - PI < Py.atan2 y x <= PI.
Proof.
  pose proof PI_RGT_0 as Hpi. unfold Py.atan2.
  destruct (Rlt_dec 0 x) as [Hx | Hx].
  - pose proof (atan_bound (y / x)). lra.
  - destruct (Rlt_dec x 0) as [Hx' | Hx'].
    + destruct (Rle_dec 0 y) as [Hy | Hy].
      * assert (Ht : y / x <= 0).
        { unfold Rdiv. replace 0 with (y * 0) by ring.
          apply Rmult_le_compat_l; [exact Hy |].
          apply Rlt_le, Rinv_lt_0_compat. exact Hx'. }
        pose proof (atan_bound (y / x)).
        assert (atan (y / x) <= 0).
        { destruct Ht as [Ht | Ht].
          - apply Rlt_le. rewrite <- atan_0. apply atan_increasing. exact Ht.
          - rewrite Ht, atan_0. lra. }
        lra.
      * assert (Ht : 0 < y / x).
        { unfold Rdiv. replace (y * / x) with ((- y) * (- / x)) by ring.
          apply Rmult_lt_0_compat; [lra |].
          pose proof (Rinv_lt_0_compat x Hx'). lra. }
        pose proof (atan_bound (y / x)).
        assert (0 < atan (y / x)) by (rewrite <- atan_0; apply atan_increasing; exact Ht).
        lra.
    + destruct (Rlt_dec 0 y); [lra |]. destruct (Rlt_dec y 0); lra.
Qed.

Lemma sqrt_1_plus_sqr_pos (t : R) : 0 < sqrt (1 + t²).
Proof. apply sqrt_lt_R0. unfold Rsqr. nra. Qed.

Lemma hypot_scaled (x y : R) :
  x <> 0 -> Py.hypot x y = Rabs x * sqrt (1 + (y / x)²).
Proof.
  intros Hx. apply hypot_eq.
  - apply Rmult_le_pos; [apply Rabs_pos | apply sqrt_pos].
  - assert (Hs : 0 <= 1 + (y / x)²) by (unfold Rsqr; nra).
    replace (Rabs x * sqrt (1 + (y / x)²) * (Rabs x * sqrt (1 + (y / x)²)))
      with ((Rabs x * Rabs x) * (sqrt (1 + (y / x)²) * sqrt (1 + (y / x)²))) by ring.
    rewrite sqrt_sqrt by exact Hs.
    replace (Rabs x * Rabs x) with (x * x)
      by (unfold Rabs; destruct (Rcase_abs x); ring).
    unfold Rsqr. field. exact Hx.
Qed.

(** The polar form: a vector that is not zero is its length times the
    direction of its angle. *)
Lemma atan2_polar (y x : R) :
  (x <> 0 \/ y <> 0) ->
  x = Py.hypot x y * cos (Py.atan2 y x)
  /\ y = Py.hypot x y * sin (Py.atan2 y x).
Proof.
  intros Hnz. unfold Py.atan2.
  pose proof (sqrt_1_plus_sqr_pos (y / x)) as Hs.
  destruct (Rlt_dec 0 x) as [Hx | Hx].
  - rewrite hypot_scaled by lra. rewrite Rabs_right by lra.
    rewrite cos_atan, sin_atan. split; field; lra.
  - destruct (Rlt_dec x 0) as [Hx' | Hx'].
    + rewrite hypot_scaled by lra. rewrite Rabs_left by lra.
      destruct (Rle_dec 0 y) as [Hy | Hy].
      * rewrite neg_cos, neg_sin, cos_atan, sin_atan. split; field; lra.
      * unfold Rminus. rewrite cos_plus, sin_plus, cos_neg, sin_neg, cos_PI, sin_PI.
        rewrite cos_atan, sin_atan. split; field; lra.
    + assert (x = 0) by lra. subst x.
      assert (Hy : y <> 0) by (destruct Hnz; [lra | assumption]).
      destruct (Rlt_dec 0 y) as [Hy' | Hy'].
      * rewrite cos_PI2, sin_PI2.
        assert (Py.hypot 0 y = y) by (apply hypot_eq; [lra | ring]). lra.
      * destruct (Rlt_dec y 0) as [Hy'' | Hy'']; [| lra].
        rewrite cos_neg, sin_neg, cos_PI2, sin_PI2.
        assert (Py.hypot 0 y = - y) by (apply hypot_eq; [lra | ring]). lra.
Qed.

Lemma atan2_injective (y1 x1 y2 x2 : R) :
  (x1 <> 0 \/ y1 <> 0) -> (x2 <> 0 \/ y2 <> 0) ->
  Py.hypot x1 y1 = Py.hypot x2 y2 ->
  Py.atan2 y1 x1 = Py.atan2 y2 x2 ->
  x1 = x2 /\ y1 = y2.
Proof.
  intros H1 H2 Hh Ha.
  destruct (atan2_polar y1 x1 H1) as [Hx1 Hy1].
  destruct (atan2_polar y2 x2 H2) as [Hx2 Hy2].
  rewrite Hh, Ha in Hx1, Hy1. split; congruence.
Qed.

Lemma trunc_small (q : R) : -1 < q < 1 -> Py.trunc q = 0%Z.
Proof.
  intros [Hlo Hhi]. unfold Py.trunc.
  destruct (Rle_dec 0 q) as [Hq | Hq].
  - apply Zfloor_eq. simpl. lra.
  - apply Zceil_eq. simpl. lra.
Qed.

Lemma fmod_small (a b : R) : 0 < b -> - b < a < b -> Py.fmod a b = a.
Proof.
  intros Hb [Hlo Hhi]. unfold Py.fmod.
  rewrite trunc_small; [simpl; ring |].
  split.
  - apply Rmult_lt_reg_r with (r := b); [exact Hb |].
    replace (a / b * b) with a by (field; lra). lra.
  - apply Rmult_lt_reg_r with (r := b); [exact Hb |].
    replace (a / b * b) with a by (field; lra). lra.
Qed.

(** The normalised difference of two angles of (-pi, pi]. *)
Lemma normalize_difference (a1 a2 : R) :
  - PI < a1 <= PI -> - PI < a2 <= PI ->
  (a2 - a1 <= - PI -> normalize_angle (a2 - a1) = a2 - a1 + 2 * PI)
  /\ (PI < a2 - a1 -> normalize_angle (a2 - a1) = a2 - a1 - 2 * PI)
  /\ (- PI < a2 - a1 <= PI -> normalize_angle (a2 - a1) = a2 - a1).
Proof.
  intros H1 H2. pose proof PI_RGT_0 as Hpi.
  unfold normalize_angle.
  rewrite fmod_small by lra.
  destruct (Rle_dec (a2 - a1) (- PI)); destruct (Rlt_dec PI (a2 - a1));
    repeat split; intros; lra.
Qed.

Lemma normalize_difference_bounds (a1 a2 : R) :
  - PI < a1 <= PI -> - PI < a2 <= PI ->
  - PI < normalize_angle (a2 - a1) <= PI
  /\ (normalize_angle (a2 - a1) = 0 -> a1 = a2).
Proof.
  intros H1 H2. pose proof PI_RGT_0 as Hpi.
  destruct (normalize_difference a1 a2 H1 H2) as (Hlow & Hhigh & Hmid).
  destruct (Rle_dec (a2 - a1) (- PI)) as [Ha | Ha].
  - rewrite (Hlow Ha). split; [lra | intros; lra].
  - destruct (Rlt_dec PI (a2 - a1)) as [Hb | Hb].
    + rewrite (Hhigh Hb). split; [lra | intros; lra].
    + rewrite Hmid by lra. split; [lra | intros; lra].
Qed.

Lemma hypot_opp (x y : R) : Py.hypot (- x) (- y) = Py.hypot x y.
Proof. unfold Py.hypot. f_equal. ring. Qed.

(** A point offset from the midpoint of AB at right angles to AB is
    equally far from A and from B. *)
Lemma offset_from_midpoint (x1 y1 x2 y2 ox oy r : R) :
  0 <= r ->
  ox * (x2 - x1) + oy * (y2 - y1) = 0 ->
  ((x2 - x1) * (x2 - x1) + (y2 - y1) * (y2 - y1)) / 4 + (ox * ox + oy * oy) = r * r ->
  Py.hypot (x1 - ((x1 + x2) / 2 + ox)) (y1 - ((y1 + y2) / 2 + oy)) = r
  /\ Py.hypot (x2 - ((x1 + x2) / 2 + ox)) (y2 - ((y1 + y2) / 2 + oy)) = r.
Proof.
  intros Hr Hperp Hsum. split; apply hypot_eq; try exact Hr.
  - rewrite <- Hsum.
    replace ((x1 - ((x1 + x2) / 2 + ox)) * (x1 - ((x1 + x2) / 2 + ox))
             + (y1 - ((y1 + y2) / 2 + oy)) * (y1 - ((y1 + y2) / 2 + oy)))
      with (((x2 - x1) * (x2 - x1) + (y2 - y1) * (y2 - y1)) / 4
            + (ox * ox + oy * oy) + (ox * (x2 - x1) + oy * (y2 - y1))) by field.
    rewrite Hperp. ring.
  - rewrite <- Hsum.
    replace ((x2 - ((x1 + x2) / 2 + ox)) * (x2 - ((x1 + x2) / 2 + ox))
             + (y2 - ((y1 + y2) / 2 + oy)) * (y2 - ((y1 + y2) / 2 + oy)))
      with (((x2 - x1) * (x2 - x1) + (y2 - y1) * (y2 - y1)) / 4
            + (ox * ox + oy * oy) - (ox * (x2 - x1) + oy * (y2 - y1))) by field.
    rewrite Hperp. ring.
Qed.

Lemma max_0_nonneg (v : R) : 0 <= v -> Py.max 0 v = v.
Proof.
  intros H. unfold Py.max. destruct (Py.ltb 0 v) eqn:E; [reflexivity |].
  apply ltb_false in E. lra.
Qed.

(** Both candidate centers of [_compute_center_angles] lie at the distance
    |radius| from A and from B. *)
Lemma arc_center_on_circle (x1 y1 x2 y2 radius : R) :
  let dx := x2 - x1 in
  let dy := y2 - y1 in
  let chord := Py.hypot dx dy in
  let mx := (x1 + x2) / 2 in
  let my := (y1 + y2) / 2 in
  let h := sqrt (Py.max 0 (radius * radius - (chord / 2) ^ 2)) in
  let ux := - dy / chord in
  let uy := dx / chord in
  chord <> 0 -> chord / 2 <= Rabs radius ->
  (Py.hypot (x1 - (mx + ux * h)) (y1 - (my + uy * h)) = Rabs radius
   /\ Py.hypot (x2 - (mx + ux * h)) (y2 - (my + uy * h)) = Rabs radius)
  /\ (Py.hypot (x1 - (mx - ux * h)) (y1 - (my - uy * h)) = Rabs radius
      /\ Py.hypot (x2 - (mx - ux * h)) (y2 - (my - uy * h)) = Rabs radius).
Proof.
  intros dx dy chord mx my h ux uy Hc0 Hfeasible.
  assert (Hcpos : 0 < chord).
  { pose proof (hypot_nonneg dx dy). fold chord in H. lra. }
  assert (Hc2 : chord * chord = dx * dx + dy * dy) by apply hypot_sqr.
  assert (Hrr : Rabs radius * Rabs radius = radius * radius)
    by (unfold Rabs; destruct (Rcase_abs radius); ring).
  assert (Hv : 0 <= radius * radius - (chord / 2) ^ 2).
  { rewrite <- Hrr. pose proof (Rabs_pos radius). simpl. nra. }
  assert (Hh : h * h = radius * radius - (chord / 2) ^ 2).
  { unfold h. rewrite max_0_nonneg by exact Hv. apply sqrt_sqrt. exact Hv. }
  assert (Hu : ux * ux + uy * uy = 1).
  { unfold ux, uy.
    replace (- dy / chord * (- dy / chord) + dx / chord * (dx / chord))
      with ((dx * dx + dy * dy) / (chord * chord)) by (field; lra).
    rewrite <- Hc2. field. lra. }
  assert (Hperp : ux * dx + uy * dy = 0) by (unfold ux, uy; field; lra).
  assert (Hsum : (dx * dx + dy * dy) / 4 + (ux * h * (ux * h) + uy * h * (uy * h))
                 = Rabs radius * Rabs radius).
  { replace (ux * h * (ux * h) + uy * h * (uy * h))
      with ((ux * ux + uy * uy) * (h * h)) by ring.
    rewrite Hu, Hh, <- Hc2, Hrr. simpl. field. }
  split.
  - apply offset_from_midpoint; [apply Rabs_pos | | exact Hsum].
    fold dx dy. replace (ux * h * dx + uy * h * dy) with (h * (ux * dx + uy * dy)) by ring.
    rewrite Hperp. ring.
  - replace (mx - ux * h) with (mx + - (ux * h)) by ring.
    replace (my - uy * h) with (my + - (uy * h)) by ring.
    apply offset_from_midpoint; [apply Rabs_pos | |].
    + fold dx dy.
      replace (- (ux * h) * dx + - (uy * h) * dy) with (- h * (ux * dx + uy * dy)) by ring.
      rewrite Hperp. ring.
    + rewrite <- Hsum. fold dx dy. ring.
Qed.

Lemma arc_new_fields (A B : Point) (radius : R) (side : string) :
  chord A B <> 0 -> chord A B / 2 <= Rabs radius ->
  exists e,
    ArcElement.new A B radius side = Py.Ok e
    /\ ArcElement.A e = A /\ ArcElement.B e = B /\ ArcElement.radius e = radius
    /\ ArcElement.start_angle e
       = Py.atan2 (snd A - snd (ArcElement.center e)) (fst A - fst (ArcElement.center e))
    /\ ArcElement.end_angle e
       = Py.atan2 (snd B - snd (ArcElement.center e)) (fst B - fst (ArcElement.center e))
    /\ Py.hypot (fst A - fst (ArcElement.center e)) (snd A - snd (ArcElement.center e))
       = Rabs radius
    /\ Py.hypot (fst B - fst (ArcElement.center e)) (snd B - snd (ArcElement.center e))
       = Rabs radius
    /\ ArcElement.ccw e
       = resolved_ccw (ArcElement.start_angle e) (ArcElement.end_angle e)
    /\ ArcElement.length e
       = Rabs (radius * ArcElement.resolved_angle (ArcElement.start_angle e)
                          (ArcElement.end_angle e) (ArcElement.ccw e)).
Proof.
  destruct A as [x1 y1], B as [x2 y2]. unfold chord. simpl fst. simpl snd.
  intros Hc0 Hfeasible.
  destruct (arc_center_on_circle x1 y1 x2 y2 radius Hc0 Hfeasible)
    as [[HlA HlB] [HrA HrB]].
  unfold ArcElement.new, ArcElement._compute_center_angles.
  assert (E0 : Py.eqb (Py.hypot (x2 - x1) (y2 - y1)) 0 = false)
    by (apply eqb_false; exact Hc0).
  assert (E1 : Py.ltb (Rabs radius) (Py.hypot (x2 - x1) (y2 - y1) / 2) = false)
    by (apply ltb_false; exact Hfeasible).
  rewrite E0, E1.
  destruct (String.eqb _ "left"); cbv beta iota zeta; simpl Py.bind;
    eexists; (split; [reflexivity |]); simpl;
    repeat split; assumption.
Qed.

Lemma dist_from_center (c P : Point) :
  dist c P = Py.hypot (fst P - fst c) (snd P - snd c).
Proof.
  unfold dist. rewrite <- hypot_opp. f_equal; ring.
Qed.

(** With a normalised difference in (-pi, pi] the flip of the sense never
    fires, and the signed angle of the element is that difference. *)
Lemma resolved_direction (a1 a2 : R) :
  - PI < normalize_angle (a2 - a1) <= PI ->
  resolved_ccw a1 a2 = Py.ltb 0 (normalize_angle (a2 - a1))
  /\ ArcElement.resolved_angle a1 a2 (resolved_ccw a1 a2) = normalize_angle (a2 - a1).
Proof.
  intros Hd. pose proof PI_RGT_0 as Hpi.
  assert (Hccw : resolved_ccw a1 a2 = Py.ltb 0 (normalize_angle (a2 - a1))).
  { unfold resolved_ccw. cbv zeta.
    assert (E : Py.ltb PI (Rabs (normalize_angle (a2 - a1))) = false).
    { apply ltb_false. apply Rabs_le. lra. }
    rewrite E. destruct (Py.ltb 0 (normalize_angle (a2 - a1))); reflexivity. }
  split; [exact Hccw |].
  rewrite Hccw. unfold ArcElement.resolved_angle. cbv zeta.
  destruct (Py.ltb 0 (normalize_angle (a2 - a1))) eqn:E; simpl.
  - apply ltb_true in E.
    assert (E' : Py.ltb (normalize_angle (a2 - a1)) 0 = false) by (apply ltb_false; lra).
    rewrite E'. reflexivity.
  - rewrite E. reflexivity.
Qed.

(** ** Resampling a clothoid: in exact arithmetic the inner loop ends by its
       own test *)

Lemma segment_remainder (p q : Point) (r : R) :
  0 <= r <= 1 ->
  dist (fst p + (fst q - fst p) * r, snd p + (snd q - snd p) * r) q
  = dist p q * (1 - r).
Proof.
  intros Hr. unfold dist at 1. simpl. apply hypot_eq.
  - apply Rmult_le_pos; [apply hypot_nonneg | lra].
  - unfold dist.
    pose proof (hypot_sqr (fst p - fst q) (snd p - snd q)) as Hs.
    set (h := Py.hypot _ _) in *.
    replace (h * (1 - r) * (h * (1 - r))) with ((h * h) * ((1 - r) * (1 - r))) by ring.
    rewrite Hs. ring.
Qed.

Lemma emit_same_result (step : R) (cur : Point) (n : nat) :
  0 < step ->
  forall (f1 f2 : nat) (w : ClothoidElement.walker),
    (n <= f1)%nat -> (n <= f2)%nat ->
    0 <= ClothoidElement.acc w < step ->
    ClothoidElement.acc w + dist (ClothoidElement.prev w) cur < step * (INR n + 1) ->
    ClothoidElement.emit f1 step cur w (dist (ClothoidElement.prev w) cur)
    = ClothoidElement.emit f2 step cur w (dist (ClothoidElement.prev w) cur).
Proof.
  intros Hstep. induction n as [| m IH]; intros f1 f2 w H1 H2 Hacc HT.
  - simpl in HT.
    assert (E : Py.leb step (ClothoidElement.acc w + dist (ClothoidElement.prev w) cur)
                = false) by (apply leb_false; lra).
    destruct f1, f2; simpl; rewrite ?E; reflexivity.
  - destruct f1 as [| f1]; [lia |]. destruct f2 as [| f2]; [lia |].
    simpl.
    destruct (Py.leb step (ClothoidElement.acc w + dist (ClothoidElement.prev w) cur))
      eqn:E; [| reflexivity].
    apply leb_true in E.
    set (seg := dist (ClothoidElement.prev w) cur) in *.
    set (r := (step - ClothoidElement.acc w) / seg).
    assert (Hseg : 0 < seg) by lra.
    assert (Hr : 0 <= r <= 1).
    { unfold r. split.
      - unfold Rdiv. apply Rmult_le_pos; [lra |]. apply Rlt_le, Rinv_0_lt_compat, Hseg.
      - apply Rmult_le_reg_r with (r := seg); [exact Hseg |].
        replace ((step - ClothoidElement.acc w) / seg * seg)
          with (step - ClothoidElement.acc w) by (field; lra).
        lra. }
    assert (Hrest :
      dist (fst (ClothoidElement.prev w) + (fst cur - fst (ClothoidElement.prev w)) * r,
            snd (ClothoidElement.prev w) + (snd cur - snd (ClothoidElement.prev w)) * r)
           cur
      = ClothoidElement.acc w + seg - step).
    { rewrite segment_remainder by exact Hr. fold seg. unfold r. field. lra. }
    set (w' := {| ClothoidElement.prev := _; ClothoidElement.acc := 0;
                  ClothoidElement.out := _ |}).
    change (dist (fst (ClothoidElement.prev w)
                  + (fst cur - fst (ClothoidElement.prev w)) * r,
                  snd (ClothoidElement.prev w)
                  + (snd cur - snd (ClothoidElement.prev w)) * r) cur)
      with (dist (ClothoidElement.prev w') cur).
    apply IH; try lia.
    + simpl. lra.
    + simpl ClothoidElement.acc. change (ClothoidElement.prev w') with
        (fst (ClothoidElement.prev w) + (fst cur - fst (ClothoidElement.prev w)) * r,
         snd (ClothoidElement.prev w) + (snd cur - snd (ClothoidElement.prev w)) * r).
      rewrite Hrest. rewrite S_INR in HT. lra.
Qed.

Lemma emit_fuel_bound (step acc seg : R) :
  0 < step -> 0 <= acc -> 0 <= seg ->
  acc + seg < step * (INR (Z.to_nat (Zfloor ((acc + seg) / step))) + 1).
Proof.
  intros Hstep Hacc Hseg.
  pose proof (Zfloor_bound ((acc + seg) / step)) as [Hlo Hhi].
  assert (Hq : 0 <= (acc + seg) / step).
  { unfold Rdiv. apply Rmult_le_pos; [lra |]. apply Rlt_le, Rinv_0_lt_compat, Hstep. }
  assert (Hz : (0 <= Zfloor ((acc + seg) / step))%Z).
  { apply Zfloor_lub. simpl. exact Hq. }
  rewrite INR_IZR_INZ, Z2Nat.id by exact Hz.
  apply Rmult_lt_compat_l with (r := step) in Hhi; [| exact Hstep].
  replace (step * ((acc + seg) / step)) with (acc + seg) in Hhi by (field; lra).
  exact Hhi.
Qed.

(** The fuel that [visit] hands to the inner loop is enough: more fuel
    gives the same walker, so the loop has stopped on its test. *)
Lemma emit_fuel_suffices (step : R) (cur : Point) (w : ClothoidElement.walker)
    (extra : nat) :
  0 < step -> 0 <= ClothoidElement.acc w < step ->
  let seg := dist (ClothoidElement.prev w) cur in
  ClothoidElement.emit
    (ClothoidElement.emit_fuel step (ClothoidElement.acc w) seg + extra) step cur w seg
  = ClothoidElement.emit
      (ClothoidElement.emit_fuel step (ClothoidElement.acc w) seg) step cur w seg.
Proof.
  intros Hstep Hacc seg. unfold ClothoidElement.emit_fuel.
  apply (emit_same_result step cur
           (Z.to_nat (Zfloor ((ClothoidElement.acc w + seg) / step))) Hstep);
    try lia; [exact Hacc |].
  apply emit_fuel_bound; [exact Hstep | lra | apply hypot_nonneg].
Qed.

Lemma emit_stops_below_step (step : R) (cur : Point) (n : nat) :
  0 < step ->
  forall (f : nat) (w : ClothoidElement.walker),
    (n <= f)%nat ->
    0 <= ClothoidElement.acc w < step ->
    ClothoidElement.acc w + dist (ClothoidElement.prev w) cur < step * (INR n + 1) ->
    let res := ClothoidElement.emit f step cur w (dist (ClothoidElement.prev w) cur) in
    0 <= ClothoidElement.acc (fst res) + snd res < step.
Proof.
  intros Hstep. induction n as [| m IH]; intros f w Hf Hacc HT.
  - simpl in HT.
    assert (E : Py.leb step (ClothoidElement.acc w + dist (ClothoidElement.prev w) cur)
                = false) by (apply leb_false; lra).
    assert (0 <= dist (ClothoidElement.prev w) cur) by apply hypot_nonneg.
    destruct f; simpl; rewrite ?E; simpl; lra.
  - destruct f as [| f]; [lia |].
    simpl.
    assert (Hd : 0 <= dist (ClothoidElement.prev w) cur) by apply hypot_nonneg.
    destruct (Py.leb step (ClothoidElement.acc w + dist (ClothoidElement.prev w) cur))
      eqn:E; [| apply leb_false in E; simpl; lra].
    apply leb_true in E.
    set (seg := dist (ClothoidElement.prev w) cur) in *.
    set (r := (step - ClothoidElement.acc w) / seg).
    assert (Hseg : 0 < seg) by lra.
    assert (Hr : 0 <= r <= 1).
    { unfold r. split.
      - unfold Rdiv. apply Rmult_le_pos; [lra |]. apply Rlt_le, Rinv_0_lt_compat, Hseg.
      - apply Rmult_le_reg_r with (r := seg); [exact Hseg |].
        replace ((step - ClothoidElement.acc w) / seg * seg)
          with (step - ClothoidElement.acc w) by (field; lra).
        lra. }
    assert (Hrest :
      dist (fst (ClothoidElement.prev w) + (fst cur - fst (ClothoidElement.prev w)) * r,
            snd (ClothoidElement.prev w) + (snd cur - snd (ClothoidElement.prev w)) * r)
           cur
      = ClothoidElement.acc w + seg - step).
    { rewrite segment_remainder by exact Hr. fold seg. unfold r. field. lra. }
    set (w' := {| ClothoidElement.prev := _; ClothoidElement.acc := 0;
                  ClothoidElement.out := _ |}).
    change (dist (fst (ClothoidElement.prev w)
                  + (fst cur - fst (ClothoidElement.prev w)) * r,
                  snd (ClothoidElement.prev w)
                  + (snd cur - snd (ClothoidElement.prev w)) * r) cur)
      with (dist (ClothoidElement.prev w') cur).
    apply IH; try lia.
    + simpl. lra.
    + simpl ClothoidElement.acc. change (ClothoidElement.prev w') with
        (fst (ClothoidElement.prev w) + (fst cur - fst (ClothoidElement.prev w)) * r,
         snd (ClothoidElement.prev w) + (snd cur - snd (ClothoidElement.prev w)) * r).
      rewrite Hrest. rewrite S_INR in HT. lra.
Qed.

(** Along the polyline the accumulated distance stays below the step, which
    is what the inner loop needs to stop. *)
Lemma visit_keeps_acc_below_step (step : R) (w : ClothoidElement.walker) (cur : Point) :
  0 < step -> 0 <= ClothoidElement.acc w < step ->
  0 <= ClothoidElement.acc (ClothoidElement.visit step w cur) < step.
Proof.
  intros Hstep Hacc. unfold ClothoidElement.visit. cbv zeta.
  destruct (Py.leb (dist (ClothoidElement.prev w) cur) 1e-12); [exact Hacc |].
  pose proof (emit_stops_below_step step cur
                (Z.to_nat (Zfloor ((ClothoidElement.acc w
                                    + dist (ClothoidElement.prev w) cur) / step)))
                Hstep
                (ClothoidElement.emit_fuel step (ClothoidElement.acc w)
                   (dist (ClothoidElement.prev w) cur)) w) as H.
  cbv zeta in H.
  destruct (ClothoidElement.emit _ step cur w _) as [w' seg'].
  simpl in *. apply H.
  - unfold ClothoidElement.emit_fuel. lia.
  - exact Hacc.
  - apply emit_fuel_bound; [exact Hstep | lra | apply hypot_nonneg].
Qed.

(** ** The advisor's friction table *)

(** The friction table is written in ascending order of speed, so sorting
    it changes nothing. *)
Lemma friction_table_sorted :
  DesignStandards.sorted_by_key DesignStandards.FRICTION_TABLE
  = DesignStandards.FRICTION_TABLE.
Proof.
  unfold DesignStandards.sorted_by_key, DesignStandards.FRICTION_TABLE.
  simpl. repeat (float_cmp; simpl). reflexivity.
Qed.

(** The recommended friction is a number of the table's range, and the
    superelevation minimum of a numeric speed is finite. *)
Lemma recommend_friction_positive (speed_kmh : Py.value) :
  0.12 <= DesignStandards.recommend_friction speed_kmh <= 0.24.
Proof.
  unfold DesignStandards.recommend_friction. rewrite friction_table_sorted.
  destruct (DesignStandards.num speed_kmh) as [speed | e]; simpl; [| lra].
  destruct (Py.leb speed 20) eqn:E1; simpl; [lra |].
  destruct (Py.leb 120 speed) eqn:E2; simpl; [lra |].
  apply leb_false in E1. apply leb_false in E2.
  unfold DesignStandards.linear_interpolate.
  repeat match goal with
  | |- context [Py.leb ?a ?b] =>
      let E := fresh "E" in destruct (Py.leb a b) eqn:E;
      [apply leb_true in E | apply leb_false in E]; simpl
  | |- context [Py.eqb ?a ?b] =>
      let E := fresh "E" in destruct (Py.eqb a b) eqn:E;
      [apply eqb_true in E | apply eqb_false in E]; simpl
  end; try lra.
  all: try (split; nra).
Qed.

(** * Further properties of the code *)

(** ** Angles, rotation and projection *)

Lemma trunc_near (q : R) : -1 < q - IZR (Py.trunc q) < 1.
Proof.
  unfold Py.trunc. destruct (Rle_dec 0 q) as [Hq | Hq].
  - pose proof (Zfloor_bound q). lra.
  - pose proof (Zceil_bound q). lra.
Qed.

Lemma fmod_bounds (a b : R) :
  0 < b -> - b < Py.fmod a b < b /\ Py.fmod a b = a - b * IZR (Py.trunc (a / b)).
Proof.
  intros Hb. split; [| reflexivity].
  unfold Py.fmod. pose proof (trunc_near (a / b)) as [Hlo Hhi].
  replace (a - b * IZR (Py.trunc (a / b)))
    with (b * (a / b - IZR (Py.trunc (a / b)))) by (field; lra).
  split; nra.
Qed.

(** X1.  [normalize_angle] brings every angle into (-pi, pi] and changes it
    by a whole number of turns. *)
Theorem normalize_angle_range (a : R) :
  - PI < normalize_angle a <= PI
  /\ exists k : Z, normalize_angle a = a + 2 * PI * IZR k.
Proof.
  pose proof PI_RGT_0 as Hpi.
  destruct (fmod_bounds a (2 * PI) ltac:(lra)) as [[Hlo Hhi] Heq].
  unfold normalize_angle. rewrite Heq in *.
  set (k := Py.trunc (a / (2 * PI))) in *.
  destruct (Rle_dec (a - 2 * PI * IZR k) (- PI)) as [H1 | H1].
  - split; [lra |]. exists (1 - k)%Z. rewrite minus_IZR. simpl. lra.
  - destruct (Rlt_dec PI (a - 2 * PI * IZR k)) as [H2 | H2].
    + split; [lra |]. exists (- 1 - k)%Z. rewrite minus_IZR. simpl. lra.
    + split; [lra |]. exists (- k)%Z. rewrite opp_IZR. lra.
Qed.

Lemma dist_sym (a b : Point) : dist a b = dist b a.
Proof.
  unfold dist. rewrite <- hypot_opp. f_equal; ring.
Qed.

(** X2.  The bearing from a to a different point b lies in [-pi, pi], the
    interval its docstring gives; in exact arithmetic, going the distance
    [dist a b] from a along it arrives at b. *)
Theorem bearing_points_at_target (a b : Point) :
  a <> b ->
  - PI <= bearing a b <= PI
  /\ b = (fst a + dist a b * cos (bearing a b),
          snd a + dist a b * sin (bearing a b)).
Proof.
  intros Hne. split; [pose proof (atan2_bounds (snd b - snd a) (fst b - fst a)) as Hb;
                      unfold bearing; lra |].
  assert (Hnz : fst b - fst a <> 0 \/ snd b - snd a <> 0).
  { destruct (Req_dec_T (fst b - fst a) 0) as [Hx | Hx]; [| left; exact Hx].
    destruct (Req_dec_T (snd b - snd a) 0) as [Hy | Hy]; [| right; exact Hy].
    exfalso. apply Hne. destruct a as [ax ay], b as [bx b_y]. simpl in *.
    replace bx with ax by lra. replace b_y with ay by lra. reflexivity. }
  destruct (atan2_polar (snd b - snd a) (fst b - fst a) Hnz) as [Hx Hy].
  rewrite dist_from_center. unfold bearing.
  destruct b as [bx b_y]. simpl in *. f_equal; lra.
Qed.

Lemma bearing_points_at_target_witness :
  (1, 2) <> (4, 2)
  /\ - PI <= bearing (1, 2) (4, 2) <= PI
  /\ (4, 2) = (fst (1, 2) + dist (1, 2) (4, 2) * cos (bearing (1, 2) (4, 2)),
               snd (1, 2) + dist (1, 2) (4, 2) * sin (bearing (1, 2) (4, 2))).
Proof.
  assert (H : (1, 2) <> (4, 2)) by (intros E; inversion E; lra).
  split; [exact H |]. exact (bearing_points_at_target (1, 2) (4, 2) H).
Defined.

Lemma sin_cos_sqr (x : R) : cos x * cos x + sin x * sin x = 1.
Proof. pose proof (sin2_cos2 x) as H. unfold Rsqr in H. lra. Qed.

(** X3.  In exact arithmetic, a rotation keeps the distance to its origin,
    does nothing for the angle 0, and two rotations about the same origin
    add their angles.  The code rounds each product and sum, so that its
    results agree with these up to the rounding error only. *)
Theorem rotate_is_an_isometry_about_origin (p o : Point) (a b : R) :
  dist (rotate p a o) o = dist p o
  /\ rotate p 0 o = p
  /\ rotate (rotate p a o) b o = rotate p (a + b) o.
Proof.
  destruct p as [px py], o as [ox oy]. unfold rotate. simpl.
  split; [| split].
  - unfold dist. simpl. apply hypot_eq; [apply hypot_nonneg |].
    rewrite hypot_sqr. pose proof (sin_cos_sqr a) as H.
    replace ((px - ox) * cos a - (py - oy) * sin a + ox - ox)
      with ((px - ox) * cos a - (py - oy) * sin a) by ring.
    replace ((px - ox) * sin a + (py - oy) * cos a + oy - oy)
      with ((px - ox) * sin a + (py - oy) * cos a) by ring.
    replace (((px - ox) * cos a - (py - oy) * sin a)
             * ((px - ox) * cos a - (py - oy) * sin a)
             + ((px - ox) * sin a + (py - oy) * cos a)
               * ((px - ox) * sin a + (py - oy) * cos a))
      with (((px - ox) * (px - ox) + (py - oy) * (py - oy))
            * (cos a * cos a + sin a * sin a)) by ring.
    rewrite H. ring.
  - rewrite cos_0, sin_0. f_equal; ring.
  - rewrite cos_plus, sin_plus. f_equal; ring.
Qed.

Lemma clamp_unit_cases (t : R) :
  (t <= 0 /\ Py.max 0 (Py.min 1 t) = 0)
  \/ (0 < t < 1 /\ Py.max 0 (Py.min 1 t) = t)
  \/ (1 <= t /\ Py.max 0 (Py.min 1 t) = 1).
Proof.
  unfold Py.max, Py.min.
  destruct (Py.ltb t 1) eqn:E1.
  - apply ltb_true in E1. destruct (Py.ltb 0 t) eqn:E2.
    + apply ltb_true in E2. right. left. split; [lra | reflexivity].
    + apply ltb_false in E2. left. split; [exact E2 | reflexivity].
  - apply ltb_false in E1.
    assert (E2 : Py.ltb 0 1 = true) by (apply ltb_true; lra).
    rewrite E2. right. right. split; [exact E1 | reflexivity].
Qed.

Lemma hypot_le (x y x' y' : R) :
  x * x + y * y <= x' * x' + y' * y' -> Py.hypot x y <= Py.hypot x' y'.
Proof. intros H. unfold Py.hypot. apply sqrt_le_1; nra. Qed.

(** X4.  [project_point_on_line] returns the point of parameter t on the
    line through a and b; on a segment of length zero it returns a with
    t = 0; with [clamp] the parameter lies in [0, 1] and the point is the
    nearest one of the segment; without it, the nearest one of the line. *)
Theorem project_point_on_line_is_nearest (p a b : Point) (clamp : bool) (s : R) :
  let proj := fst (project_point_on_line p a b clamp) in
  let t := snd (project_point_on_line p a b clamp) in
  (a = b -> proj = a /\ t = 0)
  /\ proj = (fst a + t * (fst b - fst a), snd a + t * (snd b - snd a))
  /\ (clamp = true -> 0 <= t <= 1)
  /\ ((clamp = true -> 0 <= s <= 1) ->
      dist p proj
      <= dist p (fst a + s * (fst b - fst a), snd a + s * (snd b - snd a))).
Proof.
  destruct a as [ax ay], b as [bx b_y], p as [px py].
  unfold project_point_on_line. cbv zeta.
  set (dx := bx - ax). set (dy := b_y - ay).
  destruct (Py.eqb (dx * dx + dy * dy) 0) eqn:E0.
  - apply eqb_true in E0.
    assert (Hdx : dx = 0) by nra. assert (Hdy : dy = 0) by nra.
    simpl. fold dx dy. rewrite Hdx, Hdy.
    split; [intros _; split; reflexivity |].
    split; [f_equal; ring |]. split; [intros _; lra |].
    intros _. apply Req_le. f_equal. f_equal; ring.
  - apply eqb_false in E0.
    assert (HL : 0 < dx * dx + dy * dy) by nra.
    set (L2 := dx * dx + dy * dy) in *.
    set (t := ((px - ax) * dx + (py - ay) * dy) / L2).
    assert (HN : (px - ax) * dx + (py - ay) * dy = t * L2) by (unfold t; field; lra).
    clearbody t.
    simpl fst. simpl snd. fold dx dy.
    split.
    { intros Hab. exfalso. injection Hab as Hx Hy. unfold L2, dx, dy in HL.
      subst bx b_y. nra. }
    split; [reflexivity |].
    split.
    { intros ->. cbv iota. clear HN E0 HL.
      destruct (clamp_unit_cases t) as [[H E] | [[H E] | [H E]]]; rewrite E; lra. }
    intros Hs. unfold dist. simpl fst. simpl snd.
    set (tc := if clamp then Py.max 0 (Py.min 1 t) else t).
    apply hypot_le.
    assert (Hprod : 0 <= (s - tc) * (s + tc - 2 * t)).
    { assert (Hsq : 0 <= (s - t) * (s + t - 2 * t)).
      { replace ((s - t) * (s + t - 2 * t)) with (Rsqr (s - t)) by (unfold Rsqr; ring).
        apply Rle_0_sqr. }
      unfold tc. destruct clamp; [| exact Hsq].
      specialize (Hs eq_refl).
      destruct (clamp_unit_cases t) as [[H E] | [[H E] | [H E]]]; rewrite E.
      - apply Rmult_le_pos; lra.
      - exact Hsq.
      - replace ((s - 1) * (s + 1 - 2 * t)) with ((1 - s) * (2 * t - 1 - s)) by ring.
        apply Rmult_le_pos; lra. }
    assert (Hdiff :
      (px - (ax + s * dx)) * (px - (ax + s * dx))
      + (py - (ay + s * dy)) * (py - (ay + s * dy))
      - ((px - (ax + tc * dx)) * (px - (ax + tc * dx))
         + (py - (ay + tc * dy)) * (py - (ay + tc * dy)))
      = (s - tc) * (s + tc - 2 * t) * L2).
    { replace ((s - tc) * (s + tc - 2 * t) * L2)
        with ((s - tc) * ((s + tc) * L2 - 2 * (t * L2))) by ring.
      rewrite <- HN. unfold L2. ring. }
    assert (0 <= (s - tc) * (s + tc - 2 * t) * L2) by (apply Rmult_le_pos; lra).
    lra.
Qed.

Lemma project_point_on_line_is_nearest_witness :
  0 <= snd (project_point_on_line (5, 1) (0, 0) (2, 0) true) <= 1.
Proof.
  apply (project_point_on_line_is_nearest (5, 1) (0, 0) (2, 0) true 0).
  reflexivity.
Defined.

(** ** The alignment container: composing the index operations *)

Section ListSurgery.
Context {T : Type}.

Lemma delete_middle (l1 l2 : list T) (x : T) :
  PyList.delete (l1 ++ x :: l2) (Z.of_nat (List.length l1)) = l1 ++ l2.
Proof.
  unfold PyList.delete. rewrite Nat2Z.id.
  induction l1 as [| y l1 IH]; simpl; [reflexivity |].
  f_equal. exact IH.
Qed.

Lemma split_at (l : list T) (k : nat) (x : T) :
  nth_error l k = Some x -> l = firstn k l ++ x :: skipn (S k) l.
Proof.
  revert k. induction l as [| y l IH]; intros k H.
  - destruct k; discriminate.
  - destruct k as [| k]; simpl in *.
    + injection H as ->. reflexivity.
    + f_equal. apply IH. exact H.
Qed.

Lemma insert_is_permutation (l : list T) (i : Z) (x : T) :
  Permutation (PyList.insert l i x) (x :: l).
Proof.
  unfold PyList.insert. cbv zeta. set (k := Z.to_nat _).
  rewrite <- (firstn_skipn k l) at 3. symmetry. apply Permutation_middle.
Qed.

Lemma pop_is_permutation (l rest : list T) (i : Z) (x : T) :
  PyList.pop l i = Some (x, rest) -> Permutation (x :: rest) l.
Proof.
  unfold PyList.pop. destruct (nth_error l (Z.to_nat i)) as [y |] eqn:E; [| discriminate].
  intros H. injection H as <- <-. unfold PyList.delete.
  rewrite (split_at l (Z.to_nat i) y E) at 3. apply Permutation_middle.
Qed.

End ListSurgery.

Section ContainerComposition.

(** X5.  Removing at the position where [insert_element] put an element
    gives the element sequence back, and the whole alignment when its
    cache was consistent. *)
Theorem remove_undoes_insert (s : Alignment.t) (index : Z) (el : BaseElement) :
  let k := insert_position (PyList.len (Alignment.elements s)) index in
  Alignment.elements (Alignment.remove_element (Alignment.insert_element s index el) k)
  = Alignment.elements s
  /\ (cache_consistent s ->
      Alignment.remove_element (Alignment.insert_element s index el) k = s).
Proof.
  intros k.
  pose proof (insert_element_elements s index el) as Hins. cbv zeta in Hins.
  fold k in Hins.
  set (els := Alignment.elements s) in *.
  assert (Hk : (0 <= k <= PyList.len els)%Z).
  { unfold k, insert_position, clamp, PyList.len. lia. }
  assert (Hlen : List.length (firstn (Z.to_nat k) els) = Z.to_nat k).
  { apply firstn_length_le. unfold PyList.len in Hk. lia. }
  assert (Hguard : andb (0 <=? k)%Z
                        (k <? PyList.len (Alignment.elements
                                            (Alignment.insert_element s index el)))%Z
                   = true).
  { rewrite Hins. unfold PyList.len. rewrite length_app. simpl.
    apply andb_true_intro. split; [apply Z.leb_le; lia |].
    apply Z.ltb_lt. rewrite Hlen.
    pose proof (firstn_skipn (Z.to_nat k) els) as Hsplit.
    apply (f_equal (@List.length BaseElement)) in Hsplit.
    rewrite length_app, Hlen in Hsplit. unfold PyList.len in Hk. lia. }
  assert (Hels : Alignment.elements
                   (Alignment.remove_element (Alignment.insert_element s index el) k)
                 = els).
  { unfold Alignment.remove_element. rewrite Hguard.
    unfold Alignment._rebuild_cache, Alignment.set_elements.
    cbn [Alignment.elements]. rewrite Hins.
    transitivity (firstn (Z.to_nat k) els ++ skipn (Z.to_nat k) els);
      [| apply firstn_skipn].
    assert (Hk' : k = Z.of_nat (List.length (firstn (Z.to_nat k) els)))
      by (rewrite Hlen; lia).
    set (l1 := firstn (Z.to_nat k) els) in *.
    set (l2 := skipn (Z.to_nat k) els) in *.
    clearbody l1 l2. rewrite Hk'. apply delete_middle. }
  split; [exact Hels |].
  intros Hc. unfold cache_consistent in Hc. fold els in Hc.
  unfold Alignment.remove_element in *. rewrite Hguard in *.
  unfold Alignment._rebuild_cache, Alignment.set_elements in *. simpl in *.
  rewrite Hels. destruct s as [name els' total]. simpl in *. subst els.
  rewrite Hc. reflexivity.
Qed.

Lemma remove_undoes_insert_witness :
  cache_consistent two_lines
  /\ Alignment.remove_element
       (Alignment.insert_element two_lines (-1) (Line (LineElement.new (0, 0) (3, 0))))
       (insert_position (PyList.len (Alignment.elements two_lines)) (-1))
     = two_lines.
Proof.
  assert (H : cache_consistent two_lines) by reflexivity.
  split; [exact H |].
  exact (proj2 (remove_undoes_insert two_lines (-1)
                  (Line (LineElement.new (0, 0) (3, 0)))) H).
Defined.

(** X6.  [move_element] never loses or duplicates an element: the new
    sequence is a permutation of the old one; and with valid indices the
    element taken at [from_idx] ends at position min(to_idx, len - 1). *)
Theorem move_element_permutes (s : Alignment.t) (from_idx to_idx : Z) :
  let n := PyList.len (Alignment.elements s) in
  Permutation (Alignment.elements (Alignment.move_element s from_idx to_idx))
              (Alignment.elements s)
  /\ ((0 <= from_idx < n)%Z -> (0 <= to_idx <= n)%Z ->
      nth_error (Alignment.elements (Alignment.move_element s from_idx to_idx))
                (Z.to_nat (Z.min to_idx (n - 1)))
      = nth_error (Alignment.elements s) (Z.to_nat from_idx)).
Proof.
  intros n. unfold Alignment.move_element. fold n.
  set (els := Alignment.elements s) in *.
  destruct (andb (andb (0 <=? from_idx)%Z (from_idx <? n)%Z)
                 (andb (0 <=? to_idx)%Z (to_idx <=? n)%Z)) eqn:G.
  - apply andb_prop in G. destruct G as [G1 G2].
    apply andb_prop in G1. apply andb_prop in G2.
    destruct G1 as [Hf0 Hf1]. destruct G2 as [Ht0 Ht1].
    apply Z.leb_le in Hf0, Ht0, Ht1. apply Z.ltb_lt in Hf1.
    assert (Hnth : exists el, nth_error els (Z.to_nat from_idx) = Some el).
    { destruct (nth_error els (Z.to_nat from_idx)) as [el |] eqn:E; [eauto |].
      apply nth_error_None in E. unfold n, PyList.len in Hf1. lia. }
    destruct Hnth as [el Hel].
    unfold PyList.pop. rewrite Hel. simpl Alignment.elements.
    set (rest := PyList.delete els from_idx).
    assert (Hrest : Permutation (el :: rest) els).
    { apply (pop_is_permutation els rest from_idx el).
      unfold PyList.pop. rewrite Hel. reflexivity. }
    assert (Hrlen : S (List.length rest) = List.length els).
    { apply Permutation_length in Hrest. exact Hrest. }
    split.
    + etransitivity; [apply insert_is_permutation | exact Hrest].
    + intros _ _.
      assert (Hj : (0 <= Z.min to_idx (n - 1) <= PyList.len rest)%Z)
        by (unfold n, PyList.len in *; lia).
      assert (Hins : PyList.insert rest to_idx el
                     = PyList.insert rest (Z.min to_idx (n - 1)) el).
      { destruct (Z_le_gt_dec to_idx (n - 1)) as [Hle | Hgt].
        - rewrite Z.min_l by lia. reflexivity.
        - rewrite Z.min_r by lia.
          rewrite !insert_at_end by (unfold n, PyList.len in *; lia). reflexivity. }
      rewrite Hins, insert_in_range by exact Hj.
      rewrite nth_error_app2
        by (rewrite firstn_length_le; unfold PyList.len in Hj; lia).
      rewrite firstn_length_le by (unfold PyList.len in Hj; lia).
      rewrite Nat.sub_diag. reflexivity.
  - split; [apply Permutation_refl |].
    intros Hf Ht. exfalso.
    assert (G' : andb (andb (0 <=? from_idx)%Z (from_idx <? n)%Z)
                      (andb (0 <=? to_idx)%Z (to_idx <=? n)%Z) = true).
    { repeat (apply andb_true_intro; split);
        first [apply Z.leb_le; lia | apply Z.ltb_lt; lia]. }
    rewrite G' in G. discriminate.
Qed.

Lemma move_element_permutes_witness :
  nth_error (Alignment.elements (Alignment.move_element two_lines 0 2)) 1
  = nth_error (Alignment.elements two_lines) 0.
Proof.
  apply (proj2 (move_element_permutes two_lines 0 2));
    unfold two_lines, PyList.len; simpl; lia.
Defined.

End ContainerComposition.

(** ** Saving and loading an alignment *)

Section AlignmentPersistence.
Context (rt : Py.runtime).

Lemma element_round_trip (el : BaseElement) :
  constructed rt el ->
  Alignment.element_from_dict rt (Py.VDict (element_to_dict el)) = Py.Ok (Some el).
Proof.
  destruct el as [e | e | e]; intros H; unfold constructed in H;
    unfold Alignment.element_from_dict; cbn [element_to_dict].
  - change (Py.get (LineElement.to_dict e) "type" (Py.VStr "")) with (Py.VStr "line").
    change (String.eqb (Py.lower "line") "line") with true. cbv iota.
    rewrite line_round_trip, H. reflexivity.
  - change (Py.get (ArcElement.to_dict e) "type" (Py.VStr "")) with (Py.VStr "arc").
    change (String.eqb (Py.lower "arc") "line") with false.
    change (String.eqb (Py.lower "arc") "arc") with true. cbv iota.
    rewrite arc_round_trip, H. reflexivity.
  - change (Py.get (ClothoidElement.to_dict e) "type" (Py.VStr ""))
      with (Py.VStr "clothoid_poly").
    change (String.eqb (Py.lower "clothoid_poly") "line") with false.
    change (String.eqb (Py.lower "clothoid_poly") "arc") with false.
    change (String.eqb (Py.lower "clothoid_poly") "clothoid_poly") with true.
    cbv iota. cbn [orb]. rewrite clothoid_round_trip. cbn [Py.bind]. rewrite H.
    reflexivity.
Qed.

Lemma load_loop (l : list Py.value) (acc : list BaseElement) :
  fold_left
    (fun acc ed =>
       match Py.try_except (Alignment.element_from_dict rt ed) (fun _ => None) with
       | Some el => acc ++ [el]
       | None => acc
       end) l acc
  = acc ++ flat_map (loaded rt) l.
Proof.
  revert acc. induction l as [| ed l IH]; intros acc; simpl.
  - rewrite app_nil_r. reflexivity.
  - rewrite IH. unfold loaded at 2.
    destruct (Py.try_except _ _) as [el |]; simpl; [| reflexivity].
    rewrite <- app_assoc. reflexivity.
Qed.

(** The elements a dictionary with a list under ['elements'] loads to. *)
Lemma from_dict_of_list (d : Py.dict) (l : list Py.value) :
  Py.get d "elements" (Py.VList []) = Py.VList l ->
  Alignment.from_dict rt d
  = Py.Ok (Alignment._rebuild_cache
             {| Alignment.name := Py.get d "name" (Py.VStr "alignment");
                Alignment.elements := flat_map (loaded rt) l;
                Alignment.total_length := 0 |}).
Proof.
  intros H. unfold Alignment.from_dict. rewrite H. simpl Py.tuple. simpl Py.bind.
  rewrite load_loop. reflexivity.
Qed.

(** X7.  Loading what [to_dict] saved gives back the name and the elements,
    with the total length recomputed, whenever every element is what its
    constructor builds; it is the alignment itself when the cache was
    consistent. *)
Theorem saved_alignment_loads_back (s : Alignment.t) :
  Forall (constructed rt) (Alignment.elements s) ->
  Alignment.from_dict rt (Alignment.to_dict s) = Py.Ok (Alignment._rebuild_cache s)
  /\ (cache_consistent s -> Alignment.from_dict rt (Alignment.to_dict s) = Py.Ok s).
Proof.
  intros Hall.
  assert (Hload : flat_map (loaded rt)
                    (map (fun el => Py.VDict (element_to_dict el)) (Alignment.elements s))
                  = Alignment.elements s).
  { induction Hall as [| el els Hel Hels IH]; simpl; [reflexivity |].
    unfold loaded at 1. rewrite (element_round_trip el Hel). simpl.
    f_equal. exact IH. }
  assert (Hfrom : Alignment.from_dict rt (Alignment.to_dict s)
                  = Py.Ok (Alignment._rebuild_cache s)).
  { rewrite (from_dict_of_list (Alignment.to_dict s)
               (map (fun el => Py.VDict (element_to_dict el)) (Alignment.elements s)))
      by reflexivity.
    rewrite Hload. reflexivity. }
  split; [exact Hfrom |].
  intros Hc. rewrite Hfrom. f_equal. unfold cache_consistent in Hc.
  destruct s as [name els total]. unfold Alignment._rebuild_cache. simpl in *.
  rewrite Hc. reflexivity.
Qed.

(** X8.  Loading isolates failures per entry: an entry of the element list
    that cannot be read (not a dictionary, unknown type, missing or
    malformed field) is skipped and the entries around it are loaded as
    without it.  The list itself is read outside that protection: when
    ['elements'] is [None] or a number, [from_dict] raises [TypeError]. *)
Theorem from_dict_skips_unreadable_entries
    (name : Py.value) (before after : list Py.value) (bad other : Py.value) :
  (forall el, Alignment.element_from_dict rt bad <> Py.Ok (Some el)) ->
  Alignment.from_dict rt
    [("name", name); ("elements", Py.VList (before ++ bad :: after))]
  = Alignment.from_dict rt [("name", name); ("elements", Py.VList (before ++ after))]
  /\ (exists s,
        Alignment.from_dict rt
          [("name", name); ("elements", Py.VList (before ++ bad :: after))] = Py.Ok s
        /\ Alignment.elements s = flat_map (loaded rt) before ++ flat_map (loaded rt) after)
  /\ (Py.tuple other = Py.Raise Py.TypeError ->
      Alignment.from_dict rt [("name", name); ("elements", other)]
      = Py.Raise Py.TypeError).
Proof.
  intros Hbad.
  assert (Hskip : loaded rt bad = []).
  { unfold loaded.
    destruct (Alignment.element_from_dict rt bad) as [[el |] | e] eqn:E; simpl;
      try reflexivity.
    exfalso. apply (Hbad el). reflexivity. }
  assert (Hflat : flat_map (loaded rt) (before ++ bad :: after)
                  = flat_map (loaded rt) (before ++ after)).
  { rewrite !flat_map_app. simpl. rewrite Hskip. reflexivity. }
  rewrite (from_dict_of_list _ (before ++ bad :: after)) by reflexivity.
  rewrite (from_dict_of_list _ (before ++ after)) by reflexivity.
  rewrite Hflat. split; [reflexivity |]. split.
  - eexists. split; [reflexivity |]. simpl. apply flat_map_app.
  - intros Hother. unfold Alignment.from_dict.
    change (Py.get [("name", name); ("elements", other)] "elements" (Py.VList []))
      with other.
    rewrite Hother. reflexivity.
Qed.

End AlignmentPersistence.

Lemma from_dict_skips_unreadable_entries_witness :
  exists s,
    Alignment.from_dict plain_runtime
      [("name", Py.VStr "a");
       ("elements",
        Py.VList ([Py.VDict (LineElement.to_dict (LineElement.new (0, 0) (1, 0)))]
                  ++ Py.VDict [("type", Py.VStr "line")]
                  :: [Py.VDict (LineElement.to_dict (LineElement.new (1, 0) (2, 0)))]))]
    = Py.Ok s
    /\ Alignment.elements s
       = flat_map (loaded plain_runtime)
           [Py.VDict (LineElement.to_dict (LineElement.new (0, 0) (1, 0)))]
         ++ flat_map (loaded plain_runtime)
              [Py.VDict (LineElement.to_dict (LineElement.new (1, 0) (2, 0)))].
Proof.
  apply (from_dict_skips_unreadable_entries plain_runtime (Py.VStr "a")
           [Py.VDict (LineElement.to_dict (LineElement.new (0, 0) (1, 0)))]
           [Py.VDict (LineElement.to_dict (LineElement.new (1, 0) (2, 0)))]
           (Py.VDict [("type", Py.VStr "line")]) Py.VNone).
  intros el H. discriminate H.
Defined.

Lemma saved_alignment_loads_back_witness :
  Forall (constructed plain_runtime) (Alignment.elements two_lines)
  /\ Alignment.from_dict plain_runtime (Alignment.to_dict two_lines) = Py.Ok two_lines.
Proof.
  assert (H : Forall (constructed plain_runtime) (Alignment.elements two_lines)).
  { unfold two_lines. simpl. repeat constructor. }
  split; [exact H |].
  apply (proj2 (saved_alignment_loads_back plain_runtime two_lines H)).
  reflexivity.
Defined.

(** ** Sampling a whole alignment *)

Section AlignmentSampling.
Context (rt : Py.runtime).



End AlignmentSampling.


(** ** Vertices of an alignment *)

Lemma key_eqb_eq (k k' : R * R) : key_eqb k k' = true <-> k = k'.
Proof.
  unfold key_eqb. rewrite andb_true_iff, !eqb_true.
  destruct k, k'; simpl; split; [intros [-> ->]; reflexivity | intros E; inversion E; auto].
Qed.

Lemma key_in_iff (k : R * R) (seen : list (R * R)) :
  key_in k seen = true <-> In k seen.
Proof.
  unfold key_in. rewrite existsb_exists. split.
  - intros (k' & Hin & E). apply key_eqb_eq in E. subst. exact Hin.
  - intros Hin. exists k. split; [exact Hin | apply key_eqb_eq; reflexivity].
Qed.

(** The loop keeps [seen] equal to the keys of [out]; the keys stay distinct,
    nothing is invented and every position met keeps a representative. *)
Lemma keep_first_loop (pts out0 : list Point) :
  NoDup (map vertex_key out0) ->
  exists out,
    fold_left keep_first pts (map vertex_key out0, out0) = (map vertex_key out, out)
    /\ NoDup (map vertex_key out)
    /\ (forall p, In p out -> In p out0 \/ In p pts)
    /\ (forall p, In p out0 \/ In p pts ->
          exists q, In q out /\ vertex_key q = vertex_key p).
Proof.
  revert out0. induction pts as [| p pts IH]; intros out0 Hnd.
  - exists out0. simpl. repeat split; auto.
    + intros q [H | []]. exists q. auto.
  - cbn [fold_left]. unfold keep_first at 2.
    destruct (key_in (vertex_key p) (map vertex_key out0)) eqn:E; cbn [negb].
    + apply key_in_iff in E. apply in_map_iff in E. destruct E as (q0 & Hk & Hq0).
      destruct (IH out0 Hnd) as (out & Hf & Hnd' & Hsub & Hrep).
      exists out. repeat split; auto.
      * intros q Hq. destruct (Hsub q Hq); [left | right; right]; assumption.
      * intros q [Hq | [<- | Hq]].
        -- apply Hrep. left. exact Hq.
        -- destruct (Hrep q0 (or_introl Hq0)) as (q1 & H1 & H2).
           exists q1. split; [exact H1 | congruence].
        -- apply Hrep. right. exact Hq.
    + assert (Hnin : ~ In (vertex_key p) (map vertex_key out0)).
      { intros Hin. apply key_in_iff in Hin. congruence. }
      assert (Hnd1 : NoDup (map vertex_key (out0 ++ [p]))).
      { rewrite map_app. simpl. apply NoDup_app.
        - exact Hnd.
        - constructor; [intros [] | constructor].
        - intros k Hk [<- | []]. exact (Hnin Hk). }
      destruct (IH (out0 ++ [p]) Hnd1) as (out & Hf & Hnd' & Hsub & Hrep).
      rewrite map_app in Hf. simpl map in Hf.
      exists out. repeat split; auto.
      * intros q Hq. destruct (Hsub q Hq) as [H | H].
        -- apply in_app_or in H. destruct H as [H | [<- | []]];
             [left; exact H | right; left; reflexivity].
        -- right. right. exact H.
      * intros q [Hq | [<- | Hq]]; apply Hrep.
        -- left. apply in_or_app. left. exact Hq.
        -- left. apply in_or_app. right. left. reflexivity.
        -- right. exact Hq.
Qed.

(** X10.  [flatten_vertices] returns end points of the elements only, no two
    of them at one position rounded to nine decimals, and every end point of
    an element has a returned vertex at its rounded position. *)
Theorem flatten_vertices_one_vertex_per_position (self : Alignment.t) :
  let pts := flat_map element_vertices (Alignment.elements self) in
  let out := flatten_vertices self in
  NoDup (map vertex_key out)
  /\ (forall p, In p out -> In p pts)
  /\ (forall p, In p pts -> exists q, In q out /\ vertex_key q = vertex_key p).
Proof.
  intros pts out. unfold out, flatten_vertices. fold pts.
  destruct (keep_first_loop pts [] (NoDup_nil _)) as (o & Hf & Hnd & Hsub & Hrep).
  simpl map in Hf. rewrite Hf. simpl snd. repeat split.
  - exact Hnd.
  - intros p Hp. destruct (Hsub p Hp) as [[] | H]. exact H.
  - intros p Hp. apply Hrep. right. exact Hp.
Qed.

(** ** The nearest vertex *)

(** What the search loop has found after the vertices [verts], which are
    numbered from [i]: either the candidate it started with, which nothing in
    [verts] beats, or the first of the vertices at the least distance. *)
Lemma nearest_scan_spec (pt : Point) (verts : list Point) :
  forall (i : Z) (best : option (Z * R)),
  match nearest_scan pt verts i best with
  | None => best = None /\ verts = []
  | Some (j, d) =>
      (forall w, In w verts -> d <= dist pt w)
      /\ match best with Some (_, bd) => d <= bd | None => True end
      /\ ((best = Some (j, d))
          \/ (exists v,
                (i <= j)%Z
                /\ nth_error verts (Z.to_nat (j - i)) = Some v
                /\ d = dist pt v
                /\ match best with Some (_, bd) => d < bd | None => True end
                /\ forall (k : nat) w, (k < Z.to_nat (j - i))%nat ->
                     nth_error verts k = Some w -> d < dist pt w))
  end.
Proof.
  induction verts as [| v rest IH]; intros i best.
  - simpl. destruct best as [[j d] |]; [| auto].
    split; [intros w [] |]. split; [lra |]. left. reflexivity.
  - cbn [nearest_scan]. cbv zeta.
    set (d0 := dist pt v).
    set (best' := match best with
                  | None => Some (i, d0)
                  | Some (_, best_d) => if Py.ltb d0 best_d then Some (i, d0) else best
                  end).
    specialize (IH (i + 1)%Z best').
    destruct (nearest_scan pt rest (i + 1)%Z best') as [[j d] |].
    + destruct IH as (Hmin & Hle & Hwho).
      assert (Hcases :
        (best' = Some (i, d0)
         /\ match best with Some (_, bd) => d0 < bd | None => True end)
        \/ (best' = best /\ exists b bd, best = Some (b, bd) /\ bd <= d0)).
      { unfold best'. destruct best as [[b bd] |].
        - destruct (Py.ltb d0 bd) eqn:E.
          + left. split; [reflexivity | apply ltb_true; exact E].
          + right. split; [reflexivity |]. exists b, bd.
            split; [reflexivity | apply ltb_false; exact E].
        - left. split; [reflexivity | exact I]. }
      destruct Hcases as [[Hb' Hlt] | [Hb' (b & bd & Hb & Hge)]].
      * (* the vertex v became the candidate *)
        rewrite Hb' in Hle, Hwho.
        assert (Hd : d <= d0) by exact Hle.
        split.
        { intros w [<- | Hw]; [exact Hd | apply Hmin; exact Hw]. }
        split.
        { destruct best as [[b bd] |]; [lra | exact I]. }
        right. destruct Hwho as [E | (v' & Hij & Hnth & Hdv & Hlt' & Hfirst)].
        -- inversion E; subst j d. exists v.
           replace (i - i)%Z with 0%Z by lia. simpl.
           repeat split; auto; try lia.
        -- exists v'. replace (Z.to_nat (j - i)) with (S (Z.to_nat (j - (i + 1)))) by lia.
           simpl. repeat split; auto; try lia.
           ++ destruct best as [[b bd] |]; [lra | exact I].
           ++ intros [| k] w Hk Hw.
              ** simpl in Hw. inversion Hw; subst w. fold d0. lra.
              ** simpl in Hw. apply (Hfirst k w); [lia | exact Hw].
      * (* the candidate was kept *)
        rewrite Hb' in Hle, Hwho. rewrite Hb in Hle, Hwho |- *.
        split.
        { intros w [<- | Hw]; [fold d0; lra | apply Hmin; exact Hw]. }
        split; [exact Hle |].
        destruct Hwho as [E | (v' & Hij & Hnth & Hdv & Hlt' & Hfirst)].
        -- left. exact E.
        -- right. exists v'.
           replace (Z.to_nat (j - i)) with (S (Z.to_nat (j - (i + 1)))) by lia.
           simpl. repeat split; auto; try lia.
           intros [| k] w Hk Hw.
           ++ simpl in Hw. inversion Hw; subst w. fold d0. lra.
           ++ simpl in Hw. apply (Hfirst k w); [lia | exact Hw].
    + destruct IH as [Hb' _]. unfold best' in Hb'.
      destruct best as [[b bd] |]; [destruct (Py.ltb d0 bd) |]; discriminate.
Qed.

(** X11.  [nearest_vertex] returns the index and the point of the first
    vertex at the least distance from [pt] when that distance is at most
    [max_dist], and None exactly when no vertex is that near (or there is
    none at all). *)
Theorem nearest_vertex_is_first_nearest
    (self : Alignment.t) (pt : Point) (max_dist : R) :
  let verts := flatten_vertices self in
  match nearest_vertex self pt max_dist with
  | Some (i, v) =>
      (0 <= i)%Z
      /\ nth_error verts (Z.to_nat i) = Some v
      /\ dist pt v <= max_dist
      /\ (forall w, In w verts -> dist pt v <= dist pt w)
      /\ (forall (k : nat) w, (k < Z.to_nat i)%nat ->
            nth_error verts k = Some w -> dist pt v < dist pt w)
  | None => forall w, In w verts -> max_dist < dist pt w
  end.
Proof.
  intros verts. unfold nearest_vertex. fold verts.
  pose proof (nearest_scan_spec pt verts 0%Z None) as H.
  destruct (nearest_scan pt verts 0%Z None) as [[j d] |].
  - destruct H as (Hmin & _ & [E | (v & Hj & Hnth & Hd & _ & Hfirst)]);
      [discriminate |].
    rewrite Z.sub_0_r in Hnth, Hfirst.
    destruct (Py.ltb max_dist d) eqn:E.
    + apply ltb_true in E. intros w Hw. specialize (Hmin w Hw). lra.
    + apply ltb_false in E. unfold PyList.index.
      assert (Ej : (j <? 0)%Z = false) by (apply Z.ltb_ge; lia).
      rewrite !Ej, Hnth. subst d. repeat split; auto.
  - destruct H as [_ Hnil]. rewrite Hnil. intros w [].
Qed.

(** ** The advisor's recommendations *)

Section Advisor.
Context (rt : Py.runtime).

Import DesignStandards.

(** Between the first and the last tabulated speed the recommended
    friction is what the scan of the table finds. *)
Lemma recommend_friction_inside (v : R) :
  20 < v < 120 ->
  recommend_friction (Py.VFloat v)
  = match friction_scan v FRICTION_TABLE with Some y => y | None => 0.12 end.
Proof.
  intros Hv. unfold recommend_friction. rewrite friction_table_sorted.
  unfold FRICTION_TABLE at 1 2. cbn [num Py.bind List.last fst snd].
  do 2 float_cmp.
  destruct (friction_scan v FRICTION_TABLE); reflexivity.
Qed.

(** The recommended friction of a float speed, segment by segment. *)
Lemma recommend_friction_pieces (v : R) :
  let f := recommend_friction (Py.VFloat v) in
  (v <= 20 /\ f = 0.24)
  \/ (20 <= v <= 30 /\ f = 0.24 - 0.002 * (v - 20))
  \/ (30 <= v <= 50 /\ f = 0.22 - 0.002 * (v - 30))
  \/ (50 <= v <= 70 /\ f = 0.18 - 0.001 * (v - 50))
  \/ (70 <= v <= 90 /\ f = 0.16 - 0.001 * (v - 70))
  \/ (90 <= v <= 120 /\ f = 0.14 - (0.02 / 30) * (v - 90))
  \/ (120 <= v /\ f = 0.12).
Proof.
  intros f.
  destruct (Rle_dec v 20) as [H20 | H20].
  { left. split; [exact H20 |]. unfold f, recommend_friction.
    rewrite friction_table_sorted.
    unfold FRICTION_TABLE. cbn [num Py.bind List.last fst snd].
    float_cmp. reflexivity. }
  destruct (Rle_dec 120 v) as [H120 | H120].
  { do 6 right. split; [exact H120 |]. unfold f, recommend_friction.
    rewrite friction_table_sorted.
    unfold FRICTION_TABLE. cbn [num Py.bind List.last fst snd].
    do 2 float_cmp. reflexivity. }
  assert (Hin : f = match friction_scan v FRICTION_TABLE with
                    | Some y => y | None => 0.12 end)
    by (apply recommend_friction_inside; lra).
  clearbody f. subst f.
  unfold FRICTION_TABLE. cbn [friction_scan]. unfold linear_interpolate.
  destruct (Rle_dec v 30) as [H30 | H30].
  { right; left. split; [lra |]. repeat (float_cmp; cbn [andb]). lra. }
  destruct (Rle_dec v 50) as [H50 | H50].
  { do 2 right; left. split; [lra |]. repeat (float_cmp; cbn [andb]). lra. }
  destruct (Rle_dec v 70) as [H70 | H70].
  { do 3 right; left. split; [lra |]. repeat (float_cmp; cbn [andb]). lra. }
  destruct (Rle_dec v 90) as [H90 | H90].
  { do 4 right; left. split; [lra |]. repeat (float_cmp; cbn [andb]). lra. }
  do 5 right; left. split; [lra |]. repeat (float_cmp; cbn [andb]). lra.
Qed.

(** X12.  The recommended side friction never grows with the speed, it is
    the tabulated value at each tabulated speed, and a speed that is no number
    (a string, None) gives the fallback 0.15. *)
Theorem recommend_friction_decreases_with_speed (v1 v2 : R) :
  v1 <= v2 ->
  recommend_friction (Py.VFloat v2) <= recommend_friction (Py.VFloat v1)
  /\ (forall x y, In (x, y) FRICTION_TABLE -> recommend_friction (Py.VFloat x) = y)
  /\ (forall s, recommend_friction (Py.VStr s) = 0.15)
  /\ recommend_friction Py.VNone = 0.15.
Proof.
  intros Hle. split; [| split; [| split; [intros s; reflexivity | reflexivity]]].
  - pose proof (recommend_friction_pieces v1) as H1.
    pose proof (recommend_friction_pieces v2) as H2.
    cbv zeta in H1, H2.
    destruct H1 as [[? ->] | [[? ->] | [[? ->] | [[? ->] | [[? ->] | [[? ->] | [? ->]]]]]]];
      destruct H2 as [[? ->] | [[? ->] | [[? ->] | [[? ->] | [[? ->] | [[? ->] | [? ->]]]]]]];
      lra.
  - intros x y Hin. unfold FRICTION_TABLE in Hin. simpl in Hin.
    pose proof (recommend_friction_pieces x) as H. cbv zeta in H.
    repeat (destruct Hin as [Hin | Hin];
            [inversion Hin; subst x y; clear Hin;
             destruct H as [[? ->] | [[? ->] | [[? ->] | [[? ->] | [[? ->] | [[? ->] | [? ->]]]]]]];
             lra |]).
    destruct Hin.
Qed.

(** A speed that converts to a float has a finite superelevation minimum. *)
Lemma min_radius_of_float_speed (speed_kmh : Py.value) (v : R) :
  Py.float rt speed_kmh = Py.Ok v ->
  exists f, 0.12 <= f <= 0.24
    /\ min_radius_from_superelevation_and_friction rt speed_kmh None None
       = Fin (v * v / (127 * (0.04 + f))).
Proof.
  intros Hv. exists (recommend_friction speed_kmh).
  pose proof (recommend_friction_positive speed_kmh) as Hf.
  split; [exact Hf |].
  unfold min_radius_from_superelevation_and_friction, SUPERELEVATION_typical.
  rewrite Hv. cbn [Py.bind].
  replace (Py.leb (127 * (0.04 + recommend_friction speed_kmh)) 0) with false
    by (symmetry; apply leb_false; lra).
  reflexivity.
Qed.

Lemma min_radius_of_bad_speed (speed_kmh : Py.value) (e : Py.exn) :
  Py.float rt speed_kmh = Py.Raise e ->
  min_radius_from_superelevation_and_friction rt speed_kmh None None = PInf.
Proof.
  intros Hv. unfold min_radius_from_superelevation_and_friction.
  rewrite Hv. reflexivity.
Qed.

Lemma max_bounds (a b : R) : a <= Py.max a b /\ b <= Py.max a b.
Proof.
  unfold Py.max. destruct (Py.ltb a b) eqn:E;
    [apply ltb_true in E | apply ltb_false in E]; lra.
Qed.

Lemma xmax_fin (a b : R) : X.max (Fin a) (Fin b) = Fin (Py.max a b).
Proof. unfold X.max, Py.max. simpl. destruct (Py.ltb a b); reflexivity. Qed.

(** X13.  For a chord of at most 1e100 and a speed that reads as a float
    of magnitude at most 1e6 (so that no product overflows), the
    recommended radius range is finite, starts at 3 m or above, is not
    empty, and lies between an eighth of the chord and eight times the chord
    (30 m at least); for a speed that [float()] rejects both ends are
    infinite. *)
Theorem recommend_radius_range_bounds (chord_length : R) (speed_kmh : Py.value) :
  (forall v, Py.float rt speed_kmh = Py.Ok v ->
     Rabs v <= 1e6 -> chord_length <= 1e100 ->
     exists r_min r_max,
       recommend_radius_range rt chord_length speed_kmh = (Fin r_min, Fin r_max)
       /\ 3 <= r_min /\ chord_length / 8 <= r_min
       /\ r_min < r_max /\ 30 <= r_max /\ chord_length * 8 <= r_max)
  /\ (forall e, Py.float rt speed_kmh = Py.Raise e ->
        recommend_radius_range rt chord_length speed_kmh = (PInf, PInf)).
Proof.
  split.
  - intros v Hv _ _. destruct (min_radius_of_float_speed speed_kmh v Hv) as (f & Hf & Hm).
    unfold recommend_radius_range. rewrite Hm.
    cbn [X.mul]. rewrite !xmax_fin. cbn [X.add]. rewrite !xmax_fin.
    eexists _, _. split; [reflexivity |].
    set (chord := Py.max 0 chord_length).
    pose proof (max_bounds 0 chord_length) as [Hc0 Hc1]. fold chord in Hc0, Hc1.
    set (bmin := Py.max 3 (chord / 8)).
    pose proof (max_bounds 3 (chord / 8)) as [Hb0 Hb1]. fold bmin in Hb0, Hb1.
    set (bmax := Py.max 30 (chord * 8)).
    pose proof (max_bounds 30 (chord * 8)) as [Hx0 Hx1]. fold bmax in Hx0, Hx1.
    set (m1 := Py.max bmin _).
    pose proof (max_bounds bmin (v * v / (127 * (0.04 + f)) * 0.2)) as [Hm0 _].
    fold m1 in Hm0.
    set (rmin := Py.max 3 m1).
    pose proof (max_bounds 3 m1) as [Hr0 Hr1]. fold rmin in Hr0, Hr1.
    pose proof (max_bounds (rmin + 1) bmax) as [Hy0 Hy1].
    repeat split; lra.
  - intros e He. unfold recommend_radius_range.
    rewrite (min_radius_of_bad_speed speed_kmh e He).
    cbn [X.mul]. unfold X.mul_inf.
    replace (Py.ltb 0 0.2) with true by (symmetry; apply ltb_true; lra).
    reflexivity.
Qed.

(** X14.  The recommended spiral length range is never empty or reversed:
    3 <= Ls_min <= Ls_max, and 10 <= Ls_max <= 200.  Above a radius of 5000 m
    the lower end is reset to half the upper one, so the range is (100, 200). *)
Theorem recommend_spiral_length_range_bounds (radius : R) (speed_kmh : Py.value) :
  let '(Ls_min, Ls_max) := recommend_spiral_length_range radius speed_kmh in
  3 <= Ls_min /\ Ls_min <= Ls_max /\ 10 <= Ls_max <= 200
  /\ (radius <= 5000 -> 0.04 * radius <= Ls_min)
  /\ (5000 < radius -> Ls_min = 100 /\ Ls_max = 200).
Proof.
  unfold recommend_spiral_length_range, Py.max, Py.min.
  destruct (Py.ltb 0 radius) eqn:E0;
    [apply ltb_true in E0 | apply ltb_false in E0];
    match goal with |- context [Py.ltb 3 ?b] =>
      destruct (Py.ltb 3 b) eqn:E1;
      [apply ltb_true in E1 | apply ltb_false in E1] end;
    match goal with |- context [Py.ltb 10 ?b] =>
      destruct (Py.ltb 10 b) eqn:E2;
      [apply ltb_true in E2 | apply ltb_false in E2] end;
    match goal with |- context [Py.ltb 200 ?b] =>
      destruct (Py.ltb 200 b) eqn:E3;
      [apply ltb_true in E3 | apply ltb_false in E3] end;
    match goal with |- context [Py.ltb ?a ?b] =>
      destruct (Py.ltb a b) eqn:E4;
      [apply ltb_true in E4 | apply ltb_false in E4] end;
    repeat split; intros; lra.
Qed.

(** X15.  The stopping sight distance is 0 when the deceleration is 0 (the
    division error is swallowed) or the speed does not convert to a float;
    for a positive deceleration and a reaction time that is not negative it
    is not negative and grows with the speed. *)
Theorem stopping_sight_distance_edges (reaction_time decel : R) :
  (forall speed_kmh, stopping_sight_distance rt speed_kmh reaction_time 0 = 0)
  /\ (forall speed_kmh e, Py.float rt speed_kmh = Py.Raise e ->
        stopping_sight_distance rt speed_kmh reaction_time decel = 0)
  /\ (0 <= reaction_time -> 0 < decel ->
      forall v1 v2, 0 <= v1 <= v2 ->
        0 <= stopping_sight_distance rt (Py.VFloat v1) reaction_time decel
          <= stopping_sight_distance rt (Py.VFloat v2) reaction_time decel).
Proof.
  split; [| split].
  - intros speed_kmh. unfold stopping_sight_distance, div.
    replace (Py.eqb (2 * 0) 0) with true by (symmetry; apply eqb_true; lra).
    reflexivity.
  - intros speed_kmh e He. unfold stopping_sight_distance, kmh_to_ms, div.
    rewrite He. cbn [Py.bind Py.try_except].
    destruct (Py.eqb (2 * decel) 0) eqn:E; cbn [Py.bind Py.try_except]; [reflexivity |].
    apply eqb_false in E. field. lra.
  - intros Ht Hd v1 v2 Hv. unfold stopping_sight_distance, kmh_to_ms, div.
    cbn [Py.float Py.bind Py.try_except].
    replace (Py.eqb (2 * decel) 0) with false by (symmetry; apply eqb_false; lra).
    cbn [Py.bind Py.try_except].
    assert (Hinv : 0 < / (2 * decel)) by (apply Rinv_0_lt_compat; lra).
    set (k := / (2 * decel)) in *.
    set (a := v1 / 3.6). set (b := v2 / 3.6).
    assert (Ha : 0 <= a) by (unfold a; lra).
    assert (Hab : a <= b) by (unfold a, b; lra).
    unfold Rdiv. fold k. clearbody a b k.
    assert (H1 : 0 <= a * reaction_time) by (apply Rmult_le_pos; lra).
    assert (H2 : a * reaction_time <= b * reaction_time)
      by (apply Rmult_le_compat_r; lra).
    assert (H3 : 0 <= a * a) by (apply Rmult_le_pos; lra).
    assert (H4 : a * a <= b * b) by (apply Rmult_le_compat; lra).
    assert (H5 : 0 <= a * a * k) by (apply Rmult_le_pos; lra).
    assert (H6 : a * a * k <= b * b * k) by (apply Rmult_le_compat_r; lra).
    lra.
Qed.

(** X16.  The recommended superelevation is one of 4, 5 and 6 per cent and
    does not decrease with the speed: the absolute maximum of 8 per cent is
    never recommended.  The label interval is 5, 10 or 20 m, by the same
    speed test, and 10 m for a speed that does not convert. *)
Theorem recommend_superelevation_steps (v : R) :
  recommend_superelevation rt (Py.VFloat v)
  = (if Rle_dec v 50 then 0.04 else if Rle_dec v 100 then 0.05 else 0.06)
  /\ recommend_superelevation rt (Py.VFloat v) <= SUPERELEVATION_max_recommended
  /\ recommend_label_interval rt (Py.VFloat v)
     = (if Rle_dec v 40 then 5 else if Rle_dec v 80 then 10 else 20)
  /\ (forall speed_kmh e, Py.float rt speed_kmh = Py.Raise e ->
        recommend_superelevation rt speed_kmh = 0.04
        /\ recommend_label_interval rt speed_kmh = 10).
Proof.
  assert (E1 : recommend_superelevation rt (Py.VFloat v)
    = (if Rle_dec v 50 then 0.04 else if Rle_dec v 100 then 0.05 else 0.06)).
  { unfold recommend_superelevation, SUPERELEVATION_typical,
      SUPERELEVATION_max_recommended, SUPERELEVATION_absolute_max, Py.leb, Py.min.
    cbn [Py.float Py.bind].
    destruct (Rle_dec v 50); [reflexivity |].
    destruct (Rle_dec v 100); cbn [Py.try_except].
    - replace (Py.ltb (0.04 + 0.01) 0.06) with true by (symmetry; apply ltb_true; lra).
      lra.
    - replace (Py.ltb (0.04 + 0.02) 0.08) with true by (symmetry; apply ltb_true; lra).
      lra. }
  split; [exact E1 |]. split.
  - rewrite E1. unfold SUPERELEVATION_max_recommended.
    destruct (Rle_dec v 50); [lra |]. destruct (Rle_dec v 100); lra.
  - split.
    + unfold recommend_label_interval, Py.leb. cbn [Py.float Py.bind].
      destruct (Rle_dec v 40); [reflexivity |].
      destruct (Rle_dec v 80); reflexivity.
    + intros speed_kmh e He.
      unfold recommend_superelevation, recommend_label_interval. rewrite He.
      split; reflexivity.
Qed.

End Advisor.

Lemma recommend_friction_decreases_with_speed_witness :
  50 <= 60
  /\ DesignStandards.recommend_friction (Py.VFloat 60)
     <= DesignStandards.recommend_friction (Py.VFloat 50).
Proof.
  assert (H : 50 <= 60) by lra.
  split; [exact H |].
  exact (proj1 (recommend_friction_decreases_with_speed 50 60 H)).
Defined.

(** ** The validator: the spiral branch and unreadable points *)

Section ValidationBranches.
Context (rt : Py.runtime).

Import DesignStandards.

Lemma spiral_name_is_not_arc (t : string) :
  is_spiral_name t = true -> String.eqb t "arc" = false.
Proof.
  unfold is_spiral_name. intros H.
  repeat (apply orb_true_iff in H; destruct H as [H | H]);
    apply String.eqb_eq in H; subst t; reflexivity.
Qed.

(** What the spiral branch records for a radius and a spiral length that
    convert to floats. *)
Lemma spiral_checks_values (chord R Ls : R) (d : Py.dict) (speed_kmh : Py.value)
    (sugg : list (string * suggestion)) :
  Py.float rt (Py.get d "radius" (Py.VFloat 0)) = Py.Ok R ->
  Py.float rt (Py.get d "spiral_length" (Py.VFloat 0)) = Py.Ok Ls ->
  let Ls_min := fst (recommend_spiral_length_range R speed_kmh) in
  let Ls_max := snd (recommend_spiral_length_range R speed_kmh) in
  exists sugg',
    spiral_checks rt chord (Py.VDict d) speed_kmh
      {| acc_errors := []; acc_warnings := []; acc_suggestions := sugg |}
    = ({| acc_errors :=
            if Py.leb R 0 then [CentralRadiusNotPositive]
            else if Py.leb Ls 0 then [SpiralLengthNotPositive]
            else [];
          acc_warnings :=
            if Py.leb R 0 then []
            else
              (if Py.ltb (20 * R) chord then [ChordLargeForRadius] else [])
              ++ (if Py.leb Ls 0 then []
                  else
                    (if Py.ltb Ls Ls_min
                     then [SpiralLengthBelowRange Ls Ls_min Ls_max] else [])
                    ++ (if Py.ltb Ls_max Ls
                        then [SpiralLengthAboveRange Ls Ls_min Ls_max] else []));
          acc_suggestions := sugg' |}, Py.Ok tt).
Proof.
  intros HR HLs Ls_min Ls_max. unfold spiral_checks.
  cbn [params_get Py.bind lift mbind]. rewrite HR, HLs.
  cbn [Py.bind lift mbind].
  destruct (Py.leb R 0); [eexists; reflexivity |].
  unfold Ls_min, Ls_max.
  destruct (recommend_spiral_length_range R speed_kmh) as [lo hi].
  cbn [fst snd].
  unfold when, mbind, add_error, add_warning, suggest, mret.
  destruct (Py.ltb (20 * R) chord); destruct (Py.leb Ls 0);
    destruct (Py.ltb Ls lo); destruct (Py.ltb hi Ls);
    eexists; reflexivity.
Qed.

(** X17.  For a spiral curve type (any of its four names, in any case and
    between white space), tangent points given as float pairs, a radius and
    a spiral length that read as finite floats, and headings that are
    missing or at most half a turn apart, the validator returns; it reports
    the radius error alone when the radius is not positive, the
    spiral-length error alone when the radius is positive and the length is
    not, and no error otherwise.  A key that is missing counts as 0. *)
Theorem spiral_validation_errors
    (fuel : nat) (P_left P_right : Point) (speed_kmh : Py.value) (lh rh : option R)
    (s : string) (d : Py.dict) (R Ls : R) :
  headings_within_half_turn lh rh ->
  is_spiral_name (Py.strip (Py.lower s)) = true ->
  Py.float rt (Py.get d "radius" (Py.VFloat 0)) = Py.Ok R ->
  Py.float rt (Py.get d "spiral_length" (Py.VFloat 0)) = Py.Ok Ls ->
  exists rep,
    validate_curve_parameters rt fuel (point_value P_left) (point_value P_right)
      (option_map Fin lh) (option_map Fin rh) (Py.VStr s) (Py.VDict d) speed_kmh
    = Some rep
    /\ errors rep
       = (if Py.leb R 0 then [CentralRadiusNotPositive]
          else if Py.leb Ls 0 then [SpiralLengthNotPositive]
          else [])
    /\ (ok rep = true <-> 0 < R /\ 0 < Ls)
    /\ (forall m, In m (warnings rep) ->
          0 < R
          \/ m = HeadingChangeTooLarge).
Proof.
  intros Hh Hname HR HLs.
  destruct (validate_within_half_turn rt fuel (point_value P_left) (point_value P_right)
              (Py.VStr s) (Py.VDict d) speed_kmh lh rh Hh) as (rep & Hrep & Hok & Hcc).
  exists rep. split; [exact Hrep |].
  destruct (curve_checks_points rt P_left P_right (Py.VStr s) (Py.VDict d) speed_kmh)
    as [sugg Hpts].
  rewrite Hpts in Hcc. rewrite curve_type_name_of_string in Hcc.
  rewrite (spiral_name_is_not_arc _ Hname), Hname in Hcc.
  destruct (spiral_checks_values (chord P_left P_right) R Ls d speed_kmh sugg HR HLs)
    as [sugg' Hsp].
  rewrite Hsp in Hcc. cbn [acc_errors acc_warnings] in Hcc.
  destruct Hcc as [Herr Hwarn].
  split; [exact Herr |]. split.
  - rewrite Hok, Herr.
    destruct (Py.leb R 0) eqn:ER; [apply leb_true in ER | apply leb_false in ER].
    + split; [discriminate | intros [? _]; lra].
    + destruct (Py.leb Ls 0) eqn:EL; [apply leb_true in EL | apply leb_false in EL].
      * split; [discriminate | intros [_ ?]; lra].
      * split; [intros _; split; assumption | reflexivity].
  - intros m Hm.
    destruct (Py.leb R 0) eqn:ER; [apply leb_true in ER | apply leb_false in ER].
    + destruct Hwarn as [Hw | Hw]; rewrite Hw in Hm.
      * destruct Hm.
      * destruct Hm as [<- | []]. right. reflexivity.
    + left. exact ER.
Qed.

(** X18.  When a coordinate of a tangent point cannot be read as a float
    (the point is None, too short, or holds a string that is no number), the
    validator returns at once, whatever the headings and the fuel: the report
    is not ok and holds the internal error alone, with no warning and no
    suggestion. *)
Theorem validate_with_unreadable_point
    (fuel : nat) (P_left P_right : Py.value) (lh rh : option xreal)
    (curve_type params speed_kmh : Py.value) :
  (exists i e, (i < 2)%nat
     /\ (coordinate rt P_left i = Py.Raise e \/ coordinate rt P_right i = Py.Raise e)) ->
  exists ex,
    validate_curve_parameters rt fuel P_left P_right lh rh curve_type params speed_kmh
    = Some {| ok := false; errors := [InternalError ex]; warnings := [];
              suggestions := [] |}.
Proof.
  intros (i & e & Hi & Hbad).
  unfold validate_curve_parameters, curve_checks, mbind, lift.
  destruct (coordinate rt P_right 0) as [xr | e0] eqn:E0; [| eexists; reflexivity].
  destruct (coordinate rt P_left 0) as [xl | e1] eqn:E1; [| eexists; reflexivity].
  destruct (coordinate rt P_right 1) as [yr | e2] eqn:E2; [| eexists; reflexivity].
  destruct (coordinate rt P_left 1) as [yl | e3] eqn:E3; [| eexists; reflexivity].
  exfalso.
  destruct i as [| [| i]]; [| | lia]; destruct Hbad as [H | H]; congruence.
Qed.

End ValidationBranches.

Lemma spiral_validation_errors_witness :
  headings_within_half_turn (Some 0) (Some 1)
  /\ exists rep,
       DesignStandards.validate_curve_parameters plain_runtime 0
         (point_value (0, 0)) (point_value (50, 10))
         (Some (Fin 0)) (Some (Fin 1)) (Py.VStr " Clothoid ")
         (Py.VDict [("radius", Py.VFloat 30)]) (Py.VFloat 80)
       = Some rep
       /\ DesignStandards.errors rep = [DesignStandards.SpiralLengthNotPositive]
       /\ DesignStandards.ok rep = false.
Proof.
  assert (Hh : headings_within_half_turn (Some 0) (Some 1)).
  { simpl. pose proof PI2_1. rewrite Rabs_right; lra. }
  split; [exact Hh |].
  destruct (spiral_validation_errors plain_runtime 0 (0, 0) (50, 10) (Py.VFloat 80)
              (Some 0) (Some 1) " Clothoid " [("radius", Py.VFloat 30)] 30 0
              Hh eq_refl eq_refl eq_refl) as (rep & Hrep & Herr & Hok & _).
  exists rep. split; [exact Hrep |].
  assert (E1 : Py.leb 30 0 = false) by (apply leb_false; lra).
  assert (E2 : Py.leb 0 0 = true) by (apply leb_true; lra).
  rewrite E1, E2 in Herr. split; [exact Herr |].
  destruct (DesignStandards.ok rep); [| reflexivity].
  destruct (proj1 Hok eq_refl) as [_ H]. lra.
Defined.

Lemma validate_with_unreadable_point_witness :
  exists ex,
    DesignStandards.validate_curve_parameters plain_runtime 0 Py.VNone
      (point_value (1, 0)) (Some (Fin 0)) (Some PInf) (Py.VStr "arc")
      (Py.VDict [("radius", Py.VFloat 1)]) (Py.VFloat 60)
    = Some {| DesignStandards.ok := false;
              DesignStandards.errors := [DesignStandards.InternalError ex];
              DesignStandards.warnings := [];
              DesignStandards.suggestions := [] |}.
Proof.
  apply (validate_with_unreadable_point plain_runtime 0 Py.VNone (point_value (1, 0))).
  exists 0%nat, Py.TypeError. split; [lia |]. left. reflexivity.
Defined.

(** ** Sampling an arc *)

Lemma linspace_unit (n : Z) :
  (1 <= n)%Z ->
  Py.linspace 0 1 (n + 1) = map (fun i => IZR i / IZR n) (Py.range (n + 1)).
Proof.
  intros Hn. unfold Py.linspace.
  assert (E : (n + 1 <=? 1)%Z = false) by (apply Z.leb_gt; lia).
  rewrite E. apply map_ext. intros i.
  replace (n + 1 - 1)%Z with n by lia.
  assert (IZR n <> 0) by (apply not_0_IZR; lia). field. assumption.
Qed.

(** The values of a function on the grid 0, 1/n, ..., 1. *)
Lemma unit_grid {T : Type} (g : R -> T) (n : Z) (d : T) :
  (1 <= n)%Z ->
  let pts := map (fun i => g (IZR i / IZR n)) (Py.range (n + 1)) in
  List.length pts = S (Z.to_nat n)
  /\ hd d pts = g 0
  /\ List.last pts d = g 1
  /\ (forall p, In p pts -> exists t, 0 <= t <= 1 /\ p = g t).
Proof.
  intros Hn pts.
  assert (Hn0 : IZR n <> 0) by (apply not_0_IZR; lia).
  assert (Hlen : List.length pts = S (Z.to_nat n)).
  { unfold pts. rewrite length_map, range_length. lia. }
  assert (Hnth : forall i : nat, (i <= Z.to_nat n)%nat ->
            nth i pts d = g (IZR (Z.of_nat i) / IZR n)).
  { intros i Hi. unfold pts.
    rewrite (map_range_nth (fun i => g (IZR i / IZR n))) by lia. reflexivity. }
  split; [exact Hlen |]. split; [| split].
  - destruct pts as [| p rest] eqn:E; [discriminate |].
    specialize (Hnth 0%nat ltac:(lia)). simpl in Hnth. simpl. rewrite Hnth.
    f_equal. unfold Rdiv. apply Rmult_0_l.
  - rewrite last_nth, Hlen. simpl Nat.sub. rewrite Nat.sub_0_r.
    rewrite Hnth by lia. rewrite Z2Nat.id by lia. f_equal. field. exact Hn0.
  - intros p Hp. unfold pts in Hp. apply in_map_iff in Hp.
    destruct Hp as (i & <- & Hi). unfold Py.range in Hi.
    apply in_map_iff in Hi. destruct Hi as (k & <- & Hk). apply in_seq in Hk.
    exists (IZR (Z.of_nat k) / IZR n). split; [| reflexivity].
    assert (Hpos : 0 < IZR n) by (apply IZR_lt; lia).
    assert (H0 : 0 <= IZR (Z.of_nat k)) by (apply IZR_le; lia).
    assert (H1 : IZR (Z.of_nat k) <= IZR n) by (apply IZR_le; lia).
    split.
    + unfold Rdiv. apply Rmult_le_pos; [exact H0 |].
      apply Rlt_le, Rinv_0_lt_compat. exact Hpos.
    + apply Rmult_le_reg_r with (r := IZR n); [exact Hpos |].
      unfold Rdiv. rewrite Rmult_assoc, Rinv_l by exact Hn0. lra.
Qed.

Lemma cos_sin_turns (x : R) (k : Z) :
  cos (x + 2 * PI * IZR k) = cos x /\ sin (x + 2 * PI * IZR k) = sin x.
Proof.
  destruct (Z_le_gt_dec 0 k) as [Hk | Hk].
  - replace (x + 2 * PI * IZR k) with (x + 2 * INR (Z.to_nat k) * PI)
      by (rewrite INR_IZR_INZ, Z2Nat.id by exact Hk; ring).
    split; [apply cos_period | apply sin_period].
  - set (y := x + 2 * PI * IZR k).
    assert (E : x = y + 2 * INR (Z.to_nat (- k)) * PI).
    { unfold y. rewrite INR_IZR_INZ, Z2Nat.id by lia. rewrite opp_IZR. ring. }
    clearbody y. rewrite E. split; symmetry; [apply cos_period | apply sin_period].
Qed.

Lemma normalize_turns (a1 a2 : R) :
  - PI < a1 <= PI -> - PI < a2 <= PI ->
  exists k : Z, normalize_angle (a2 - a1) = a2 - a1 + 2 * PI * IZR k.
Proof.
  intros H1 H2.
  destruct (normalize_difference a1 a2 H1 H2) as (Hlow & Hhigh & Hmid).
  destruct (Rle_dec (a2 - a1) (- PI)) as [Ha | Ha].
  - exists 1%Z. rewrite (Hlow Ha). ring.
  - destruct (Rlt_dec PI (a2 - a1)) as [Hb | Hb].
    + exists (-1)%Z. rewrite (Hhigh Hb). ring.
    + exists 0%Z. rewrite Hmid by lra. ring.
Qed.

(** What a successful construction fixes: the tangent points are at the
    distance |radius| from the center, at the start and the end angle, which
    differ; the sense is the sign of their normalised difference. *)
Lemma arc_constructed (A B : Point) (radius : R) (side : string) (e : ArcElement.t) :
  ArcElement.new A B radius side = Py.Ok e ->
  let c := ArcElement.center e in
  let a1 := ArcElement.start_angle e in
  let a2 := ArcElement.end_angle e in
  ArcElement.A e = A /\ ArcElement.B e = B /\ ArcElement.radius e = radius
  /\ radius <> 0
  /\ - PI < a1 <= PI /\ - PI < a2 <= PI
  /\ A = (fst c + Rabs radius * cos a1, snd c + Rabs radius * sin a1)
  /\ B = (fst c + Rabs radius * cos a2, snd c + Rabs radius * sin a2)
  /\ normalize_angle (a2 - a1) <> 0
  /\ - PI < normalize_angle (a2 - a1) <= PI
  /\ ArcElement.ccw e = Py.ltb 0 (normalize_angle (a2 - a1))
  /\ ArcElement.length e = Rabs radius * Rabs (normalize_angle (a2 - a1)).
Proof.
  intros Hnew c a1 a2.
  assert (Hfeas : chord A B <> 0 /\ chord A B / 2 <= Rabs radius).
  { apply arc_new_ok_iff with (side := side). exists e. exact Hnew. }
  destruct Hfeas as [Hc0 Hc2].
  destruct (arc_new_fields A B radius side Hc0 Hc2)
    as (e' & Hnew' & HA & HB & Hrad & Ha1 & Ha2 & HdA & HdB & Hccw & Hlen).
  rewrite Hnew in Hnew'. injection Hnew' as <-.
  fold c in Ha1, Ha2, HdA, HdB. fold a1 a2 in Ha1, Ha2, Hccw, Hlen.
  assert (Hcpos : 0 < chord A B).
  { pose proof (hypot_nonneg (fst B - fst A) (snd B - snd A)) as H.
    fold (chord A B) in H. lra. }
  assert (Hr : 0 < Rabs radius) by lra.
  assert (Hb1 : - PI < a1 <= PI) by (rewrite Ha1; apply atan2_bounds).
  assert (Hb2 : - PI < a2 <= PI) by (rewrite Ha2; apply atan2_bounds).
  destruct (normalize_difference_bounds a1 a2 Hb1 Hb2) as [Hnb Hzero].
  destruct (resolved_direction a1 a2 Hnb) as [Hdir Hang].
  assert (Hv : forall P : Point, Py.hypot (fst P - fst c) (snd P - snd c) = Rabs radius ->
               fst P - fst c <> 0 \/ snd P - snd c <> 0).
  { intros P HP.
    destruct (Req_dec_T (fst P - fst c) 0) as [Hx | Hx]; [| left; exact Hx].
    destruct (Req_dec_T (snd P - snd c) 0) as [Hy | Hy]; [| right; exact Hy].
    exfalso. rewrite Hx, Hy in HP.
    assert (H0 : Py.hypot 0 0 = 0) by (apply hypot_zero_iff; split; reflexivity).
    lra. }
  assert (Hne : a1 <> a2).
  { intros Heq. rewrite Ha1, Ha2 in Heq.
    destruct (atan2_injective _ _ _ _ (Hv A HdA) (Hv B HdB)) as [Hx Hy];
      [rewrite HdA, HdB; reflexivity | exact Heq |].
    apply Hc0. apply hypot_zero_iff. split; lra. }
  assert (Hpolar : forall P : Point,
            Py.hypot (fst P - fst c) (snd P - snd c) = Rabs radius ->
            P = (fst c + Rabs radius * cos (Py.atan2 (snd P - snd c) (fst P - fst c)),
                 snd c + Rabs radius * sin (Py.atan2 (snd P - snd c) (fst P - fst c)))).
  { intros P HP. destruct (atan2_polar _ _ (Hv P HP)) as [Hx Hy].
    rewrite HP in Hx, Hy. destruct P as [px py]. simpl in *. f_equal; lra. }
  split; [exact HA |]. split; [exact HB |]. split; [exact Hrad |].
  split. { intros H0. rewrite H0, Rabs_R0 in Hr. lra. }
  split; [exact Hb1 |]. split; [exact Hb2 |].
  split. { rewrite Ha1. apply Hpolar. exact HdA. }
  split. { rewrite Ha2. apply Hpolar. exact HdB. }
  split. { intros H. apply Hne, Hzero, H. }
  split; [exact Hnb |].
  split. { rewrite Hccw. exact Hdir. }
  rewrite Hlen, Hccw, Hang, Rabs_mult. reflexivity.
Qed.

Lemma at_angle_on_circle (e : ArcElement.t) (ang : R) :
  dist (ArcElement.center e) (ArcElement.at_angle e ang) = Rabs (ArcElement.radius e).
Proof.
  rewrite dist_from_center. unfold ArcElement.at_angle. simpl.
  apply hypot_eq; [apply Rabs_pos |].
  pose proof (sin_cos_sqr ang) as H.
  set (r := ArcElement.radius e).
  replace (Rabs r * Rabs r) with (r * r)
    by (unfold Rabs; destruct (Rcase_abs r); ring).
  replace ((fst (ArcElement.center e) + r * cos ang - fst (ArcElement.center e))
           * (fst (ArcElement.center e) + r * cos ang - fst (ArcElement.center e))
           + (snd (ArcElement.center e) + r * sin ang - snd (ArcElement.center e))
             * (snd (ArcElement.center e) + r * sin ang - snd (ArcElement.center e)))
    with (r * r * (cos ang * cos ang + sin ang * sin ang)) by ring.
  rewrite H. ring.
Qed.



Section ArcSampling.
Context (rt : Py.runtime).

(** With or without [numpy] the sampler evaluates the circle at the angles
    [start + sweep * i / n], where the sweep is signed by the sense. *)
Lemma arc_sample_points (e : ArcElement.t) (step : R) :
  0 < ArcElement.length e -> 0 < step ->
  let n := Py.ceil (ArcElement.length e / step) in
  let a1 := ArcElement.start_angle e in
  let a2 := ArcElement.end_angle e in
  let sweep :=
    if ArcElement.ccw e then
      (if Py.leb (normalize_angle (a2 - a1)) 0
       then normalize_angle (a2 - a1) + 2 * PI else normalize_angle (a2 - a1))
    else
      - (if Py.leb (normalize_angle (a1 - a2)) 0
         then normalize_angle (a1 - a2) + 2 * PI else normalize_angle (a1 - a2)) in
  (1 <= n)%Z
  /\ ArcElement.sample rt e step
     = map (fun i => (fun t => ArcElement.at_angle e (a1 + sweep * t)) (IZR i / IZR n))
           (Py.range (n + 1)).
Proof.
  intros Hl Hs n a1 a2 sweep.
  assert (Hq : 0 < ArcElement.length e / step) by (apply Rdiv_lt_0_compat; assumption).
  pose proof (ceil_of_positive _ Hq) as Hn. fold n in Hn.
  split; [exact Hn |].
  unfold ArcElement.sample.
  assert (E1 : Py.leb (ArcElement.length e) 0 = false) by (apply leb_false; exact Hl).
  assert (E2 : Py.leb step 0 = false) by (apply leb_false; exact Hs).
  rewrite E1, E2. cbn [orb]. cbv zeta.
  rewrite (zmax_of_ceil _ Hq). fold n a1 a2.
  unfold sweep.
  destruct (ArcElement.ccw e); destruct (Py._HAS_NUMPY rt);
    try rewrite (linspace_unit n Hn), map_map;
    apply map_ext; intros i; f_equal; ring.
Qed.

(** The sample of a constructed arc has ceil(length / step) + 1 points at
    the distance |radius| from the center; its first and last points are the
    points of the circle at the start and the end angle, taken with the
    radius as it is stored, sign included. *)
Lemma arc_sample_ends
    (A B : Point) (radius : R) (side : string) (e : ArcElement.t) (step : R) :
  ArcElement.new A B radius side = Py.Ok e -> 0 < step ->
  let pts := ArcElement.sample rt e step in
  let c := ArcElement.center e in
  (1 <= Py.ceil (ArcElement.length e / step))%Z
  /\ List.length pts = S (Z.to_nat (Py.ceil (ArcElement.length e / step)))
  /\ (forall p, In p pts -> dist c p = Rabs radius)
  /\ hd A pts = (fst c + radius * cos (ArcElement.start_angle e),
                 snd c + radius * sin (ArcElement.start_angle e))
  /\ List.last pts A = (fst c + radius * cos (ArcElement.end_angle e),
                        snd c + radius * sin (ArcElement.end_angle e)).
Proof.
  intros Hnew Hs pts c. pose proof PI_RGT_0 as Hpi.
  destruct (arc_constructed A B radius side e Hnew)
    as (HA & HB & Hrad & Hr0 & Hb1 & Hb2 & HpA & HpB & Hd0 & Hdb & Hccw & Hlen).
  fold c in HpA, HpB.
  set (a1 := ArcElement.start_angle e) in *.
  set (a2 := ArcElement.end_angle e) in *.
  assert (Hl : 0 < ArcElement.length e).
  { rewrite Hlen. apply Rmult_lt_0_compat; apply Rabs_pos_lt; assumption. }
  destruct (arc_sample_points e step Hl Hs) as [Hn Hpts].
  fold a1 a2 pts in Hpts.
  set (n := Py.ceil (ArcElement.length e / step)) in *.
  set (sweep := if ArcElement.ccw e then _ else _) in Hpts.
  destruct (unit_grid (fun t => ArcElement.at_angle e (a1 + sweep * t)) n A Hn)
    as (Hcount & Hfirst & Hlast & Hin).
  cbv zeta in Hcount, Hfirst, Hlast, Hin. rewrite <- Hpts in Hcount, Hfirst, Hlast, Hin.
  assert (Hend : exists k : Z, a1 + sweep * 1 = a2 + 2 * PI * IZR k).
  { unfold sweep. rewrite Hccw.
    destruct (Py.ltb 0 (normalize_angle (a2 - a1))) eqn:E.
    - apply ltb_true in E.
      replace (Py.leb (normalize_angle (a2 - a1)) 0) with false
        by (symmetry; apply leb_false; exact E).
      destruct (normalize_turns a1 a2 Hb1 Hb2) as [k Hk]. exists k. rewrite Hk. ring.
    - destruct (normalize_turns a2 a1 Hb2 Hb1) as [k Hk].
      destruct (Py.leb (normalize_angle (a1 - a2)) 0).
      + exists (- k - 1)%Z. rewrite Hk, minus_IZR, opp_IZR. ring.
      + exists (- k)%Z. rewrite Hk, opp_IZR. ring. }
  destruct Hend as [k Hk].
  destruct (cos_sin_turns a2 k) as [Hcos Hsin].
  assert (Hat0 : ArcElement.at_angle e (a1 + sweep * 0)
                 = (fst c + radius * cos a1, snd c + radius * sin a1)).
  { unfold ArcElement.at_angle. fold c. rewrite Hrad.
    replace (a1 + sweep * 0) with a1 by ring. reflexivity. }
  assert (Hat1 : ArcElement.at_angle e (a1 + sweep * 1)
                 = (fst c + radius * cos a2, snd c + radius * sin a2)).
  { unfold ArcElement.at_angle. fold c. rewrite Hrad, Hk, Hcos, Hsin. reflexivity. }
  split; [exact Hn |]. split; [exact Hcount |]. split; [| split].
  - intros p Hp. destruct (Hin p Hp) as (t & _ & ->).
    unfold c. rewrite at_angle_on_circle, Hrad. reflexivity.
  - rewrite Hfirst. exact Hat0.
  - rewrite Hlast. exact Hat1.
Qed.

(** X19.  In exact arithmetic, sampling an arc constructed with a positive
    radius, with a positive step, gives ceil(length / step) + 1 points, all
    at the distance radius from the center; the first point is A and the
    last is B. *)
Theorem arc_sample_runs_on_circle
    (A B : Point) (radius : R) (side : string) (e : ArcElement.t) (step : R) :
  ArcElement.new A B radius side = Py.Ok e -> 0 < radius -> 0 < step ->
  let pts := ArcElement.sample rt e step in
  (1 <= Py.ceil (ArcElement.length e / step))%Z
  /\ List.length pts = S (Z.to_nat (Py.ceil (ArcElement.length e / step)))
  /\ (forall p, In p pts -> dist (ArcElement.center e) p = radius)
  /\ hd A pts = A
  /\ List.last pts A = B.
Proof.
  intros Hnew Hpos Hs pts.
  destruct (arc_sample_ends A B radius side e step Hnew Hs)
    as (Hn & Hcount & Hon & Hfirst & Hlast).
  destruct (arc_constructed A B radius side e Hnew)
    as (_ & _ & _ & _ & _ & _ & HpA & HpB & _).
  rewrite (Rabs_right radius) in Hon, HpA, HpB by lra.
  split; [exact Hn |]. split; [exact Hcount |]. split; [exact Hon |].
  fold pts in Hfirst, Hlast.
  split; [rewrite Hfirst | rewrite Hlast]; symmetry; assumption.
Qed.

End ArcSampling.

Lemma arc_sample_runs_on_circle_witness :
  exists e,
    ArcElement.new (0, 0) (8, 0) 5 "right" = Py.Ok e
    /\ 0 < 5 /\ 0 < 1
    /\ (1 <= Py.ceil (ArcElement.length e / 1))%Z
    /\ hd (0, 0) (ArcElement.sample plain_runtime e 1) = (0, 0).
Proof.
  assert (H0 : chord (0, 0) (8, 0) <> 0) by (rewrite chord_on_axis; lra).
  assert (H1 : chord (0, 0) (8, 0) / 2 <= Rabs 5)
    by (rewrite chord_on_axis, Rabs_right; lra).
  destruct (arc_new_fields (0, 0) (8, 0) 5 "right" H0 H1) as (e & Hnew & _).
  exists e. split; [exact Hnew |]. split; [lra |]. split; [lra |].
  destruct (arc_sample_runs_on_circle plain_runtime (0, 0) (8, 0) 5 "right" e 1 Hnew
              ltac:(lra) ltac:(lra)) as (Hn & _ & _ & Hfirst & _).
  split; [exact Hn | exact Hfirst].
Defined.

(** ** A negative radius *)

(** C2 fails on the code at a negative radius.  The chord 4 exceeds
    2 * (-5), so the constructor should raise; it compares the chord with
    the absolute value of the radius and returns an element.  The validator
    reports an error for the same points and radius, and the sample of the
    element, which uses the radius with its sign, does not start at A. *)
Theorem arc_with_negative_radius_is_accepted :
  2 * (-5) < chord (0, 0) (4, 0)
  /\ chord (0, 0) (4, 0) <> 0
  /\ (exists e,
        ArcElement.new (0, 0) (4, 0) (-5) "left" = Py.Ok e
        /\ forall step, 0 < step ->
             hd (0, 0) (ArcElement.sample plain_runtime e step) <> (0, 0))
  /\ (exists rep,
        DesignStandards.validate_curve_parameters plain_runtime 0
          (point_value (0, 0)) (point_value (4, 0)) None None
          (Py.VStr "arc") (Py.VDict [("radius", Py.VFloat (-5))]) (Py.VFloat 60)
        = Some rep
        /\ DesignStandards.errors rep = [DesignStandards.RadiusNotPositive]
        /\ DesignStandards.ok rep = false).
Proof.
  assert (Hc : chord (0, 0) (4, 0) = 4) by (apply chord_on_axis; lra).
  split; [rewrite Hc; lra |]. split; [rewrite Hc; lra |]. split.
  - assert (H0 : chord (0, 0) (4, 0) <> 0) by (rewrite Hc; lra).
    assert (H1 : chord (0, 0) (4, 0) / 2 <= Rabs (-5))
      by (rewrite Hc, Rabs_left; lra).
    destruct (arc_new_fields (0, 0) (4, 0) (-5) "left" H0 H1) as (e & Hnew & _).
    exists e. split; [exact Hnew |]. intros step Hs.
    destruct (arc_sample_ends plain_runtime (0, 0) (4, 0) (-5) "left" e step Hnew Hs)
      as (_ & _ & _ & Hfirst & _).
    destruct (arc_constructed (0, 0) (4, 0) (-5) "left" e Hnew)
      as (_ & _ & _ & _ & _ & _ & HpA & _).
    rewrite Rabs_left in HpA by lra.
    intros Heq. pose proof (eq_trans (eq_sym Hfirst) Heq) as Hat.
    pose proof (f_equal fst HpA) as Hx. pose proof (f_equal snd HpA) as Hy.
    pose proof (f_equal fst Hat) as Hx'. pose proof (f_equal snd Hat) as Hy'.
    cbn [fst snd] in Hx, Hy, Hx', Hy'.
    pose proof (sin_cos_sqr (ArcElement.start_angle e)) as Hone.
    assert (Hcos : cos (ArcElement.start_angle e) = 0) by lra.
    assert (Hsin : sin (ArcElement.start_angle e) = 0) by lra.
    rewrite Hcos, Hsin in Hone. lra.
  - unfold DesignStandards.validate_curve_parameters.
    destruct (arc_curve_checks_return plain_runtime (0, 0) (4, 0) (Py.VFloat 60) (-5))
      as (st & Hst & He).
    rewrite Hst. simpl. eexists. split; [reflexivity |].
    assert (E1 : Py.leb (-5) 0 = true) by (apply leb_true; lra).
    rewrite E1 in He. simpl. rewrite He. split; reflexivity.
Qed.

(** ** The polyline of a clothoid *)

Section ClothoidPolyline.
Context (rt : Py.runtime).

(** With or without [numpy] the polyline is the vertex function on the
    grid [i / samples]. *)
Lemma build_poly_points (P0 P1 : Point) (radius spiral_length : R)
    (samples : Z) (side : string) :
  1e-9 < dist P0 P1 -> (1 <= samples)%Z ->
  let L := dist P0 P1 in
  let ux := - (snd P1 - snd P0) / L in
  let uy := (fst P1 - fst P0) / L in
  let sgn := if String.eqb side "right" then -1 else 1 in
  let offset_scale :=
    (spiral_length / Py.max 1 L) * (1 / Py.max 1 (Rabs radius)) * 0.5 in
  ClothoidElement._build_poly rt P0 P1 radius spiral_length samples side
  = map (fun i => ClothoidElement.vertex P0 P1 (sgn * ux) (sgn * uy) L offset_scale
                    (IZR i / IZR samples))
        (Py.range (samples + 1)).
Proof.
  intros HL Hs L ux uy sgn offset_scale.
  unfold ClothoidElement._build_poly.
  destruct P0 as [x0 y0], P1 as [x1 y1]. fold L.
  replace (Py.leb L 1e-9) with false by (symmetry; apply leb_false; exact HL).
  cbn [fst snd] in ux, uy. fold ux uy.
  unfold sgn. destruct (String.eqb side "right"); fold offset_scale;
    (destruct (Py._HAS_NUMPY rt);
     [rewrite (linspace_unit samples Hs), map_map |]);
    apply map_ext; intros i; f_equal; ring.
Qed.

Lemma vertex_ends (P0 P1 : Point) (ux uy L offset_scale : R) :
  ClothoidElement.vertex P0 P1 ux uy L offset_scale 0 = P0
  /\ ClothoidElement.vertex P0 P1 ux uy L offset_scale 1 = P1.
Proof.
  unfold ClothoidElement.vertex. destruct P0 as [x0 y0], P1 as [x1 y1].
  replace (PI * 0) with 0 by ring. replace (PI * 1) with PI by ring.
  rewrite sin_0, sin_PI. split; f_equal; ring.
Qed.

Lemma ratio_below_one (a : R) : 0 <= a -> 0 <= a / Py.max 1 a <= 1.
Proof.
  intros Ha. unfold Py.max.
  destruct (Py.ltb 1 a) eqn:E; [apply ltb_true in E | apply ltb_false in E].
  - replace (a / a) with 1 by (field; lra). lra.
  - lra.
Qed.

Lemma inverse_below_one (a : R) : 0 <= 1 / Py.max 1 a <= 1.
Proof.
  unfold Py.max.
  destruct (Py.ltb 1 a) eqn:E; [apply ltb_true in E | apply ltb_false in E].
  - assert (H : 0 < / a) by (apply Rinv_0_lt_compat; lra).
    assert (H1 : / a < / 1) by (apply Rinv_lt_contravar; lra).
    rewrite Rinv_1 in H1. unfold Rdiv. lra.
  - lra.
Qed.

(** The lateral shift of a vertex is at most half the spiral length. *)
Lemma vertex_near_chord (P0 P1 : Point) (radius spiral_length : R) (sgn t : R) :
  0 < dist P0 P1 -> 0 <= spiral_length -> sgn * sgn = 1 ->
  let L := dist P0 P1 in
  let ux := - (snd P1 - snd P0) / L in
  let uy := (fst P1 - fst P0) / L in
  let offset_scale :=
    (spiral_length / Py.max 1 L) * (1 / Py.max 1 (Rabs radius)) * 0.5 in
  dist (ClothoidElement.vertex P0 P1 (sgn * ux) (sgn * uy) L offset_scale t)
       (fst P0 + (fst P1 - fst P0) * t, snd P0 + (snd P1 - snd P0) * t)
  <= spiral_length / 2.
Proof.
  intros HL Hsl Hsgn L ux uy offset_scale.
  unfold ClothoidElement.vertex. destruct P0 as [x0 y0], P1 as [x1 y1].
  cbn [fst snd] in *.
  set (off := sin (PI * t) * (L * offset_scale)).
  assert (HL2 : L * L = (x0 - x1) * (x0 - x1) + (y0 - y1) * (y0 - y1)).
  { unfold L, dist. cbn [fst snd]. apply hypot_sqr. }
  assert (Hunit : ux * ux + uy * uy = 1).
  { unfold ux, uy. fold L in HL.
    replace (- (y1 - y0) / L * (- (y1 - y0) / L) + (x1 - x0) / L * ((x1 - x0) / L))
      with (((x0 - x1) * (x0 - x1) + (y0 - y1) * (y0 - y1)) / (L * L)) by (field; lra).
    rewrite <- HL2. field. lra. }
  assert (Hq : 0 <= L * offset_scale <= spiral_length / 2).
  { unfold offset_scale. fold L in HL.
    pose proof (ratio_below_one L ltac:(lra)) as [Ha0 Ha1].
    pose proof (inverse_below_one (Rabs radius)) as [Hb0 Hb1].
    set (a := L / Py.max 1 L) in *. set (b := 1 / Py.max 1 (Rabs radius)) in *.
    replace (L * (spiral_length / Py.max 1 L * b * 0.5))
      with (spiral_length * (a * b) * 0.5) by (unfold a; unfold Rdiv; ring).
    assert (Hab0 : 0 <= a * b) by (apply Rmult_le_pos; assumption).
    assert (Hab1 : a * b <= 1).
    { replace 1 with (1 * 1) by ring. apply Rmult_le_compat; assumption. }
    assert (H0 : 0 <= spiral_length * (a * b)) by (apply Rmult_le_pos; assumption).
    assert (H1 : spiral_length * (a * b) <= spiral_length * 1)
      by (apply Rmult_le_compat_l; assumption).
    lra. }
  set (q := L * offset_scale) in *.
  assert (Hoff : off * off <= q * q).
  { unfold off. pose proof (SIN_bound (PI * t)) as [Hs0 Hs1].
    set (s := sin (PI * t)) in *.
    assert (Hss : s * s <= 1) by nra.
    replace (s * q * (s * q)) with (s * s * (q * q)) by ring.
    assert (Hqq : 0 <= q * q) by (apply Rle_0_sqr).
    nra. }
  unfold dist. cbn [fst snd].
  apply Rle_trans with (r2 := Py.hypot q 0).
  - apply hypot_le.
    replace ((x0 + (x1 - x0) * t + sgn * ux * off - (x0 + (x1 - x0) * t))
             * (x0 + (x1 - x0) * t + sgn * ux * off - (x0 + (x1 - x0) * t))
             + (y0 + (y1 - y0) * t + sgn * uy * off - (y0 + (y1 - y0) * t))
               * (y0 + (y1 - y0) * t + sgn * uy * off - (y0 + (y1 - y0) * t)))
      with ((sgn * sgn) * (ux * ux + uy * uy) * (off * off)) by ring.
    rewrite Hsgn, Hunit. lra.
  - assert (E : Py.hypot q 0 = q) by (apply hypot_eq; [lra | ring]).
    rewrite E. lra.
Qed.

(** X20.  The polyline of a constructed clothoid.  Between two points at
    most 1e-9 apart it is the single point P0, the length is 0 and every
    sampling returns [P0].  Otherwise it has max(4, samples) + 1 vertices,
    starts at P0, ends at P1, and no vertex is farther than half the
    (clamped) spiral length from its foot on the chord. *)
Theorem clothoid_polyline_shape
    (P0 P1 : Point) (radius spiral_length : R) (samples : Z) (side : string) :
  let c := ClothoidElement.new rt P0 P1 radius spiral_length samples side in
  (dist P0 P1 <= 1e-9 ->
     ClothoidElement.poly c = [P0] /\ ClothoidElement.length c = 0
     /\ forall step, ClothoidElement.sample c step = [P0])
  /\ (1e-9 < dist P0 P1 ->
        List.length (ClothoidElement.poly c) = S (Z.to_nat (Py.zmax 4 samples))
        /\ hd P0 (ClothoidElement.poly c) = P0
        /\ List.last (ClothoidElement.poly c) P0 = P1
        /\ forall p, In p (ClothoidElement.poly c) ->
             exists t, 0 <= t <= 1
               /\ dist p (fst P0 + (fst P1 - fst P0) * t,
                          snd P0 + (snd P1 - snd P0) * t)
                  <= ClothoidElement.spiral_length c / 2).
Proof.
  intros c. split.
  - intros HL.
    assert (Hpoly : ClothoidElement.poly c = [P0]).
    { unfold c, ClothoidElement.new. cbn [ClothoidElement.poly].
      unfold ClothoidElement._build_poly. destruct P0 as [x0 y0], P1 as [x1 y1].
      replace (Py.leb (dist (x0, y0) (x1, y1)) 1e-9) with true
        by (symmetry; apply leb_true; exact HL).
      reflexivity. }
    split; [exact Hpoly |]. split.
    + unfold c, ClothoidElement.new in *. cbn [ClothoidElement.poly ClothoidElement.length] in *.
      rewrite Hpoly. reflexivity.
    + intros step. unfold ClothoidElement.sample. rewrite Hpoly.
      destruct (Py.leb step 0); [reflexivity |].
      cbn [fold_left ClothoidElement.out rev app List.last].
      unfold Point_eqb. rewrite !eqb_refl. reflexivity.
  - intros HL.
    assert (Hs : (1 <= Py.zmax 4 samples)%Z) by (pose proof (zmax_lower 4 samples); lia).
    assert (Hside : (if String.eqb
                          (if orb (String.eqb side "left") (String.eqb side "right")
                           then side else "left") "right"
                     then -1 else 1)
                    * (if String.eqb
                            (if orb (String.eqb side "left") (String.eqb side "right")
                             then side else "left") "right"
                       then -1 else 1) = 1).
    { destruct (String.eqb _ "right"); ring. }
    pose proof (build_poly_points P0 P1 radius (Py.max 0 spiral_length)
                  (Py.zmax 4 samples)
                  (if orb (String.eqb side "left") (String.eqb side "right")
                   then side else "left") HL Hs) as Hpts.
    cbv zeta in Hpts.
    assert (Hpoly : ClothoidElement.poly c
                    = ClothoidElement._build_poly rt P0 P1 radius (Py.max 0 spiral_length)
                        (Py.zmax 4 samples)
                        (if orb (String.eqb side "left") (String.eqb side "right")
                         then side else "left")) by reflexivity.
    rewrite Hpoly, Hpts.
    match goal with
    | |- context [map (fun i => ?g (IZR i / IZR ?n)) _] =>
        destruct (unit_grid g n P0 Hs) as (Hcount & Hfirst & Hlast & Hin)
    end.
    cbv zeta in Hcount, Hfirst, Hlast, Hin.
    split; [exact Hcount |].
    split; [rewrite Hfirst; apply vertex_ends |].
    split; [rewrite Hlast; apply vertex_ends |].
    intros p Hp. destruct (Hin p Hp) as (t & Ht & ->).
    exists t. split; [exact Ht |].
    change (ClothoidElement.spiral_length c) with (Py.max 0 spiral_length).
    apply vertex_near_chord.
    + lra.
    + apply (max_bounds 0 spiral_length).
    + exact Hside.
Qed.

End ClothoidPolyline.

(** ** Resampling a clothoid: the ends are kept *)

Lemma emit_extends_out (fuel : nat) (step : R) (cur : Point) :
  forall (w : ClothoidElement.walker) (seg : R),
  exists more,
    ClothoidElement.out (fst (ClothoidElement.emit fuel step cur w seg))
    = ClothoidElement.out w ++ more.
Proof.
  induction fuel as [| fuel IH]; intros w seg.
  - exists []. simpl. rewrite app_nil_r. reflexivity.
  - cbn [ClothoidElement.emit].
    destruct (Py.leb step (ClothoidElement.acc w + seg)).
    + cbv zeta.
      match goal with
      | |- context [ClothoidElement.emit fuel step cur ?w' ?seg'] =>
          destruct (IH w' seg') as [more Hmore]
      end.
      rewrite Hmore. cbn [ClothoidElement.out]. rewrite <- app_assoc.
      eexists. reflexivity.
    + exists []. simpl. rewrite app_nil_r. reflexivity.
Qed.

Lemma visit_extends_out (step : R) (w : ClothoidElement.walker) (cur : Point) :
  exists more,
    ClothoidElement.out (ClothoidElement.visit step w cur)
    = ClothoidElement.out w ++ more.
Proof.
  unfold ClothoidElement.visit.
  destruct (Py.leb (dist (ClothoidElement.prev w) cur) 1e-12).
  - exists []. simpl. rewrite app_nil_r. reflexivity.
  - destruct (emit_extends_out
                (ClothoidElement.emit_fuel step (ClothoidElement.acc w)
                   (dist (ClothoidElement.prev w) cur))
                step cur w (dist (ClothoidElement.prev w) cur)) as [more Hmore].
    destruct (ClothoidElement.emit _ step cur w _) as [w' seg'].
    exists more. exact Hmore.
Qed.

Lemma walk_extends_out (step : R) (rest : list Point) :
  forall w : ClothoidElement.walker,
  exists more,
    ClothoidElement.out (fold_left (ClothoidElement.visit step) rest w)
    = ClothoidElement.out w ++ more.
Proof.
  induction rest as [| cur rest IH]; intros w.
  - exists []. simpl. rewrite app_nil_r. reflexivity.
  - cbn [fold_left].
    destruct (IH (ClothoidElement.visit step w cur)) as [more Hmore].
    destruct (visit_extends_out step w cur) as [more' Hmore'].
    rewrite Hmore, Hmore', <- app_assoc. eexists. reflexivity.
Qed.

Lemma Point_eqb_eq (p q : Point) : Point_eqb p q = true <-> p = q.
Proof.
  unfold Point_eqb. rewrite andb_true_iff, !eqb_true.
  destruct p, q; simpl; split; [intros [-> ->]; reflexivity | intros E; inversion E; auto].
Qed.

Lemma last_default {T : Type} (l : list T) (d d' : T) :
  l <> [] -> List.last l d = List.last l d'.
Proof.
  induction l as [| x l IH]; [contradiction |].
  intros _. destruct l as [| y l]; [reflexivity |].
  change (List.last (y :: l) d = List.last (y :: l) d').
  apply IH. discriminate.
Qed.

(** X21.  For a cached polyline with coordinates of magnitude at most 1e6
    and a step that is not positive or is at least 1e-6 (a range in which
    every turn of the resampling loop advances), the resampled polyline of a
    clothoid starts at the first vertex of the cached polyline and ends at
    its last vertex. *)
Theorem clothoid_sample_keeps_ends (c : ClothoidElement.t) (step : R) (d : Point) :
  ClothoidElement.poly c <> [] ->
  Forall (fun p : Point => Rabs (fst p) <= 1e6 /\ Rabs (snd p) <= 1e6)
         (ClothoidElement.poly c) ->
  step <= 0 \/ 1e-6 <= step ->
  hd d (ClothoidElement.sample c step) = hd d (ClothoidElement.poly c)
  /\ List.last (ClothoidElement.sample c step) d = List.last (ClothoidElement.poly c) d.
Proof.
  intros Hne _ _. unfold ClothoidElement.sample.
  destruct (ClothoidElement.poly c) as [| p0 rest] eqn:Hpoly; [contradiction |].
  destruct (Py.leb step 0); [split; reflexivity |].
  cbv zeta.
  destruct (walk_extends_out step rest
              {| ClothoidElement.prev := p0; ClothoidElement.acc := 0;
                 ClothoidElement.out := [p0] |}) as [more Hmore].
  cbn [ClothoidElement.out] in Hmore.
  set (w := fold_left (ClothoidElement.visit step) rest _) in *.
  rewrite Hmore.
  assert (Hfinal : List.last (p0 :: rest) p0 = List.last (p0 :: rest) d).
  { apply last_default. discriminate. }
  destruct (rev ([p0] ++ more)) as [| l tail] eqn:Hrev.
  - apply (f_equal (@List.length Point)) in Hrev.
    rewrite length_rev in Hrev. simpl in Hrev. discriminate.
  - assert (Hl : List.last ([p0] ++ more) d = l).
    { apply (f_equal (@rev Point)) in Hrev. rewrite rev_involutive in Hrev.
      rewrite Hrev. simpl. apply last_last. }
    destruct (Point_eqb l (List.last (p0 :: rest) p0)) eqn:E; cbn [negb].
    + apply Point_eqb_eq in E. split; [reflexivity |].
      rewrite Hl, E. exact Hfinal.
    + split; [reflexivity |].
      rewrite last_last. exact Hfinal.
Qed.

Lemma clothoid_sample_keeps_ends_witness :
  let c := {| ClothoidElement.P0 := (0, 0); ClothoidElement.P1 := (4, 0);
              ClothoidElement.radius := 50; ClothoidElement.spiral_length := 0;
              ClothoidElement.samples := 4; ClothoidElement.side := "left";
              ClothoidElement.poly := [(0, 0); (2, 0); (4, 0)];
              ClothoidElement.length := 4 |} in
  ClothoidElement.poly c <> []
  /\ Forall (fun p : Point => Rabs (fst p) <= 1e6 /\ Rabs (snd p) <= 1e6)
            (ClothoidElement.poly c)
  /\ (3 <= 0 \/ 1e-6 <= 3)
  /\ hd (0, 0) (ClothoidElement.sample c 3) = (0, 0)
  /\ List.last (ClothoidElement.sample c 3) (0, 0) = (4, 0).
Proof.
  intros c.
  assert (H1 : ClothoidElement.poly c <> []) by discriminate.
  assert (H2 : Forall (fun p : Point => Rabs (fst p) <= 1e6 /\ Rabs (snd p) <= 1e6)
                      (ClothoidElement.poly c)).
  { repeat constructor; cbn [fst snd];
      first [rewrite Rabs_R0; lra | rewrite Rabs_right; lra]. }
  assert (H3 : 3 <= 0 \/ 1e-6 <= 3) by (right; lra).
  split; [exact H1 |]. split; [exact H2 |]. split; [exact H3 |].
  exact (clothoid_sample_keeps_ends c 3 (0, 0) H1 H2 H3).
Defined.

(** ** The surface: cache, fan and contour levels *)

Section Surface.
Context (ev : Canvas.env).

(** X22.  A second call of [compute_triangulation] returns what the first
    one returned and leaves the widget as the first one left it; neither call
    touches the shapes or the manual triangles. *)
Theorem compute_triangulation_is_cached (self : Canvas.t) :
  Canvas.compute_triangulation ev (snd (Canvas.compute_triangulation ev self))
  = Canvas.compute_triangulation ev self
  /\ Canvas.shapes (snd (Canvas.compute_triangulation ev self)) = Canvas.shapes self
  /\ Canvas.triangles (snd (Canvas.compute_triangulation ev self))
     = Canvas.triangles self.
Proof.
  unfold Canvas.compute_triangulation.
  destruct (PyList.len (filter Canvas.is_point (Canvas.shapes self)) <? 3)%Z eqn:E3.
  - cbn [snd]. rewrite E3. repeat split.
  - cbv zeta.
    assert (Hrefl : forall h, Canvas.hash_eqb h h = true).
    { intros [h |]; simpl; [apply Z.eqb_refl | reflexivity]. }
    destruct (Canvas._cached_triangles self) as [cached |] eqn:Ec.
    + destruct (Canvas.hash_eqb (Canvas._points_hash ev self)
                  (Canvas._last_pts_hash self)) eqn:Eh.
      * cbn [snd]. rewrite E3, Ec, Eh. repeat split.
      * cbn [snd Canvas.shapes Canvas._cached_triangles Canvas._last_pts_hash
             Canvas.triangles].
        rewrite E3. unfold Canvas._points_hash. cbn [Canvas.shapes].
        rewrite Hrefl. repeat split.
    + cbn [snd Canvas.shapes Canvas._cached_triangles Canvas._last_pts_hash
           Canvas.triangles].
      rewrite E3. unfold Canvas._points_hash. cbn [Canvas.shapes].
      rewrite Hrefl. repeat split.
Qed.

End Surface.

(** *** The centroid fan *)

Lemma sq_dist_zero (c pt : Point) :
  0 <= (fst c - fst pt) ^ 2 + (snd c - snd pt) ^ 2
  /\ ((fst c - fst pt) ^ 2 + (snd c - snd pt) ^ 2 = 0 <-> c = pt).
Proof.
  destruct c as [x y], pt as [u v]. cbn [fst snd].
  pose proof (pow2_ge_0 (x - u)) as H1. pose proof (pow2_ge_0 (y - v)) as H2.
  split; [lra |]. split.
  - intros H.
    assert (Hx : (x - u) ^ 2 = 0) by lra. assert (Hy : (y - v) ^ 2 = 0) by lra.
    rewrite <- Rsqr_pow2 in Hx, Hy.
    apply Rsqr_0_uniq in Hx. apply Rsqr_0_uniq in Hy. f_equal; lra.
  - intros E. inversion E. subst. ring.
Qed.

Lemma nearest_stays (pt : Point) (coords : list Point) :
  forall (k x : nat), Canvas.nearest pt coords k (Some (x, 0)) = Some (x, 0).
Proof.
  induction coords as [| c rest IH]; intros k x; [reflexivity |].
  cbn [Canvas.nearest]. cbv zeta.
  pose proof (sq_dist_zero c pt) as [Hpos _].
  replace (Py.ltb ((fst c - fst pt) ^ 2 + (snd c - snd pt) ^ 2) 0) with false
    by (symmetry; apply ltb_false; exact Hpos).
  apply IH.
Qed.

(** The nearest-point search stops at the first input point that is the
    query point itself. *)
Lemma nearest_exact (pt : Point) (coords : list Point) :
  forall (k i : nat) (best : option (nat * R)),
  nth_error coords i = Some pt ->
  (forall j c, (j < i)%nat -> nth_error coords j = Some c -> c <> pt) ->
  match best with None => True | Some (_, bd) => 0 < bd end ->
  Canvas.nearest pt coords k best = Some ((k + i)%nat, 0).
Proof.
  induction coords as [| c rest IH]; intros k i best Hi Hfirst Hbest.
  - destruct i; discriminate.
  - cbn [Canvas.nearest]. cbv zeta.
    pose proof (sq_dist_zero c pt) as [Hpos Hzero].
    destruct i as [| i].
    + simpl in Hi. injection Hi as ->.
      assert (E0 : (fst pt - fst pt) ^ 2 + (snd pt - snd pt) ^ 2 = 0) by ring.
      rewrite E0. rewrite Nat.add_0_r.
      destruct best as [[b bd] |].
      * replace (Py.ltb 0 bd) with true by (symmetry; apply ltb_true; exact Hbest).
        apply nearest_stays.
      * apply nearest_stays.
    + simpl in Hi.
      assert (Hne : c <> pt) by (apply (Hfirst 0%nat); [lia | reflexivity]).
      assert (Hd : 0 < (fst c - fst pt) ^ 2 + (snd c - snd pt) ^ 2).
      { destruct Hpos as [Hlt | Heq]; [exact Hlt |].
        exfalso. apply Hne, Hzero. symmetry. exact Heq. }
      replace (k + S i)%nat with (S k + i)%nat by lia.
      apply IH.
      * exact Hi.
      * intros j c' Hj Hc'. apply (Hfirst (S j)); [lia | exact Hc'].
      * destruct best as [[b bd] |]; [| exact Hd].
        destruct (Py.ltb _ bd); [exact Hd | exact Hbest].
Qed.

Lemma get_z_at_input_point (coords : list Point) (zs : list R) (i : nat) :
  NoDup coords -> (i < List.length coords)%nat ->
  Canvas.get_z_at coords zs (nth i coords (0, 0)) = nth i zs 0.
Proof.
  intros Hnd Hi. unfold Canvas.get_z_at.
  rewrite (nearest_exact (nth i coords (0, 0)) coords 0 i None).
  - reflexivity.
  - apply nth_error_nth'. exact Hi.
  - intros j c Hj Hc Heq.
    assert (Hjl : (j < List.length coords)%nat) by lia.
    rewrite (nth_error_nth' coords (0, 0) Hjl) in Hc. injection Hc as <-.
    assert (j = i) by (apply (proj1 (NoDup_nth coords (0, 0)) Hnd); assumption).
    lia.
  - exact I.
Qed.

(** X23.  The fallback triangulation of at least three pairwise distinct
    points is a fan of as many triangles as points: triangle i joins the
    centroid to point i and to the next point (cyclically), and each of the
    two corners carries the elevation of its own point. *)
Theorem fallback_fan_of_distinct_points (coords : list Point) (zs : list R) (i : nat) :
  NoDup coords -> (3 <= List.length coords)%nat -> (i < List.length coords)%nat ->
  let n := List.length coords in
  let cx := Py.sum (map fst coords) / IZR (Z.of_nat n) in
  let cy := Py.sum (map snd coords) / IZR (Z.of_nat n) in
  let j := Nat.modulo (i + 1) n in
  List.length (Canvas._triangulate_fallback coords zs) = n
  /\ nth i (Canvas._triangulate_fallback coords zs) ((0, 0, 0), (0, 0, 0), (0, 0, 0))
     = ((cx, cy, Canvas.get_z_at coords zs (cx, cy)),
        (fst (nth i coords (0, 0)), snd (nth i coords (0, 0)), nth i zs 0),
        (fst (nth j coords (0, 0)), snd (nth j coords (0, 0)), nth j zs 0)).
Proof.
  intros Hnd H3 Hi n cx cy j.
  unfold Canvas._triangulate_fallback, PyList.len.
  replace (Z.of_nat (List.length coords) <? 3)%Z with false
    by (symmetry; apply Z.ltb_ge; lia).
  cbv zeta. fold n cx cy.
  split; [rewrite length_map, length_seq; reflexivity |].
  assert (Hj : (j < n)%nat) by (apply Nat.mod_upper_bound; unfold n; lia).
  set (f := fun i0 : nat => _).
  rewrite (nth_indep _ _ (f 0%nat)) by (rewrite length_map, length_seq; exact Hi).
  rewrite map_nth, seq_nth by exact Hi. unfold f. cbn [Nat.add].
  fold n. fold j.
  rewrite (get_z_at_input_point coords zs i Hnd Hi).
  rewrite (get_z_at_input_point coords zs j Hnd Hj).
  reflexivity.
Qed.

(** *** Contour levels *)

Lemma ratio_in_unit (za zb lev : R) :
  (za <= lev <= zb \/ zb <= lev <= za) -> zb - za <> 0 ->
  0 <= (lev - za) / (zb - za) <= 1.
Proof.
  intros Hspan Hnz.
  destruct (Rlt_dec 0 (zb - za)) as [Hp | Hp].
  - assert (Hi : 0 < / (zb - za)) by (apply Rinv_0_lt_compat; exact Hp).
    unfold Rdiv. split.
    + apply Rmult_le_pos; lra.
    + apply Rmult_le_reg_r with (r := zb - za); [exact Hp |].
      rewrite Rmult_assoc, Rinv_l by exact Hnz. lra.
  - assert (Hn : 0 < - (zb - za)) by lra.
    assert (Hi : 0 < / - (zb - za)) by (apply Rinv_0_lt_compat; exact Hn).
    replace ((lev - za) / (zb - za)) with ((za - lev) * / - (zb - za))
      by (field; exact Hnz).
    split.
    + apply Rmult_le_pos; lra.
    + apply Rmult_le_reg_r with (r := - (zb - za)); [exact Hn |].
      rewrite Rmult_assoc, Rinv_l by lra. lra.
Qed.

(** X24.  The crossing of a level with a triangle edge is empty or one
    point; the point lies on the edge at a parameter t in [0, 1] at which the
    linearly interpolated elevation is the level; an edge with both ends
    strictly on one side of the level has no crossing, and an edge that
    spans the level and rises or falls by 1e-12 or more has one. *)
Theorem edge_crossing_is_on_level (lev : R) (a b : Point3) :
  let za := snd a in
  let zb := snd b in
  (Canvas.edge_crossing lev a b = []
   \/ exists t, 0 <= t <= 1
        /\ Canvas.edge_crossing lev a b
           = [ (fst (fst a) + (fst (fst b) - fst (fst a)) * t,
                snd (fst a) + (snd (fst b) - snd (fst a)) * t) ]
        /\ za + (zb - za) * t = lev)
  /\ ((za < lev /\ zb < lev) \/ (lev < za /\ lev < zb) ->
        Canvas.edge_crossing lev a b = [])
  /\ ((za <= lev <= zb \/ zb <= lev <= za) -> 1e-12 <= Rabs (zb - za) ->
        exists p, Canvas.edge_crossing lev a b = [p]).
Proof.
  intros za zb. unfold Canvas.edge_crossing. fold za zb.
  assert (Hguard :
    orb (andb (Py.ltb za lev) (Py.ltb zb lev)) (andb (Py.ltb lev za) (Py.ltb lev zb))
    = true
    <-> (za < lev /\ zb < lev) \/ (lev < za /\ lev < zb)).
  { rewrite orb_true_iff, !andb_true_iff, !ltb_true. reflexivity. }
  destruct (orb _ _) eqn:G.
  - assert (Hside : (za < lev /\ zb < lev) \/ (lev < za /\ lev < zb))
      by (apply Hguard; reflexivity).
    split; [left; reflexivity |]. split; [intros _; reflexivity |].
    intros Hspan _. exfalso.
    destruct Hside as [[? ?] | [? ?]]; destruct Hspan as [[? ?] | [? ?]]; lra.
  - assert (Hns : ~ ((za < lev /\ zb < lev) \/ (lev < za /\ lev < zb))).
    { intros H. apply Hguard in H. discriminate. }
    destruct (Py.ltb (Rabs (zb - za)) 1e-12) eqn:E5;
      [apply ltb_true in E5 | apply ltb_false in E5].
    + split; [left; reflexivity |]. split; [intros H; contradiction |].
      intros _ Hw. lra.
    + assert (Hnz : zb - za <> 0) by (intros H0; rewrite H0, Rabs_R0 in E5; lra).
      assert (Hspan : za <= lev <= zb \/ zb <= lev <= za).
      { destruct (Rlt_dec za lev); destruct (Rlt_dec zb lev);
          destruct (Rlt_dec lev za); destruct (Rlt_dec lev zb);
          first [ left; lra | right; lra
                | exfalso; apply Hns; first [left; lra | right; lra] ]. }
      destruct (ratio_in_unit za zb lev Hspan Hnz) as [Ht0 Ht1].
      replace (Py.leb 0 ((lev - za) / (zb - za))) with true
        by (symmetry; apply leb_true; exact Ht0).
      replace (Py.leb ((lev - za) / (zb - za)) 1) with true
        by (symmetry; apply leb_true; exact Ht1).
      cbn [andb].
      split; [| split; [intros H; contradiction | intros _ _; eexists; reflexivity]].
      right. exists ((lev - za) / (zb - za)).
      split; [split; assumption |]. split; [reflexivity |]. field. exact Hnz.
Qed.

Section ContourLevels.
Context (ev : Canvas.env).

(** X25.  With the interval 0 passed explicitly, [compute_contours] returns
    the empty dictionary, whatever the fuel: on a mesh that is not flat the
    division of the lowest elevation by the interval raises
    ZeroDivisionError before the level loop is reached, and the error is
    swallowed. *)
Theorem contours_with_zero_interval
    (self : Canvas.t) (sub_divisions : option Z) (fuel : nat) :
  Canvas.compute_contours ev fuel self (Some 0) sub_divisions
  = Some ([], snd (Canvas.compute_triangulation ev self))
  /\ (forall (tris : list Triangle) (minz maxz : R) (sd : Z),
        Canvas.extract fuel tris minz maxz 0 sd
        = Some (Py.Raise Py.ZeroDivisionError)).
Proof.
  split.
  - unfold Canvas.compute_contours.
    destruct (Canvas.compute_triangulation ev self) as [tris self']. cbn [snd].
    destruct tris as [| tri tris]; [reflexivity |].
    destruct (Py.eqb _ _); [reflexivity |].
    unfold Canvas.extract, DesignStandards.div. rewrite eqb_refl. reflexivity.
  - intros tris minz maxz sd.
    unfold Canvas.extract, DesignStandards.div. rewrite eqb_refl. reflexivity.
Qed.

End ContourLevels.

Lemma fallback_fan_of_distinct_points_witness :
  nth 2 (Canvas._triangulate_fallback [(0, 0); (3, 0); (0, 3)] [10; 20; 30])
      ((0, 0, 0), (0, 0, 0), (0, 0, 0))
  = ((Py.sum (map fst [(0, 0); (3, 0); (0, 3)]) / IZR (Z.of_nat 3),
      Py.sum (map snd [(0, 0); (3, 0); (0, 3)]) / IZR (Z.of_nat 3),
      Canvas.get_z_at [(0, 0); (3, 0); (0, 3)] [10; 20; 30]
        (Py.sum (map fst [(0, 0); (3, 0); (0, 3)]) / IZR (Z.of_nat 3),
         Py.sum (map snd [(0, 0); (3, 0); (0, 3)]) / IZR (Z.of_nat 3))),
     (0, 3, 30), (0, 0, 10)).
Proof.
  assert (Hnd : NoDup [(0, 0); (3, 0); (0, 3)]).
  { repeat constructor; simpl; intros H;
      repeat (destruct H as [H | H]; [inversion H; lra |]); exact H. }
  exact (proj2 (fallback_fan_of_distinct_points [(0, 0); (3, 0); (0, 3)] [10; 20; 30]
                  2 Hnd ltac:(simpl; lia) ltac:(simpl; lia))).
Defined.

(** ** Sampling a whole alignment: the points *)

Section AlignmentSamplePoints.
Context (rt : Py.runtime).

(** Joining the sample of one element to the points so far keeps every
    point of both: the only point left out is the first one of the sample
    when it is the last point so far. *)
Lemma join_keeps_points (pts spts : list Point) (p : Point) :
  In p (match spts with
        | [] => pts
        | s0 :: stail =>
            match rev pts with
            | last :: _ => if Point_eqb last s0 then pts ++ stail else pts ++ spts
            | [] => pts ++ spts
            end
        end)
  <-> In p pts \/ In p spts.
Proof.
  destruct spts as [| s0 stail]; [simpl; tauto |].
  destruct (rev pts) as [| last tail] eqn:Hrev; [apply in_app_iff |].
  destruct (Point_eqb last s0) eqn:E; [| apply in_app_iff].
  apply Point_eqb_eq in E. subst s0.
  assert (Hlast : In last pts).
  { apply in_rev. rewrite Hrev. left. reflexivity. }
  rewrite in_app_iff. simpl. split.
  - intros [H | H]; auto.
  - intros [H | [<- | H]]; auto.
Qed.

(** X26.  The points of [Alignment.sample] are exactly the points of the
    samples of its elements: none is invented, and none is lost when a
    repeated junction point is dropped. *)
Theorem alignment_sample_points (s : Alignment.t) (step : R) (p : Point) :
  In p (Alignment.sample rt s step)
  <-> exists el, In el (Alignment.elements s) /\ In p (element_sample rt el step).
Proof.
  unfold Alignment.sample.
  assert (Hgen : forall (els : list BaseElement) (pts : list Point),
    In p (fold_left
            (fun pts el =>
               let spts := element_sample rt el step in
               match spts with
               | [] => pts
               | s0 :: stail =>
                   match rev pts with
                   | last :: _ =>
                       if Point_eqb last s0 then pts ++ stail else pts ++ spts
                   | [] => pts ++ spts
                   end
               end) els pts)
    <-> In p pts \/ exists el, In el els /\ In p (element_sample rt el step)).
  { induction els as [| el els IH]; intros pts.
    - simpl. split; [auto | intros [H | (el & [] & _)]; exact H].
    - cbn [fold_left]. rewrite IH. cbv zeta. rewrite join_keeps_points. split.
      + intros [[H | H] | (el' & Hel' & H)].
        * left. exact H.
        * right. exists el. split; [left; reflexivity | exact H].
        * right. exists el'. split; [right; exact Hel' | exact H].
      + intros [H | (el' & [<- | Hel'] & H)].
        * left. left. exact H.
        * left. right. exact H.
        * right. exists el'. split; assumption. }
  rewrite Hgen. simpl. split.
  - intros [[] | H]. exact H.
  - intros H. right. exact H.
Qed.

End AlignmentSamplePoints.

Lemma alignment_sample_points_witness :
  In (0, 0) (Alignment.sample plain_runtime two_lines 0).
Proof.
  apply (alignment_sample_points plain_runtime two_lines 0 (0, 0)).
  exists (Line (LineElement.new (0, 0) (1, 0))). split.
  - left. reflexivity.
  - unfold element_sample, LineElement.sample.
    replace (Py.leb 0 0) with true by (symmetry; apply leb_true; lra).
    rewrite orb_true_r.
    destruct (Py.ltb 0 _); left; reflexivity.
Defined.

(** ** Instances *)

Lemma flatten_vertices_one_vertex_per_position_witness :
  In (0, 0) (flat_map element_vertices (Alignment.elements two_lines))
  /\ exists q, In q (flatten_vertices two_lines) /\ vertex_key q = vertex_key (0, 0).
Proof.
  assert (H : In (0, 0) (flat_map element_vertices (Alignment.elements two_lines)))
    by (left; reflexivity).
  split; [exact H |].
  exact (proj2 (proj2 (flatten_vertices_one_vertex_per_position two_lines)) (0, 0) H).
Defined.

Lemma nearest_vertex_is_first_nearest_witness :
  match nearest_vertex two_lines (0, 0) 10 with
  | Some (i, v) =>
      (0 <= i)%Z
      /\ nth_error (flatten_vertices two_lines) (Z.to_nat i) = Some v
      /\ dist (0, 0) v <= 10
      /\ (forall w, In w (flatten_vertices two_lines) -> dist (0, 0) v <= dist (0, 0) w)
      /\ (forall (k : nat) w, (k < Z.to_nat i)%nat ->
            nth_error (flatten_vertices two_lines) k = Some w ->
            dist (0, 0) v < dist (0, 0) w)
  | None => forall w, In w (flatten_vertices two_lines) -> 10 < dist (0, 0) w
  end.
Proof.
  exact (nearest_vertex_is_first_nearest two_lines (0, 0) 10).
Defined.

Lemma recommend_radius_range_bounds_witness :
  Py.float plain_runtime (Py.VFloat 60) = Py.Ok 60
  /\ Rabs 60 <= 1e6 /\ 100 <= 1e100
  /\ exists r_min r_max,
       DesignStandards.recommend_radius_range plain_runtime 100 (Py.VFloat 60)
       = (Fin r_min, Fin r_max)
       /\ 3 <= r_min /\ 100 / 8 <= r_min
       /\ r_min < r_max /\ 30 <= r_max /\ 100 * 8 <= r_max.
Proof.
  assert (H1 : Rabs 60 <= 1e6) by (rewrite Rabs_right; lra).
  assert (H2 : 100 <= 1e100) by lra.
  split; [reflexivity |]. split; [exact H1 |]. split; [exact H2 |].
  exact (proj1 (recommend_radius_range_bounds plain_runtime 100 (Py.VFloat 60))
               60 eq_refl H1 H2).
Defined.

Lemma recommend_spiral_length_range_bounds_witness :
  3 <= fst (DesignStandards.recommend_spiral_length_range 100 (Py.VFloat 60))
  /\ snd (DesignStandards.recommend_spiral_length_range 100 (Py.VFloat 60)) <= 200.
Proof.
  pose proof (recommend_spiral_length_range_bounds 100 (Py.VFloat 60)) as H.
  destruct (DesignStandards.recommend_spiral_length_range 100 (Py.VFloat 60))
    as [lo hi].
  destruct H as (H1 & _ & [_ H2] & _). split; assumption.
Defined.

Lemma stopping_sight_distance_edges_witness :
  0 <= 2.5 /\ 0 < 3.4 /\ 0 <= 50 <= 60
  /\ DesignStandards.stopping_sight_distance plain_runtime (Py.VFloat 50) 2.5 3.4
     <= DesignStandards.stopping_sight_distance plain_runtime (Py.VFloat 60) 2.5 3.4.
Proof.
  assert (H1 : 0 <= 2.5) by lra. assert (H2 : 0 < 3.4) by lra.
  assert (H3 : 0 <= 50 <= 60) by lra.
  split; [exact H1 |]. split; [exact H2 |]. split; [exact H3 |].
  exact (proj2 (proj2 (proj2 (stopping_sight_distance_edges plain_runtime 2.5 3.4))
                 H1 H2 50 60 H3)).
Defined.

Lemma recommend_superelevation_steps_witness :
  Py.float plain_runtime Py.VNone = Py.Raise Py.TypeError
  /\ DesignStandards.recommend_superelevation plain_runtime Py.VNone = 0.04
  /\ DesignStandards.recommend_label_interval plain_runtime Py.VNone = 10.
Proof.
  split; [reflexivity |].
  exact (proj2 (proj2 (proj2 (recommend_superelevation_steps plain_runtime 0)))
               Py.VNone Py.TypeError eq_refl).
Defined.

Lemma clothoid_polyline_shape_witness :
  1e-9 < dist (0, 0) (10, 0)
  /\ List.last
       (ClothoidElement.poly
          (ClothoidElement.new plain_runtime (0, 0) (10, 0) 50 10 8 "left")) (0, 0)
     = (10, 0).
Proof.
  assert (H : 1e-9 < dist (0, 0) (10, 0)) by (rewrite dist_on_axis; lra).
  split; [exact H |].
  destruct (proj2 (clothoid_polyline_shape plain_runtime (0, 0) (10, 0) 50 10 8 "left") H)
    as (_ & _ & Hlast & _).
  exact Hlast.
Defined.

Lemma edge_crossing_is_on_level_witness :
  (0 <= 5 <= 10 \/ 10 <= 5 <= 0) /\ 1e-12 <= Rabs (10 - 0)
  /\ exists p, Canvas.edge_crossing 5 (0, 0, 0) (2, 0, 10) = [p].
Proof.
  assert (H1 : 0 <= 5 <= 10 \/ 10 <= 5 <= 0) by (left; lra).
  assert (H2 : 1e-12 <= Rabs (10 - 0)) by (rewrite Rabs_right; lra).
  split; [exact H1 |]. split; [exact H2 |].
  exact (proj2 (proj2 (edge_crossing_is_on_level 5 (0, 0, 0) (2, 0, 10))) H1 H2).
Defined.

